(** * AdsMarket: escrow ledger, order state machine, settlement and delivery check

    A shallow embedding of the money-handling core of the AdsMarket backend
    (backend_py/app): the order payment primitives of
    [services/order_payment.py], the order transitions of
    [api/routes/orders.py], [api/routes/internal.py] and
    [telegram_bot/handlers.py], the USDT deposit scanner, the withdrawal
    requests and the USDT/TON withdrawal senders, the connected wallets, the
    Stars top-up, refund and exchange, and the order verifier.

    Conventions of the embedding.
    - The database is an explicit value [DB] threaded through every function;
      a function that commits returns the new database, a function that rolls
      back or raises returns the database it was given.
    - [Decimal] amounts are integers counting the unit 10^-9, the finest scale
      of the [Numeric] columns, so [Decimal("0.3")] is [300000000]; a request
      amount with more than nine decimals is outside the model.  Where the
      code can write a value finer than the column that receives it, the
      column's rounding is written out ([numeric]).
    - A [user_balances] row is identified by [(telegram_id, currency)]: every
      insertion site of the code first selects the row and inserts only when
      the select is empty.
    - Python [str] values are lists of code points; the link
      [https://t.me/{username}/{message_id}] is kept as the pair of the two
      values it interpolates. *)

From Stdlib Require Import ZArith List Lia Bool String Ascii.
From stdpp Require Import base numbers option list gmap strings fin_maps.

Local Open Scope Z_scope.

(** ** Data model ([db/models.py]) *)

Definition Decimal := Z.

Inductive Currency := Stars | Ton | Usdt.

#[global] Instance Currency_eq_dec : EqDecision Currency.
Proof. solve_decision. Defined.

#[global] Instance Currency_countable : Countable Currency.
Proof.
  refine (inj_countable'
            (fun c => match c with Stars => 0%nat | Ton => 1%nat | Usdt => 2%nat end)
            (fun n => match n with O => Stars | S O => Ton | _ => Usdt end) _).
  by intros [].
Defined.

(** [Order.status]: writing_post -> pending_seller -> done | cancelled. *)
Inductive OrderStatus := writing_post | pending_seller | done_ | cancelled.

#[global] Instance OrderStatus_eq_dec : EqDecision OrderStatus.
Proof. solve_decision. Defined.

Definition pystr := list N.

(** Code points of an ASCII literal. *)
Definition lit (s : string) : pystr :=
  List.map N_of_ascii (list_ascii_of_string s).

Record UserBalance := mkUserBalance {
  available : Decimal;
  frozen : Decimal;
  total_deposited : Decimal;
  total_withdrawn : Decimal
}.

Record Order := mkOrder {
  channel_id : Z;
  format_id : Z;
  buyer_telegram_id : Z;
  seller_telegram_id : Z;
  status : OrderStatus;
  payment_currency : option Currency;
  payment_amount : option Decimal;
  post_text_html : option pystr;
  post_media_file_id : option pystr;
  post_token : option pystr;
  seller_revision_comment : option pystr;
  done_at : option Z;
  published_post_link : option (pystr * Z);
  published_channel_message_id : option Z;
  verified_at : option Z
}.

Inductive TxType := deposit | withdrawal.
Inductive TxStatus := pending | completed | failed.

#[global] Instance TxType_eq_dec : EqDecision TxType.
Proof. solve_decision. Defined.
#[global] Instance TxStatus_eq_dec : EqDecision TxStatus.
Proof. solve_decision. Defined.

(** One row of [usdt_transactions]; [event_id] carries a unique index. *)
Record UsdtTransaction := mkUsdtTransaction {
  event_id : pystr;
  tx_telegram_id : Z;
  amount : Decimal;
  memo : option pystr;
  destination_memo : option pystr;
  tx_type : TxType;
  tx_status : TxStatus;
  tx_hash : option pystr
}.

(** One row of [ton_withdrawals]. *)
Record TonWithdrawal := mkTonWithdrawal {
  tw_event_id : pystr;
  tw_telegram_id : Z;
  tw_amount : Decimal;
  tw_memo : option pystr;
  tw_status : TxStatus;
  tw_tx_hash : option pystr
}.

Record Channel := mkChannel {
  ch_telegram_id : Z;
  owner_telegram_id : Z;
  ch_status : string;
  is_visible : bool;
  title : pystr;
  username : option pystr
}.

Record ChannelAdFormat := mkChannelAdFormat {
  fmt_channel_id : Z;
  is_enabled : bool;
  price_stars : Z;
  price_usdt : option Decimal;
  duration_hours : Z
}.

(** The tables the core reads and writes.  [orders] is keyed by the
    autoincrement primary key, whose next value is [orders_seq];
    [usdt_transactions] keeps insertion (= [created_at]) order;
    [ton_usd_price] is the column of the [referral_settings] row 1; [users]
    holds the [telegram_id] of every row of the [users] table. *)
Record DB := mkDB {
  user_balances : gmap (Z * Currency) UserBalance;
  orders : gmap Z Order;
  orders_seq : Z;
  usdt_transactions : list UsdtTransaction;
  ton_withdrawals : list TonWithdrawal;
  channels : gmap Z Channel;
  channel_ad_formats : gmap Z ChannelAdFormat;
  ton_usd_price : option Decimal;
  users : gset Z
}.

Definition with_balances (db : DB) (m : gmap (Z * Currency) UserBalance) : DB :=
  mkDB m (orders db) (orders_seq db) (usdt_transactions db) (ton_withdrawals db)
       (channels db) (channel_ad_formats db) (ton_usd_price db) (users db).

Definition with_orders (db : DB) (m : gmap Z Order) : DB :=
  mkDB (user_balances db) m (orders_seq db) (usdt_transactions db) (ton_withdrawals db)
       (channels db) (channel_ad_formats db) (ton_usd_price db) (users db).

Definition with_orders_seq (db : DB) (n : Z) : DB :=
  mkDB (user_balances db) (orders db) n (usdt_transactions db) (ton_withdrawals db)
       (channels db) (channel_ad_formats db) (ton_usd_price db) (users db).

Definition with_usdt_transactions (db : DB) (l : list UsdtTransaction) : DB :=
  mkDB (user_balances db) (orders db) (orders_seq db) l (ton_withdrawals db)
       (channels db) (channel_ad_formats db) (ton_usd_price db) (users db).

Definition with_ton_withdrawals (db : DB) (l : list TonWithdrawal) : DB :=
  mkDB (user_balances db) (orders db) (orders_seq db) (usdt_transactions db) l
       (channels db) (channel_ad_formats db) (ton_usd_price db) (users db).

Definition set_available (b : UserBalance) (v : Decimal) : UserBalance :=
  mkUserBalance v (frozen b) (total_deposited b) (total_withdrawn b).
Definition set_frozen (b : UserBalance) (v : Decimal) : UserBalance :=
  mkUserBalance (available b) v (total_deposited b) (total_withdrawn b).
Definition set_total_deposited (b : UserBalance) (v : Decimal) : UserBalance :=
  mkUserBalance (available b) (frozen b) v (total_withdrawn b).
Definition set_total_withdrawn (b : UserBalance) (v : Decimal) : UserBalance :=
  mkUserBalance (available b) (frozen b) (total_deposited b) v.

(** What a [Numeric(18, s)] column keeps of a value written to it: the
    nearest multiple of 10^-s, a tie going away from zero; [unit] is 10^-s
    counted in the unit 10^-9.  The amounts of the order, deposit and Stars
    paths have at most eight decimals when they are written (prices are
    [Numeric(18, 2)], whole Stars or quantized cents, indexer amounts whole
    micro-USDT), so writing them does not round; the amount of a withdrawal
    request is any decimal, and there the rounding is written out. *)
Definition numeric (unit : Z) (x : Decimal) : Decimal :=
  Z.sgn x * ((2 * Z.abs x + unit) / (2 * unit)) * unit.

Definition numeric6 : Decimal -> Decimal := numeric 1000.
Definition numeric8 : Decimal -> Decimal := numeric 10.
Definition numeric9 : Decimal -> Decimal := numeric 1.

(** The values a [BigInteger] column takes. *)
Definition fits_bigint (z : Z) : bool :=
  (-9223372036854775808 <=? z) && (z <=? 9223372036854775807).

(** ** Order payment ([services/order_payment.py]) *)

Module OrderPayment.

(** [freeze_for_order]: deduct from available, add to frozen. *)
Definition freeze_for_order (telegram_id : Z) (currency : Currency)
    (amount : Decimal) (db : DB) : DB * bool :=
  match user_balances db !! (telegram_id, currency) with
  | None => (db, false)
  | Some bal =>
      if available bal <? amount then (db, false)
      else
        let bal1 := set_available bal (available bal - amount) in
        let bal2 := set_frozen bal1 (frozen bal1 + amount) in
        (with_balances db (<[(telegram_id, currency) := bal2]> (user_balances db)), true)
  end.

(** [release_to_seller]: on order done, unfreeze from buyer, credit seller.
    The seller row is selected after the buyer row was changed in the same
    session, so a seller who is also the buyer sees the changed row. *)
Definition release_to_seller (order_id : Z) (db : DB) : DB * bool :=
  match orders db !! order_id with
  | None => (db, true)
  | Some order =>
      match payment_currency order, payment_amount order with
      | Some curr, Some amt =>
          if negb (bool_decide (status order = done_)) then (db, false)
          else
            match user_balances db !! (buyer_telegram_id order, curr) with
            | None => (db, false)
            | Some buyer_bal =>
                if frozen buyer_bal <? amt then (db, false)
                else
                  let m1 := <[(buyer_telegram_id order, curr) :=
                                set_frozen buyer_bal (frozen buyer_bal - amt)]>
                              (user_balances db) in
                  let m2 :=
                    match m1 !! (seller_telegram_id order, curr) with
                    | Some seller_bal =>
                        <[(seller_telegram_id order, curr) :=
                            set_available seller_bal (available seller_bal + amt)]> m1
                    | None =>
                        <[(seller_telegram_id order, curr) := mkUserBalance amt 0 0 0]> m1
                    end in
                  (with_balances db m2, true)
            end
      | _, _ => (db, true)
      end
  end.

(** [refund_to_buyer]: on order cancelled, unfreeze from buyer, add back to
    available.  The order status is not read. *)
Definition refund_to_buyer (order_id : Z) (db : DB) : DB * bool :=
  match orders db !! order_id with
  | None => (db, true)
  | Some order =>
      match payment_currency order, payment_amount order with
      | Some curr, Some amt =>
          match user_balances db !! (buyer_telegram_id order, curr) with
          | None => (db, false)
          | Some buyer_bal =>
              if frozen buyer_bal <? amt then (db, false)
              else
                let bal1 := set_frozen buyer_bal (frozen buyer_bal - amt) in
                let bal2 := set_available bal1 (available bal1 + amt) in
                (with_balances db
                   (<[(buyer_telegram_id order, curr) := bal2]> (user_balances db)), true)
          end
      | _, _ => (db, true)
      end
  end.

End OrderPayment.

(** ** Effects

    Calls that leave the process (Telegram Bot API) and the commits of an
    order status are recorded, in program order, in a log next to the
    database. *)

Inductive Notice :=
  | PostApproved | RevisionComment | PostEdited
  | UsdtDeposited (amt : Decimal)
  | WithdrawalFailed (net : Decimal) | WithdrawalCompleted (net : Decimal) (h : option pystr).

Inductive Reply :=
  | OrderNotFound | AlreadyProcessed | PublishFailed | PublishedDone
  | PublishedStatusError | Declined | SaveError | AskCommentText | CommentSent.

Inductive Event :=
  | ChannelPost (chat_id : Z) (order_id : Z) (ok : bool)
  | SendMessage (chat_id : Z) (n : Notice)
  | Answer (r : Reply)
  | OrderStatusCommitted (order_id : Z) (st : OrderStatus)
  | ReleaseCalled (order_id : Z) (ok : bool)
  | RefundCalled (order_id : Z) (ok : bool).

(** State and log passing. *)
Definition M (A : Type) : Type := DB -> A * DB * list Event.

Definition ret {A} (a : A) : M A := fun db => (a, db, []).

Definition bind {A B} (m : M A) (k : A -> M B) : M B :=
  fun db =>
    let '(a, db1, l1) := m db in
    let '(b, db2, l2) := k a db1 in
    (b, db2, l1 ++ l2).

Definition emit (e : Event) : M unit := fun db => (tt, db, [e]).
Definition get_db : M DB := fun db => (db, db, []).

Notation "x <- c1 ;; c2" := (bind c1 (fun x => c2))
  (at level 100, c1 at next level, right associativity).
Notation "c1 ;;; c2" := (bind c1 (fun _ => c2))
  (at level 100, right associativity).

(** A computation that may raise. *)
Inductive Raises (A : Type) :=
  | Returned (a : A)
  | Raised.
Arguments Returned {A} a.
Arguments Raised {A}.

Definition run_db {A} (m : M A) (db : DB) : DB := snd (fst (m db)).
Definition run_log {A} (m : M A) (db : DB) : list Event := snd (m db).
Definition run_val {A} (m : M A) (db : DB) : A := fst (fst (m db)).

Definition set_status (o : Order) (st : OrderStatus) : Order :=
  mkOrder (channel_id o) (format_id o) (buyer_telegram_id o) (seller_telegram_id o)
    st (payment_currency o) (payment_amount o) (post_text_html o)
    (post_media_file_id o) (post_token o) (seller_revision_comment o) (done_at o)
    (published_post_link o) (published_channel_message_id o) (verified_at o).

Definition set_done_at (o : Order) (t : option Z) : Order :=
  mkOrder (channel_id o) (format_id o) (buyer_telegram_id o) (seller_telegram_id o)
    (status o) (payment_currency o) (payment_amount o) (post_text_html o)
    (post_media_file_id o) (post_token o) (seller_revision_comment o) t
    (published_post_link o) (published_channel_message_id o) (verified_at o).

Definition set_seller_revision_comment (o : Order) (c : option pystr) : Order :=
  mkOrder (channel_id o) (format_id o) (buyer_telegram_id o) (seller_telegram_id o)
    (status o) (payment_currency o) (payment_amount o) (post_text_html o)
    (post_media_file_id o) (post_token o) c (done_at o)
    (published_post_link o) (published_channel_message_id o) (verified_at o).

Definition set_published_post_link (o : Order) (l : option (pystr * Z)) : Order :=
  mkOrder (channel_id o) (format_id o) (buyer_telegram_id o) (seller_telegram_id o)
    (status o) (payment_currency o) (payment_amount o) (post_text_html o)
    (post_media_file_id o) (post_token o) (seller_revision_comment o) (done_at o)
    l (published_channel_message_id o) (verified_at o).

Definition set_published_channel_message_id (o : Order) (i : option Z) : Order :=
  mkOrder (channel_id o) (format_id o) (buyer_telegram_id o) (seller_telegram_id o)
    (status o) (payment_currency o) (payment_amount o) (post_text_html o)
    (post_media_file_id o) (post_token o) (seller_revision_comment o) (done_at o)
    (published_post_link o) i (verified_at o).

Definition set_verified_at (o : Order) (t : option Z) : Order :=
  mkOrder (channel_id o) (format_id o) (buyer_telegram_id o) (seller_telegram_id o)
    (status o) (payment_currency o) (payment_amount o) (post_text_html o)
    (post_media_file_id o) (post_token o) (seller_revision_comment o) (done_at o)
    (published_post_link o) (published_channel_message_id o) t.

(** ** Order routes ([api/routes/orders.py]) *)

Module Orders.

Inductive HTTP (A : Type) :=
  | Response (a : A)
  | HTTPException (status_code : Z).
Arguments Response {A} a.
Arguments HTTPException {A} status_code.

Record CreateOrderIn := mkCreateOrderIn {
  channelId : Z;
  formatId : Z;
  currency : Currency
}.

(** [Decimal.quantize] to whole multiples of [q] units, ROUND_HALF_EVEN, of
    the quotient [n / d] taken in units of [q]. *)
Definition div_half_even (n d : Z) : Z :=
  let q := n / d in
  let r := n mod d in
  if 2 * r <? d then q
  else if d <? 2 * r then q + 1
  else if Z.even q then q else q + 1.

(** [_get_ton_price_for_usdt]: [(usdt / rate).quantize(Decimal("0.01"))] with
    [rate] the positive [ton_usd_price] of the settings row, else 5.0. *)
Definition _get_ton_price_for_usdt (usdt : Decimal) (db : DB) : Decimal :=
  let rate :=
    match ton_usd_price db with
    | Some p => if bool_decide (p ≠ 0) && (0 <? p) then p else 5000000000
    | None => 5000000000
    end in
  div_half_even (usdt * 100) rate * 10000000.

(** The first part of [create_order], up to the amount to pay: the channel
    and format look-ups and the price of the format in the chosen currency.
    It answers the channel owner (who becomes the seller) and the amount. *)
Definition checked_amount (body : CreateOrderIn) (telegram_id : Z) (db : DB)
    : HTTP (Z * Decimal) :=
  match channels db !! channelId body with
  | None => HTTPException 404
  | Some channel =>
    if negb (String.eqb (ch_status channel) "active" && is_visible channel)
    then HTTPException 404
    else if bool_decide (owner_telegram_id channel = telegram_id)
    then HTTPException 400
    else
      match channel_ad_formats db !! formatId body with
      | None => HTTPException 400
      | Some fmt =>
        if negb (bool_decide (fmt_channel_id fmt = channelId body) && is_enabled fmt)
        then HTTPException 400
        else
          match currency body with
          | Stars =>
              if bool_decide (price_stars fmt = 0) || (price_stars fmt <=? 0)
              then HTTPException 400
              else Response (owner_telegram_id channel, price_stars fmt * 1000000000)
          | Usdt =>
              match price_usdt fmt with
              | None => HTTPException 400
              | Some p =>
                  if bool_decide (p = 0) || (p <=? 0) then HTTPException 400
                  else Response (owner_telegram_id channel, p)
              end
          | Ton =>
              match price_usdt fmt with
              | None => HTTPException 400
              | Some p =>
                  if bool_decide (p = 0) || (p <=? 0) then HTTPException 400
                  else Response (owner_telegram_id channel, _get_ton_price_for_usdt p db)
              end
          end
      end
  end.

(** Whether some order already carries the token: [post_token] has a unique
    index. *)
Definition token_in_use (token : pystr) (db : DB) : bool :=
  existsb (fun it => bool_decide (post_token (snd it) = Some token))
          (map_to_list (orders db)).

(** [create_order].  [token] is the value drawn by [_generate_post_token].
    [freeze_for_order] commits in a session of its own; when the token is
    already in use the commit of the order raises, the route answers 500 and
    the freeze stays. *)
Definition create_order (body : CreateOrderIn) (telegram_id : Z) (token : pystr)
    (db : DB) : DB * HTTP Z :=
  match checked_amount body telegram_id db with
  | HTTPException code => (db, HTTPException code)
  | Response (seller, amount) =>
      let '(db1, frozen_ok) :=
        OrderPayment.freeze_for_order telegram_id (currency body) amount db in
      if negb frozen_ok then (db1, HTTPException 400)
      else if token_in_use token db1 then (db1, HTTPException 500)
      else
        let order :=
          mkOrder (channelId body) (formatId body) telegram_id seller writing_post
            (Some (currency body)) (Some amount)
            None None (Some token) None None None None None in
        let id := orders_seq db1 in
        (with_orders_seq (with_orders db1 (<[id := order]> (orders db1))) (id + 1),
         Response id)
  end.

(** [cancel_order]: buyer cancels an order in writing_post or pending_seller. *)
Definition cancel_order (order_id : Z) (telegram_id : Z) : M (HTTP OrderStatus) :=
  fun db =>
  match orders db !! order_id with
  | None => (HTTPException 404, db, [])
  | Some order =>
      if negb (bool_decide (buyer_telegram_id order = telegram_id))
      then (HTTPException 403, db, [])
      else if negb (bool_decide (status order = writing_post)
                    || bool_decide (status order = pending_seller))
      then (HTTPException 400, db, [])
      else
        let db1 := with_orders db (<[order_id := set_status order cancelled]> (orders db)) in
        let '(db2, ok) := OrderPayment.refund_to_buyer order_id db1 in
        (Response cancelled, db2,
         [OrderStatusCommitted order_id cancelled; RefundCalled order_id ok])
  end.

End Orders.

(** ** Python string operations used by the core *)

Module PyStr.

Local Open Scope N_scope.

(** Code points that [str.split()] and [str.strip()] treat as whitespace. *)
Definition is_space (c : N) : bool :=
  ((9 <=? c) && (c <=? 13)) || ((28 <=? c) && (c <=? 32))
  || (c =? 133) || (c =? 160) || (c =? 5760)
  || ((8192 <=? c) && (c <=? 8202))
  || (c =? 8232) || (c =? 8233) || (c =? 8239) || (c =? 8287) || (c =? 12288).

Fixpoint lstrip_by (p : N -> bool) (s : pystr) : pystr :=
  match s with
  | [] => []
  | c :: rest => if p c then lstrip_by p rest else s
  end.

Definition rstrip_by (p : N -> bool) (s : pystr) : pystr :=
  rev (lstrip_by p (rev s)).

Definition strip (s : pystr) : pystr := rstrip_by is_space (lstrip_by is_space s).

(** [s.split()]: maximal runs of non-whitespace; [cur] is the run being read. *)
Fixpoint split_from (cur : pystr) (s : pystr) : list pystr :=
  match s with
  | [] => match cur with [] => [] | _ => [cur] end
  | c :: rest =>
      if is_space c
      then match cur with [] => split_from [] rest | _ => cur :: split_from [] rest end
      else split_from (cur ++ [c]) rest
  end.

Definition split (s : pystr) : list pystr := split_from [] s.

(** [" ".join(words)] *)
Fixpoint join_space (words : list pystr) : pystr :=
  match words with
  | [] => []
  | [w] => w
  | w :: ws => w ++ 32 :: join_space ws
  end.

(** [re.sub(r"<[^>]+>", "", s)].  [open] is [None] outside a candidate tag and
    [Some b] after a '<', with [b] the text read since that '<', inclusive.
    A '>' closes the tag when at least one character follows the '<'; text
    left open at the end of the input has no closing '>' and is kept. *)
Fixpoint strip_tags_from (open : option pystr) (s : pystr) : pystr :=
  match s with
  | [] => match open with None => [] | Some b => b end
  | c :: rest =>
      match open with
      | None =>
          if c =? 60 then strip_tags_from (Some [c]) rest
          else c :: strip_tags_from None rest
      | Some b =>
          if c =? 62 then
            match b with
            | _ :: _ :: _ => strip_tags_from None rest
            | _ => b ++ c :: strip_tags_from None rest
            end
          else strip_tags_from (Some (b ++ [c])) rest
      end
  end.

Definition strip_tags (s : pystr) : pystr := strip_tags_from None s.

Definition pystr_eqb (a b : pystr) : bool := bool_decide (a = b).

(** [s.startswith(p)] *)
Fixpoint startswith (s p : pystr) : bool :=
  match p, s with
  | [], _ => true
  | _ :: _, [] => false
  | x :: p', y :: s' => (x =? y) && startswith s' p'
  end.

(** Truth value of an optional string: [None] and [""] are false. *)
Definition truthy (s : option pystr) : bool :=
  match s with Some (_ :: _) => true | _ => false end.

Definition or_empty (s : option pystr) : pystr :=
  match s with Some t => t | None => [] end.

End PyStr.

(** ** Bot handlers ([telegram_bot/handlers.py]) *)

Module Handlers.

Definition _get_order (order_id : Z) : M (option Order) :=
  fun db => (orders db !! order_id, db, []).

Definition _get_order_and_channel (order_id : Z) : M (option Order * option Channel) :=
  fun db =>
    match orders db !! order_id with
    | None => ((None, None), db, [])
    | Some order => ((Some order, channels db !! channel_id order), db, [])
    end.

Definition _set_order_pending_seller (order_id : Z) : M bool :=
  fun db =>
    match orders db !! order_id with
    | None => (false, db, [])
    | Some order =>
        (true, with_orders db (<[order_id := set_status order pending_seller]> (orders db)),
         [OrderStatusCommitted order_id pending_seller])
    end.

(** [_set_order_done]: the status is committed, then [release_to_seller] is
    called and its result dropped. *)
Definition _set_order_done (order_id : Z) (link : option (pystr * Z))
    (message_id : option Z) (now : Z) : M bool :=
  fun db =>
    match orders db !! order_id with
    | None => (false, db, [])
    | Some order =>
        let o1 := set_status order done_ in
        let o2 := set_done_at o1 (Some now) in
        let o3 := set_seller_revision_comment o2 None in
        let o4 := match link with
                  | Some _ => set_published_post_link o3 link
                  | None => o3
                  end in
        let o5 := match message_id with
                  | Some _ => set_published_channel_message_id o4 message_id
                  | None => o4
                  end in
        let db1 := with_orders db (<[order_id := o5]> (orders db)) in
        let '(db2, ok) := OrderPayment.release_to_seller order_id db1 in
        (true, db2, [OrderStatusCommitted order_id done_; ReleaseCalled order_id ok])
    end.

Definition _set_order_revision (order_id : Z) (comment : pystr) : M bool :=
  fun db =>
    match orders db !! order_id with
    | None => (false, db, [])
    | Some order =>
        let o1 := set_status order writing_post in
        let o2 := set_seller_revision_comment o1 (Some comment) in
        (true, with_orders db (<[order_id := o2]> (orders db)),
         [OrderStatusCommitted order_id writing_post])
    end.

Definition _set_order_cancelled (order_id : Z) : M bool :=
  fun db =>
    match orders db !! order_id with
    | None => (false, db, [])
    | Some order =>
        let db1 := with_orders db (<[order_id := set_status order cancelled]> (orders db)) in
        let '(db2, ok) := OrderPayment.refund_to_buyer order_id db1 in
        (true, db2, [OrderStatusCommitted order_id cancelled; RefundCalled order_id ok])
    end.

(** [_publish_post_to_channel].  [sent] is what the Bot API call returned:
    the message id, or [None] when the call raised.  Pinning, whose failure
    the code ignores, is left out. *)
Definition _publish_post_to_channel (order_id : Z) (channel : Channel)
    (sent : option Z) : M (bool * option (pystr * Z) * option Z) :=
  match sent with
  | None =>
      emit (ChannelPost (ch_telegram_id channel) order_id false) ;;;
      ret (false, None, None)
  | Some message_id =>
      emit (ChannelPost (ch_telegram_id channel) order_id true) ;;;
      let username :=
        PyStr.lstrip_by (fun c => N.eqb c 64) (PyStr.strip (PyStr.or_empty (username channel))) in
      let link :=
        match username with
        | _ :: _ => if bool_decide (message_id ≠ 0) then Some (username, message_id) else None
        | [] => None
        end in
      ret (true, link, Some message_id)
  end.

Definition _notify_buyer_post_approved (order_id : Z) : M unit :=
  oc <- _get_order_and_channel order_id ;;
  match oc with
  | (Some order, Some _) => emit (SendMessage (buyer_telegram_id order) PostApproved)
  | _ => ret tt
  end.

Definition _notify_buyer_revision_comment (order_id : Z) : M unit :=
  oc <- _get_order_and_channel order_id ;;
  match oc with
  | (Some order, Some _) => emit (SendMessage (buyer_telegram_id order) RevisionComment)
  | _ => ret tt
  end.

(** [cb_seller_approve], for a callback whose data parsed to [order_id]. *)
Definition cb_seller_approve (order_id : Z) (sent : option Z) (now : Z) : M unit :=
  oc <- _get_order_and_channel order_id ;;
  match oc with
  | (Some order, Some channel) =>
      if negb (bool_decide (status order = pending_seller))
      then emit (Answer AlreadyProcessed)
      else
        res <- _publish_post_to_channel order_id channel sent ;;
        let '(published, post_link, msg_id) := res in
        if negb published then emit (Answer PublishFailed)
        else
          ok <- _set_order_done order_id post_link msg_id now ;;
          (if ok then _notify_buyer_post_approved order_id else ret tt) ;;;
          emit (Answer (if ok then PublishedDone else PublishedStatusError))
  | _ => emit (Answer OrderNotFound)
  end.

(** [cb_seller_decline] *)
Definition cb_seller_decline (order_id : Z) : M unit :=
  ok <- _set_order_cancelled order_id ;;
  emit (Answer (if ok then Declined else SaveError)).

(** [on_seller_comment]; [order_id] is the [seller_order_id] of the FSM data. *)
Definition on_seller_comment (order_id : option Z) (message_text : option pystr) : M unit :=
  match order_id with
  | None => ret tt
  | Some oid =>
      if bool_decide (oid = 0) then ret tt
      else
        let text := PyStr.strip (PyStr.or_empty message_text) in
        match text with
        | [] => emit (Answer AskCommentText)
        | _ =>
            ok <- _set_order_revision oid text ;;
            (if ok then _notify_buyer_revision_comment oid else ret tt) ;;;
            emit (Answer (if ok then CommentSent else SaveError))
        end
  end.

End Handlers.

(** ** USDT withdrawal request ([api/routes/wallet.py]) *)

Module Wallet.

Import Orders.

Definition USDT_WITHDRAW_FEE : Decimal := 300000000.
Definition USDT_WITHDRAW_MIN : Decimal := 10000000000.

Record UsdtWithdrawRequest := mkUsdtWithdrawRequest {
  req_amount : Decimal;
  req_address : pystr;
  req_memo : option pystr
}.

(** The field constraints of the request model: [ge], [min_length],
    [max_length]. *)
Definition valid_request (body : UsdtWithdrawRequest) : bool :=
  (USDT_WITHDRAW_MIN <=? req_amount body)
  && (40 <=? length (req_address body))%nat
  && (length (req_address body) <=? 256)%nat
  && match req_memo body with
     | Some m => (length m <=? 128)%nat
     | None => true
     end.

Definition has_event_id (e : pystr) (l : list UsdtTransaction) : bool :=
  existsb (fun t => bool_decide (event_id t = e)) l.

(** [usdt_withdraw].  [wd_id] is the fresh [wd_{uuid4().hex}] identifier; a
    request that fails the field constraints answers 422, and a violated unique index on
    [event_id] makes the commit raise, which leaves the database as it was.
    The balance columns keep eight decimals of what is written and the
    [amount] of the transaction row six. *)
Definition usdt_withdraw (body : UsdtWithdrawRequest) (telegram_id : Z)
    (wd_id : pystr) (db : DB) : DB * HTTP TxStatus :=
  if negb (valid_request body) then (db, HTTPException 422)
  else
    let total_deduct := req_amount body in
    let net_amount := req_amount body - USDT_WITHDRAW_FEE in
    match user_balances db !! (telegram_id, Usdt) with
    | None => (db, HTTPException 400)
    | Some usdt_bal =>
        if available usdt_bal <? total_deduct then (db, HTTPException 400)
        else
          let b1 := set_available usdt_bal (numeric8 (available usdt_bal - total_deduct)) in
          let b2 := set_total_withdrawn b1 (numeric8 (total_withdrawn b1 + total_deduct)) in
          let tx :=
            mkUsdtTransaction wd_id telegram_id (numeric6 net_amount)
              (match req_address body with
               | [] => None
               | a => Some (firstn 256 a)
               end)
              (match req_memo body with
               | Some (c :: m) => Some (firstn 128 (c :: m))
               | _ => None
               end)
              withdrawal pending None in
          if has_event_id wd_id (usdt_transactions db) then (db, HTTPException 500)
          else
            (with_usdt_transactions
               (with_balances db (<[(telegram_id, Usdt) := b2]> (user_balances db)))
               (usdt_transactions db ++ [tx]),
             Response pending)
    end.

End Wallet.

(** ** Withdrawal senders
    ([services/usdt_withdraw_sender.py], [services/ton_withdraw_sender.py]) *)

(** [for _ in range(3): verified = _verify_tx_success(h); break unless None];
    [verify n] is the answer the indexer gives at attempt [n]. *)
Fixpoint verify_attempts (verify : nat -> option bool) (attempts : list nat) : option bool :=
  match attempts with
  | [] => None
  | a :: rest =>
      match verify a with
      | Some b => Some b
      | None => verify_attempts verify rest
      end
  end.

Module UsdtWithdraw.

Definition USDT_WITHDRAW_FEE : Decimal := 300000000.

(** The chain as the sender sees it: [_send_jetton_withdrawal] returns the
    jetton wallet address or [None]; [_fetch_tx_hash_from_tonapi] a hash or
    [None]; [_verify_tx_success] true, false or [None] (unknown). *)
Record Chain := mkChain {
  send_jetton : UsdtTransaction -> option (option pystr);
  fetch_tx_hash : UsdtTransaction -> option pystr;
  verify_tx_success : pystr -> nat -> option bool
}.

(** [_refund_withdrawal] *)
Definition _refund_withdrawal (telegram_id : Z) (amount_usdt fee : Decimal) (db : DB) : DB :=
  let gross := amount_usdt + fee in
  match user_balances db !! (telegram_id, Usdt) with
  | Some bal =>
      let b1 := set_available bal (numeric8 (available bal + gross)) in
      let b2 := set_total_withdrawn b1 (numeric8 (total_withdrawn b1 - gross)) in
      with_balances db (<[(telegram_id, Usdt) := b2]> (user_balances db))
  | None => db
  end.

Definition set_tx_status (t : UsdtTransaction) (st : TxStatus) : UsdtTransaction :=
  mkUsdtTransaction (event_id t) (tx_telegram_id t) (amount t) (memo t)
    (destination_memo t) (tx_type t) st (tx_hash t).

Definition set_tx_hash (t : UsdtTransaction) (h : option pystr) : UsdtTransaction :=
  mkUsdtTransaction (event_id t) (tx_telegram_id t) (amount t) (memo t)
    (destination_memo t) (tx_type t) (tx_status t) h.

Definition store_tx (i : nat) (t : UsdtTransaction) (db : DB) : DB :=
  with_usdt_transactions db (<[i := t]> (usdt_transactions db)).

(** Mark the row failed and reverse the debit. *)
Definition fail_and_refund (i : nat) (tx : UsdtTransaction) (db : DB) : DB :=
  _refund_withdrawal (tx_telegram_id tx) (amount tx) USDT_WITHDRAW_FEE
    (store_tx i (set_tx_status tx failed) db).

(** The body of the loop of [process_pending_withdrawals] for the row at
    position [i]; the result tells whether [processed] was incremented. *)
Definition process_row (chain : Chain) (our_wallet : pystr) (i : nat) : M bool :=
  fun db =>
  match usdt_transactions db !! i with
  | None => (false, db, [])
  | Some tx =>
      if negb (PyStr.truthy (memo tx)) || (length (PyStr.or_empty (memo tx)) <? 40)%nat
      then (false, fail_and_refund i tx db, [])
      else
        match user_balances db !! (tx_telegram_id tx, Usdt) with
        | None => (false, fail_and_refund i tx db, [])
        | Some bal =>
            if available bal <? 0 then (false, fail_and_refund i tx db, [])
            else
              match send_jetton chain tx with
              | None => (false, fail_and_refund i tx db, [])
              | Some _ =>
                  let h := match our_wallet with
                           | [] => None
                           | _ => fetch_tx_hash chain tx
                           end in
                  let tx1 := set_tx_hash tx h in
                  let verified :=
                    if PyStr.truthy h
                    then verify_attempts (verify_tx_success chain (PyStr.or_empty h)) (seq 0 3)
                    else None in
                  match verified with
                  | Some false =>
                      (false, fail_and_refund i tx1 db,
                       [SendMessage (tx_telegram_id tx) (WithdrawalFailed (amount tx))])
                  | Some true =>
                      (true, store_tx i (set_tx_status tx1 completed) db,
                       [SendMessage (tx_telegram_id tx) (WithdrawalCompleted (amount tx) h)])
                  | None =>
                      (true, store_tx i (set_tx_status tx1 completed) db,
                       [SendMessage (tx_telegram_id tx) (WithdrawalCompleted (amount tx) h)])
                  end
              end
        end
  end.

(** Positions of the rows the query selects: pending withdrawals, oldest
    first, at most ten. *)
Definition pending_rows (db : DB) : list nat :=
  firstn 10
    (List.map fst
       (List.filter
          (fun it => bool_decide (tx_type (snd it) = withdrawal)
                     && bool_decide (tx_status (snd it) = pending))
          (combine (seq 0 (length (usdt_transactions db))) (usdt_transactions db)))).

Fixpoint process_rows (chain : Chain) (our_wallet : pystr) (rows : list nat) : M Z :=
  match rows with
  | [] => ret 0
  | i :: rest =>
      ok <- process_row chain our_wallet i ;;
      n <- process_rows chain our_wallet rest ;;
      ret ((if ok then 1 else 0) + n)
  end.

(** [process_pending_withdrawals]; [key_loaded] is whether
    [_load_withdraw_private_key] found a key. *)
Definition process_pending_withdrawals (key_loaded : bool) (chain : Chain)
    (our_wallet : pystr) : M Z :=
  if negb key_loaded then ret 0
  else db <- get_db ;; process_rows chain our_wallet (pending_rows db).

End UsdtWithdraw.

Module TonWithdraw.

Definition TON_WITHDRAW_FEE : Decimal := 150000000.

(** What the sender finds around it: whether [pytoniq] can be imported. *)
Record Chain := mkChain {
  pytoniq_installed : bool
}.

(** [_refund_ton_withdrawal] *)
Definition _refund_ton_withdrawal (telegram_id : Z) (amount fee : Decimal) (db : DB) : DB :=
  let total := amount + fee in
  match user_balances db !! (telegram_id, Ton) with
  | Some bal =>
      let b1 := set_available bal (numeric8 (available bal + total)) in
      let b2 := set_total_withdrawn b1 (numeric8 (total_withdrawn b1 - total)) in
      with_balances db (<[(telegram_id, Ton) := b2]> (user_balances db))
  | None => db
  end.

Definition set_tw_status (t : TonWithdrawal) (st : TxStatus) : TonWithdrawal :=
  mkTonWithdrawal (tw_event_id t) (tw_telegram_id t) (tw_amount t) (tw_memo t) st (tw_tx_hash t).

Definition store_tw (i : nat) (t : TonWithdrawal) (db : DB) : DB :=
  with_ton_withdrawals db (<[i := t]> (ton_withdrawals db)).

Definition fail_and_refund (i : nat) (tx : TonWithdrawal) (db : DB) : DB :=
  _refund_ton_withdrawal (tw_telegram_id tx) (tw_amount tx) TON_WITHDRAW_FEE
    (store_tw i (set_tw_status tx failed) db).

(** [_send_ton]: [False] without the key or without [pytoniq].  Otherwise
    it computes [int(amount_ton * 1e9)], a [Decimal] times a [float], which
    raises [TypeError]; the line stands before the [try] of the function, so
    the exception leaves it, and no wallet was opened yet. *)
Definition _send_ton (key_loaded : bool) (chain : Chain) (dest_address : option pystr)
    (amount_ton : Decimal) : Raises bool :=
  if negb key_loaded then Returned false
  else if negb (pytoniq_installed chain) then Returned false
  else Raised.

(** The body of the loop of [process_pending_ton_withdrawals]; the key was
    loaded when the run started.  After a send that returned [True] the loop
    computes [int(tx.amount * 1e9)] itself, which raises the same [TypeError]:
    the look-up of the hash, the finality check and the completion that follow
    in the source are never reached. *)
Definition process_row (chain : Chain) (our_wallet : pystr) (i : nat) : M (Raises bool) :=
  fun db =>
  match ton_withdrawals db !! i with
  | None => (Returned false, db, [])
  | Some tx =>
      if negb (PyStr.truthy (tw_memo tx)) || (length (PyStr.or_empty (tw_memo tx)) <? 40)%nat
      then (Returned false, fail_and_refund i tx db, [])
      else
        let bal_ok :=
          match user_balances db !! (tw_telegram_id tx, Ton) with
          | None => false
          | Some bal => negb (available bal <? 0)
          end in
        if negb bal_ok then (Returned false, fail_and_refund i tx db, [])
        else
          match _send_ton true chain (tw_memo tx) (tw_amount tx) with
          | Raised => (Raised, db, [])
          | Returned false => (Returned false, fail_and_refund i tx db, [])
          | Returned true => (Raised, db, [])
          end
  end.

Definition pending_rows (db : DB) : list nat :=
  firstn 10
    (List.map fst
       (List.filter
          (fun it => bool_decide (tw_status (snd it) = pending))
          (combine (seq 0 (length (ton_withdrawals db))) (ton_withdrawals db)))).

(** The loop: an exception leaves it, the session is rolled back (the row
    that raised was not written to) and the rows that follow are not looked
    at. *)
Fixpoint process_rows (chain : Chain) (our_wallet : pystr) (rows : list nat) : M Z :=
  match rows with
  | [] => ret 0
  | i :: rest =>
      r <- process_row chain our_wallet i ;;
      match r with
      | Raised => ret 0
      | Returned ok =>
          n <- process_rows chain our_wallet rest ;;
          ret ((if ok then 1 else 0) + n)
      end
  end.

Definition process_pending_ton_withdrawals (key_loaded : bool) (chain : Chain)
    (our_wallet : pystr) : M Z :=
  if negb key_loaded then ret 0
  else db <- get_db ;; process_rows chain our_wallet (pending_rows db).

End TonWithdraw.

(** ** USDT deposit scanner ([services/usdt_deposit_scanner.py]) *)

Set Warnings "-register-all".

(** Decoded JSON of the TonAPI answer. *)
Inductive pyval :=
  | PNone
  | PStr (s : pystr)
  | PInt (z : Z)
  | PDict (d : list (string * pyval))
  | PList (l : list pyval).

(** What [Decimal(raw_amount) / Decimal(10**USDT_DECIMALS)] does: a value, a
    [TypeError]/[ValueError] (which [_parse_jetton_transfer] catches), or a
    [decimal.InvalidOperation] (which it does not). *)
Inductive DecimalResult :=
  | DecValue (d : Decimal)
  | DecTypeOrValueError
  | DecInvalidOperation.

Module UsdtDeposit.

Definition PREFIX : pystr := lit "usdt_".

Definition truthy (v : pyval) : bool :=
  match v with
  | PNone => false
  | PStr s => match s with [] => false | _ => true end
  | PInt z => negb (z =? 0)
  | PDict d => match d with [] => false | _ => true end
  | PList l => match l with [] => false | _ => true end
  end.

(** [a or b] *)
Definition py_or (a b : pyval) : pyval := if truthy a then a else b.

(** [d.get(k)] and [d.get(k, default)] *)
Fixpoint get_default (d : list (string * pyval)) (k : string) (default : pyval) : pyval :=
  match d with
  | [] => default
  | (k', v) :: rest => if String.eqb k k' then v else get_default rest k default
  end.

Definition get (d : list (string * pyval)) (k : string) : pyval := get_default d k PNone.

Definition str_is (v : pyval) (s : string) : bool :=
  match v with
  | PStr t => bool_decide (t = lit s)
  | _ => false
  end.

Section Scanner.

(** The Python built-ins the scanner relies on: [str(v)] of a value that is
    not already a string, the decimal arithmetic on the raw amount,
    [str.isdigit] and [int(str)] ([None] for [ValueError]). *)
Variable str_other : pyval -> pystr.
Variable usdt_amount : pyval -> DecimalResult.
Variable isdigit : pystr -> bool.
Variable int_of : pystr -> option Z.

Definition py_str (v : pyval) : pystr :=
  match v with
  | PStr s => s
  | _ => str_other v
  end.

(** [_credit_usdt]: the balance change and the transaction row are one
    commit.  A [telegram_id] outside the range of the [BigInteger] columns, or
    a second row with the same [event_id], which violates the unique index,
    makes the session raise: the function rolls back and returns [False]. *)
Definition _credit_usdt (telegram_id : Z) (amt : Decimal) (ev_id : pystr) (db : DB) : DB * bool :=
  let bals :=
    match user_balances db !! (telegram_id, Usdt) with
    | Some bal =>
        let b1 := set_available bal (available bal + amt) in
        let b2 := set_total_deposited b1 (total_deposited b1 + amt) in
        <[(telegram_id, Usdt) := b2]> (user_balances db)
    | None =>
        <[(telegram_id, Usdt) := mkUserBalance amt 0 amt 0]> (user_balances db)
    end in
  let tx := mkUsdtTransaction ev_id telegram_id amt None None deposit completed None in
  if negb (fits_bigint telegram_id) then (db, false)
  else if Wallet.has_event_id ev_id (usdt_transactions db) then (db, false)
  else (with_usdt_transactions (with_balances db bals) (usdt_transactions db ++ [tx]), true).

Definition _already_processed (ev_id : pystr) (db : DB) : bool :=
  Wallet.has_event_id ev_id (usdt_transactions db).

(** [_parse_jetton_transfer]: [Returned None] for [None], [Returned (Some
    (amount, memo))] for the tuple. *)
Definition _parse_jetton_transfer (action : list (string * pyval))
    : Raises (option (Decimal * option pystr)) :=
  let atype := get_default action "type" (PStr []) in
  if negb (str_is atype "JettonTransfer" || str_is atype "jetton_transfer")
  then Returned None
  else
    match py_or (get action "JettonTransfer") (PDict action) with
    | PDict jt =>
        match get jt "amount" with
        | PNone => Returned None
        | raw_amount =>
            match usdt_amount raw_amount with
            | DecTypeOrValueError => Returned None
            | DecInvalidOperation => Raised
            | DecValue amt =>
                if amt <=? 0 then Returned None
                else
                  let comment :=
                    py_or (get jt "comment")
                      (py_or (get jt "decrypted_payload")
                         (py_or (get jt "payload")
                            (py_or (get action "comment")
                               (py_or (get action "decrypted_payload")
                                  (py_or (get action "payload") (PStr [])))))) in
                  let comment :=
                    match comment with
                    | PDict c => py_or (get c "text") (py_or (get c "comment") (PStr []))
                    | _ => comment
                    end in
                  let memo :=
                    if truthy comment then Some (PyStr.strip (py_str comment)) else None in
                  Returned (Some (amt, match memo with
                                       | Some (c :: m) => Some (c :: m)
                                       | _ => None
                                       end))
            end
        end
    | _ => Raised
    end.

(** The loop over the actions of one event; it stops at the first action
    with a usable memo ([break]), credited or not. *)
Fixpoint scan_actions (unique_id : pystr) (actions : list pyval) : M (Raises bool) :=
  match actions with
  | [] => ret (Returned false)
  | act :: rest =>
      match act with
      | PDict action =>
          match _parse_jetton_transfer action with
          | Raised => ret Raised
          | Returned None => scan_actions unique_id rest
          | Returned (Some (amt, memo)) =>
              match memo with
              | None => scan_actions unique_id rest
              | Some m =>
                  if negb (isdigit m) then scan_actions unique_id rest
                  else
                    match int_of m with
                    | None => scan_actions unique_id rest
                    | Some telegram_id =>
                        fun db =>
                          let '(db1, ok) := _credit_usdt telegram_id amt unique_id db in
                          (Returned ok, db1,
                           if ok then [SendMessage telegram_id (UsdtDeposited amt)] else [])
                    end
              end
          end
      | _ => ret Raised
      end
  end.

(** The body of the loop over the events. *)
Definition scan_event (ev : list (string * pyval)) : M (Raises bool) :=
  let ev_id :=
    py_or (get ev "event_id")
      (py_or (get ev "hash") (PStr (py_str (get_default ev "lt" (PStr []))))) in
  if negb (truthy ev_id) then ret (Returned false)
  else
    let unique_id := PREFIX ++ py_str ev_id in
    db <- get_db ;;
    if _already_processed unique_id db then ret (Returned false)
    else
      match py_or (get ev "actions") (PList []) with
      | PList actions => scan_actions unique_id actions
      | _ => ret Raised
      end.

Fixpoint scan_events (events : list (list (string * pyval))) : M (Raises Z) :=
  match events with
  | [] => ret (Returned 0)
  | ev :: rest =>
      r <- scan_event ev ;;
      match r with
      | Raised => ret Raised
      | Returned ok =>
          n <- scan_events rest ;;
          ret (match n with
               | Raised => Raised
               | Returned k => Returned ((if ok then 1 else 0) + k)
               end)
      end
  end.

(** [scan_usdt_deposits] on the event list the indexer returned. *)
Definition scan_usdt_deposits (events : list (list (string * pyval))) : M (Raises Z) :=
  scan_events events.

(** The credit an action leads to, read off without the database: the user
    and the amount when the action parses to a transfer whose memo
    [isdigit] accepts and [int] converts; [Returned None] when the loop moves
    on to the next action. *)
Definition usable (action : list (string * pyval)) : Raises (option (Z * Decimal)) :=
  match _parse_jetton_transfer action with
  | Raised => Raised
  | Returned (Some (amt, Some m)) =>
      if isdigit m
      then match int_of m with
           | Some telegram_id => Returned (Some (telegram_id, amt))
           | None => Returned None
           end
      else Returned None
  | Returned _ => Returned None
  end.

(** The first usable action of an event. *)
Fixpoint first_usable (actions : list pyval) : Raises (option (Z * Decimal)) :=
  match actions with
  | [] => Returned None
  | PDict action :: rest =>
      match usable action with
      | Raised => Raised
      | Returned (Some ta) => Returned (Some ta)
      | Returned None => first_usable rest
      end
  | _ :: _ => Raised
  end.

(** The identifier [scan_event] looks up and records for an event, when the
    event has one. *)
Definition unique_id_of (ev : list (string * pyval)) : option pystr :=
  let ev_id :=
    py_or (get ev "event_id")
      (py_or (get ev "hash") (PStr (py_str (get_default ev "lt" (PStr []))))) in
  if truthy ev_id then Some (PREFIX ++ py_str ev_id) else None.

(** The actions [scan_event] iterates over; [Raised] when the value is not
    a list. *)
Definition actions_of (ev : list (string * pyval)) : Raises (list pyval) :=
  match py_or (get ev "actions") (PList []) with
  | PList actions => Returned actions
  | _ => Raised
  end.

End Scanner.

End UsdtDeposit.

(** ** Order verifier ([services/order_verifier.py]) *)

Module OrderVerifier.

(** The appended ["\n\n#Реклама"]. *)
Definition HASHTAG : pystr :=
  [10; 10; 35; 1056; 1077; 1082; 1083; 1072; 1084; 1072]%N.

Definition DOTS : pystr := [46; 46; 46]%N.

(** [_normalize_text]: strip HTML tags and normalize whitespace. *)
Definition _normalize_text (s : pystr) : pystr :=
  match s with
  | [] => []
  | _ => PyStr.strip (PyStr.join_space (PyStr.split (PyStr.strip_tags s)))
  end.

(** [_build_expected_text] *)
Definition _build_expected_text (order : Order) (has_media : bool) : pystr :=
  let body := PyStr.strip (PyStr.or_empty (post_text_html order)) in
  let full := _normalize_text (body ++ HASHTAG) in
  if has_media && (1024 <? length full)%nat
  then PyStr.strip (firstn 1000 full ++ DOTS)
  else full.

(** [_content_matches] *)
Definition _content_matches (expected current : pystr) (order : Order) : bool :=
  match expected with
  | [] => true
  | _ =>
      if PyStr.pystr_eqb expected current then true
      else
        match current with
        | [] => false
        | _ =>
            if PyStr.truthy (post_media_file_id order) && (1024 <? length expected)%nat
            then
              let truncated := PyStr.strip (firstn 1000 expected ++ DOTS) in
              if PyStr.pystr_eqb current truncated then true
              else if (length current <=? 1024)%nat
                      && PyStr.startswith expected
                           (PyStr.rstrip_by (fun c => N.eqb c 46) current)
              then true
              else false
            else false
        end
  end.

(** What [bot.forward_message] did: raised, or returned a message with its
    [text] and [caption]. *)
Inductive Forward :=
  | ForwardRaised
  | Forwarded (text caption : option pystr).

(** [_fetch_post_content]: [(exists, current_text)] *)
Definition _fetch_post_content (verification_chat_id : option Z) (fwd : Forward)
    : bool * pystr :=
  match verification_chat_id with
  | None => (false, [])
  | Some chat =>
      if bool_decide (chat = 0) then (false, [])
      else
        match fwd with
        | ForwardRaised => (false, [])
        | Forwarded text caption =>
            let t := if PyStr.truthy text then PyStr.or_empty text
                     else if PyStr.truthy caption then PyStr.or_empty caption
                     else [] in
            (true, _normalize_text t)
        end
  end.

(** [_notify_post_edited]: notify buyer and seller. *)
Definition _notify_post_edited (order : Order) : M unit :=
  (if negb (bool_decide (buyer_telegram_id order = 0))
   then emit (SendMessage (buyer_telegram_id order) PostEdited)
   else ret tt) ;;;
  (if negb (bool_decide (seller_telegram_id order = 0))
      && negb (bool_decide (seller_telegram_id order = buyer_telegram_id order))
   then emit (SendMessage (seller_telegram_id order) PostEdited)
   else ret tt).

(** The rows the query of [verify_pending_orders] selects. *)
Definition selected (order : Order) : bool :=
  bool_decide (status order = done_)
  && bool_decide (done_at order ≠ None)
  && bool_decide (published_channel_message_id order ≠ None)
  && bool_decide (verified_at order = None).

(** The end of the loop body of [verify_pending_orders], once the post was
    fetched: compare, then notify an edit or set [verified_at] and commit. *)
Definition conclude (now : Z) (order_id : Z) (order : Order)
    (expected current_text : pystr) : M bool :=
  fun db =>
  if match expected with [] => false | _ => true end
     && negb (_content_matches expected current_text order)
  then
    let '(_, db1, log) := _notify_post_edited order db in
    (false, db1, log)
  else
    (true,
     with_orders db (<[order_id := set_verified_at order (Some now)]> (orders db)),
     []).

(** The body of the loop of [verify_pending_orders] for one selected order;
    [forward chat message_id] is the outcome of forwarding that message.
    The result tells whether [verified_count] was incremented. *)
Definition verify_order (now : Z) (verification_chat_id : option Z)
    (forward : Z -> Z -> Forward) (order_id : Z) (order : Order) : M bool :=
  fun db =>
  let duration :=
    match channel_ad_formats db !! format_id order with
    | Some fmt => duration_hours fmt
    | None => 24
    end in
  match done_at order, published_channel_message_id order with
  | Some done_time, Some message_id =>
      let elapsed := now - done_time in
      let required := duration * 3600 in
      if elapsed <? required - 60 then (false, db, [])
      else
        match channels db !! channel_id order with
        | None => (false, db, [])
        | Some channel =>
            let '(exists_, current_text) :=
              _fetch_post_content verification_chat_id
                (forward (ch_telegram_id channel) message_id) in
            if negb exists_ then (false, db, [])
            else
              let has_media := PyStr.truthy (post_media_file_id order) in
              let expected := _build_expected_text order has_media in
              conclude now order_id order expected current_text db
        end
  | _, _ => (false, db, [])
  end.

Fixpoint verify_orders (now : Z) (verification_chat_id : option Z)
    (forward : Z -> Z -> Forward) (rows : list (Z * Order)) : M Z :=
  match rows with
  | [] => ret 0
  | (order_id, order) :: rest =>
      ok <- verify_order now verification_chat_id forward order_id order ;;
      n <- verify_orders now verification_chat_id forward rest ;;
      ret ((if ok then 1 else 0) + n)
  end.

(** [verify_pending_orders] *)
Definition verify_pending_orders (now : Z) (verification_chat_id : option Z)
    (forward : Z -> Z -> Forward) : M Z :=
  db <- get_db ;;
  verify_orders now verification_chat_id forward
    (List.filter (fun it => selected (snd it)) (map_to_list (orders db))).

End OrderVerifier.

(** ** Internal order routes ([api/routes/internal.py]) *)

Module Internal.

Import Orders.

(** [_verify_internal_secret]: the status code it raises, if any. *)
Definition _verify_internal_secret (internal_secret x_internal_secret : option pystr)
    : option Z :=
  if negb (PyStr.truthy internal_secret) then Some 500
  else if bool_decide (x_internal_secret = internal_secret) then None
  else Some 403.

(** The body of the seller routes: [orderId] and [telegramId], both [ge=1]. *)
Record OrderIn := mkOrderIn {
  orderId : Z;
  telegramId : Z
}.

Definition valid_body (body : OrderIn) : bool :=
  (1 <=? orderId body) && (1 <=? telegramId body).

(** What every order route does first: validate the body, check the secret,
    load the order.  [who] selects the party the caller must be. *)
Definition load_order (who : Order -> Z) (internal_secret x_internal_secret : option pystr)
    (body : OrderIn) (db : DB) : HTTP Order :=
  if negb (valid_body body) then HTTPException 422
  else
    match _verify_internal_secret internal_secret x_internal_secret with
    | Some code => HTTPException code
    | None =>
        match orders db !! orderId body with
        | None => HTTPException 404
        | Some order =>
            if negb (bool_decide (who order = telegramId body)) then HTTPException 403
            else Response order
        end
    end.

(** [order_post_update]: the buyer stores the post while writing it. *)
Definition order_post_update (internal_secret x_internal_secret : option pystr)
    (body : OrderIn) (postTextHtml postMediaFileId : option pystr) : M (HTTP unit) :=
  fun db =>
  match load_order buyer_telegram_id internal_secret x_internal_secret body db with
  | HTTPException code => (HTTPException code, db, [])
  | Response order =>
      if negb (bool_decide (status order = writing_post))
      then (HTTPException 400, db, [])
      else
        let text := match postTextHtml with
                    | Some _ => postTextHtml
                    | None => post_text_html order
                    end in
        let media := match postMediaFileId with
                     | Some _ => postMediaFileId
                     | None => post_media_file_id order
                     end in
        let o1 :=
          mkOrder (channel_id order) (format_id order) (buyer_telegram_id order)
            (seller_telegram_id order) (status order) (payment_currency order)
            (payment_amount order) text media (post_token order)
            (seller_revision_comment order) (done_at order) (published_post_link order)
            (published_channel_message_id order) (verified_at order) in
        (Response tt, with_orders db (<[orderId body := o1]> (orders db)), [])
  end.

(** [order_post_approve]: the buyer submits the post; the status is not read. *)
Definition order_post_approve (internal_secret x_internal_secret : option pystr)
    (body : OrderIn) : M (HTTP Z) :=
  fun db =>
  match load_order buyer_telegram_id internal_secret x_internal_secret body db with
  | HTTPException code => (HTTPException code, db, [])
  | Response order =>
      (Response (seller_telegram_id order),
       with_orders db (<[orderId body := set_status order pending_seller]> (orders db)),
       [OrderStatusCommitted (orderId body) pending_seller])
  end.

(** [order_seller_approve]: answers the buyer's id. *)
Definition order_seller_approve (internal_secret x_internal_secret : option pystr)
    (body : OrderIn) (now : Z) : M (HTTP Z) :=
  fun db =>
  match load_order seller_telegram_id internal_secret x_internal_secret body db with
  | HTTPException code => (HTTPException code, db, [])
  | Response order =>
      if negb (bool_decide (status order = pending_seller))
      then (HTTPException 400, db, [])
      else
        let o1 := set_status order done_ in
        let o2 := set_done_at o1 (Some now) in
        let o3 := set_seller_revision_comment o2 None in
        let db1 := with_orders db (<[orderId body := o3]> (orders db)) in
        let '(db2, ok) := OrderPayment.release_to_seller (orderId body) db1 in
        (Response (buyer_telegram_id order), db2,
         [OrderStatusCommitted (orderId body) done_; ReleaseCalled (orderId body) ok])
  end.

(** [order_seller_revision]; [comment] has [min_length=1], [max_length=2000]. *)
Definition order_seller_revision (internal_secret x_internal_secret : option pystr)
    (body : OrderIn) (comment : pystr) : M (HTTP unit) :=
  fun db =>
  if negb ((1 <=? length comment)%nat && (length comment <=? 2000)%nat)
  then (HTTPException 422, db, [])
  else
    match load_order seller_telegram_id internal_secret x_internal_secret body db with
    | HTTPException code => (HTTPException code, db, [])
    | Response order =>
        if negb (bool_decide (status order = pending_seller))
        then (HTTPException 400, db, [])
        else
          let o1 := set_status order writing_post in
          let o2 := set_seller_revision_comment o1 (Some comment) in
          (Response tt, with_orders db (<[orderId body := o2]> (orders db)),
           [OrderStatusCommitted (orderId body) writing_post])
    end.

(** [order_seller_decline] *)
Definition order_seller_decline (internal_secret x_internal_secret : option pystr)
    (body : OrderIn) : M (HTTP unit) :=
  fun db =>
  match load_order seller_telegram_id internal_secret x_internal_secret body db with
  | HTTPException code => (HTTPException code, db, [])
  | Response order =>
      if negb (bool_decide (status order = pending_seller))
      then (HTTPException 400, db, [])
      else
        let db1 :=
          with_orders db (<[orderId body := set_status order cancelled]> (orders db)) in
        let '(db2, ok) := OrderPayment.refund_to_buyer (orderId body) db1 in
        (Response tt, db2,
         [OrderStatusCommitted (orderId body) cancelled; RefundCalled (orderId body) ok])
  end.

End Internal.

(** ** Connected wallets and TON withdrawal requests ([api/routes/wallet.py]) *)

(** One row of [ton_wallets]. *)
Record TonWallet := mkTonWallet {
  w_telegram_id : Z;
  w_address : pystr;
  w_friendly_address : option pystr;
  w_wallet_name : option pystr;
  w_is_primary : bool;
  w_is_active : bool;
  w_disconnected_at : option Z
}.

(** The answer of [scalar_one_or_none] on a table without a key for the
    filter: no row, the row and its position, or [MultipleResultsFound]. *)
Inductive Selected (A : Type) :=
  | NoRow
  | OneRow (i : nat) (a : A)
  | MultipleRows.
Arguments NoRow {A}.
Arguments OneRow {A} i a.
Arguments MultipleRows {A}.

Definition matching {A} (p : A -> bool) (rows : list A) : list (nat * A) :=
  List.filter (fun it => p (snd it)) (combine (seq 0 (length rows)) rows).

Definition scalar_one_or_none {A} (p : A -> bool) (rows : list A) : Selected A :=
  match matching p rows with
  | [] => NoRow
  | [(i, a)] => OneRow i a
  | _ => MultipleRows
  end.

Module TonWallets.

Import Orders.

Definition TON_WITHDRAW_FEE : Decimal := 150000000.
Definition TON_WITHDRAW_MIN : Decimal := 100000000.

Record ConnectWalletRequest := mkConnectWalletRequest {
  address : pystr;
  friendlyAddress : option pystr;
  walletName : option pystr
}.

(** [a or b] on optional strings. *)
Definition or_else (a b : option pystr) : option pystr :=
  if PyStr.truthy a then a else b.

(** [connect_wallet]: answers the position of the wallet row and [isNew]. *)
Definition connect_wallet (request : ConnectWalletRequest) (telegram_id : Z)
    (wallets : list TonWallet) : list TonWallet * HTTP (nat * bool) :=
  match scalar_one_or_none
          (fun w => bool_decide (w_telegram_id w = telegram_id)
                    && bool_decide (w_address w = address request)) wallets with
  | MultipleRows => (wallets, HTTPException 500)
  | OneRow i existing =>
      (<[i := mkTonWallet (w_telegram_id existing) (w_address existing)
                (or_else (friendlyAddress request) (w_friendly_address existing))
                (or_else (walletName request) (w_wallet_name existing))
                true true None]> wallets,
       Response (i, false))
  | NoRow =>
      let demoted :=
        List.map
          (fun w =>
             if bool_decide (w_telegram_id w = telegram_id) && w_is_primary w
             then mkTonWallet (w_telegram_id w) (w_address w) (w_friendly_address w)
                    (w_wallet_name w) false (w_is_active w) (w_disconnected_at w)
             else w)
          wallets in
      (demoted ++ [mkTonWallet telegram_id (address request) (friendlyAddress request)
                     (walletName request) true true None],
       Response (length wallets, true))
  end.

(** [disconnect_wallet] *)
Definition disconnect_wallet (telegram_id : Z) (now : Z) (wallets : list TonWallet)
    : list TonWallet :=
  List.map
    (fun w =>
       if bool_decide (w_telegram_id w = telegram_id) && w_is_primary w && w_is_active w
       then mkTonWallet (w_telegram_id w) (w_address w) (w_friendly_address w)
              (w_wallet_name w) false false (Some now)
       else w)
    wallets.

(** [get_wallet_info]: the connected wallet, [None] for [connected=False]. *)
Definition get_wallet_info (telegram_id : Z) (wallets : list TonWallet)
    : HTTP (option TonWallet) :=
  match scalar_one_or_none
          (fun w => bool_decide (w_telegram_id w = telegram_id)
                    && w_is_primary w && w_is_active w) wallets with
  | NoRow => Response None
  | OneRow _ w => Response (Some w)
  | MultipleRows => HTTPException 500
  end.

(** The wallet [ton_withdraw] sends to: the first active wallet of the user
    with the primary ones ordered first. *)
Definition withdraw_wallet (telegram_id : Z) (wallets : list TonWallet) : option TonWallet :=
  let active :=
    List.filter (fun w => bool_decide (w_telegram_id w = telegram_id) && w_is_active w)
                wallets in
  match List.filter w_is_primary active with
  | w :: _ => Some w
  | [] => match active with
          | w :: _ => Some w
          | [] => None
          end
  end.

Definition has_ton_event_id (e : pystr) (l : list TonWithdrawal) : bool :=
  existsb (fun t => bool_decide (tw_event_id t = e)) l.

(** [ton_withdraw]; [wd_id] is the fresh [ton_wd_{uuid4().hex}].  The
    balance columns keep eight decimals of what is written, the [amount] of
    the withdrawal row nine. *)
Definition ton_withdraw (amount : Decimal) (telegram_id : Z) (wd_id : pystr)
    (wallets : list TonWallet) (db : DB) : DB * HTTP TxStatus :=
  if negb (TON_WITHDRAW_MIN <=? amount) then (db, HTTPException 422)
  else
    match withdraw_wallet telegram_id wallets with
    | None => (db, HTTPException 400)
    | Some conn =>
        match w_address conn with
        | [] => (db, HTTPException 400)
        | addr =>
            let total_deduct := amount + TON_WITHDRAW_FEE in
            let net_amount := amount in
            match user_balances db !! (telegram_id, Ton) with
            | None => (db, HTTPException 400)
            | Some ton_bal =>
                if available ton_bal <? total_deduct then (db, HTTPException 400)
                else
                  let b1 := set_available ton_bal
                              (numeric8 (available ton_bal - total_deduct)) in
                  let b2 := set_total_withdrawn b1
                              (numeric8 (total_withdrawn b1 + total_deduct)) in
                  let tx := mkTonWithdrawal wd_id telegram_id (numeric9 net_amount)
                              (Some (firstn 256 addr)) pending None in
                  if has_ton_event_id wd_id (ton_withdrawals db) then (db, HTTPException 500)
                  else
                    (with_ton_withdrawals
                       (with_balances db (<[(telegram_id, Ton) := b2]> (user_balances db)))
                       (ton_withdrawals db ++ [tx]),
                     Response pending)
            end
        end
    end.

End TonWallets.

(** ** Stars top-up and refund
    ([telegram_bot/handlers.py], [api/routes/stars.py]) *)

Inductive StarsStatus := stars_completed | stars_refunded.

#[global] Instance StarsStatus_eq_dec : EqDecision StarsStatus.
Proof. solve_decision. Defined.

(** One row of [stars_transactions]; its [id] is its position. *)
Record StarsTransaction := mkStarsTransaction {
  st_telegram_id : Z;
  st_amount : Z;
  st_invoice_payload : pystr;
  telegram_payment_charge_id : pystr;
  provider_payment_charge_id : pystr;
  st_status : StarsStatus
}.

Module Stars.

Import Orders.

Definition StarsDB : Type := DB * list StarsTransaction.

(** [Decimal(amount)] of a whole number of Stars. *)
Definition stars (amount : Z) : Decimal := amount * 1000000000.

Definition charged (charge_id : pystr) (l : list StarsTransaction) : bool :=
  existsb (fun t => bool_decide (telegram_payment_charge_id t = charge_id)) l.

(** [_process_stars_payment] *)
Definition _process_stars_payment (telegram_id : Z) (amount : Z)
    (charge_id provider_charge_id invoice_payload : pystr) (s : StarsDB) : StarsDB * bool :=
  let '(db, txs) := s in
  if charged charge_id txs then (s, true)
  else
    let amt := stars amount in
    let bals :=
      match user_balances db !! (telegram_id, Stars) with
      | Some bal =>
          let b1 := set_available bal (available bal + amt) in
          let b2 := set_total_deposited b1 (total_deposited b1 + amt) in
          <[(telegram_id, Stars) := b2]> (user_balances db)
      | None =>
          <[(telegram_id, Stars) := mkUserBalance amt 0 amt 0]> (user_balances db)
      end in
    let tx := mkStarsTransaction telegram_id amount invoice_payload charge_id
                provider_charge_id stars_completed in
    ((with_balances db bals, txs ++ [tx]), true).

(** [refund_stars]; [refunded] is what [bot.refund_star_payment] did: [Some
    ok], or [None] when it raised. *)
Definition refund_stars (transactionId : nat) (telegram_id : Z) (refunded : option bool)
    (s : StarsDB) : StarsDB * HTTP unit :=
  let '(db, txs) := s in
  match txs !! transactionId with
  | None => (s, HTTPException 404)
  | Some tx =>
      if negb (bool_decide (st_telegram_id tx = telegram_id)) then (s, HTTPException 403)
      else if negb (bool_decide (st_status tx = stars_completed)) then (s, HTTPException 400)
      else
        match user_balances db !! (telegram_id, Stars) with
        | None => (s, HTTPException 400)
        | Some bal =>
            if available bal <? stars (st_amount tx) then (s, HTTPException 400)
            else
              match refunded with
              | Some true =>
                  let b1 := set_available bal (available bal - stars (st_amount tx)) in
                  let b2 := set_total_deposited b1
                              (total_deposited b1 - stars (st_amount tx)) in
                  let tx' := mkStarsTransaction (st_telegram_id tx) (st_amount tx)
                               (st_invoice_payload tx) (telegram_payment_charge_id tx)
                               (provider_payment_charge_id tx) stars_refunded in
                  ((with_balances db (<[(telegram_id, Stars) := b2]> (user_balances db)),
                    <[transactionId := tx']> txs),
                   Response tt)
              | _ => (s, HTTPException 500)
              end
        end
  end.

(** [exchange_stars_to_usdt]; [stars_per_usd] is what [get_stars_per_usd]
    returned.  The answer is the USDT amount received. *)
Definition exchange_stars_to_usdt (amount : Z) (telegram_id : Z) (stars_per_usd : Z)
    (db : DB) : DB * HTTP Decimal :=
  if negb (1 <=? amount) then (db, HTTPException 422)
  else
    let usdt_amount := div_half_even (amount * 100) stars_per_usd * 10000000 in
    match user_balances db !! (telegram_id, Stars) with
    | None => (db, HTTPException 400)
    | Some stars_bal =>
        if available stars_bal <? stars amount then (db, HTTPException 400)
        else
          let m1 := <[(telegram_id, Stars) :=
                        set_available stars_bal (available stars_bal - stars amount)]>
                      (user_balances db) in
          let m2 :=
            match user_balances db !! (telegram_id, Usdt) with
            | Some usdt_bal =>
                let b1 := set_available usdt_bal (available usdt_bal + usdt_amount) in
                <[(telegram_id, Usdt) :=
                    set_total_deposited b1 (total_deposited b1 + usdt_amount)]> m1
            | None =>
                <[(telegram_id, Usdt) := mkUserBalance usdt_amount 0 usdt_amount 0]> m1
            end in
          (with_balances db m2, Response usdt_amount)
    end.

End Stars.

(** ** Captions ([telegram_bot/handlers.py]) *)

(** The literal [_publish_post_to_channel] appends to the post, code point by
    code point as the source file has it: two line feeds, [#] and fourteen
    more characters.  It is not the literal of [order_verifier.py]. *)
Definition POST_HASHTAG : pystr :=
  [10; 10; 35; 8211; 8224; 8211; 181; 8211; 8747; 8211; 170; 8211; 8734; 8211; 186;
   8211; 8734]%N.

(** The caption [_publish_post_to_channel] sends with a photo. *)
Definition photo_caption (post_text_html : option pystr) : pystr :=
  let post_body := PyStr.or_empty post_text_html ++ POST_HASHTAG in
  if (length post_body <=? 1024)%nat then firstn 1024 post_body
  else firstn 1000 post_body ++ OrderVerifier.DOTS.

(** ** Vocabulary of the properties *)

(** Sum of a per-row quantity over the [user_balances] table. *)
Definition balances_sum (f : Z * Currency -> UserBalance -> Z)
    (m : gmap (Z * Currency) UserBalance) : Z :=
  map_fold (fun k b acc => f k b + acc) 0 m.

(** [available + frozen] of every row, all users and currencies. *)
Definition ledger_total (db : DB) : Z :=
  balances_sum (fun _ b => available b + frozen b) (user_balances db).

(** The same sum restricted to the rows of one currency. *)
Definition ledger_total_of (cur : Currency) (db : DB) : Z :=
  balances_sum (fun k b => if bool_decide (snd k = cur) then available b + frozen b else 0)
               (user_balances db).

(** One call of an escrow primitive. *)
Inductive EscrowCall :=
  | Freeze (telegram_id : Z) (currency : Currency) (amount : Decimal)
  | Release (order_id : Z)
  | Refund (order_id : Z).

Definition escrow_call (c : EscrowCall) (db : DB) : DB * bool :=
  match c with
  | Freeze u cur amt => OrderPayment.freeze_for_order u cur amt db
  | Release o => OrderPayment.release_to_seller o db
  | Refund o => OrderPayment.refund_to_buyer o db
  end.

Fixpoint escrow_calls (cs : list EscrowCall) (db : DB) : DB :=
  match cs with
  | [] => db
  | c :: rest => escrow_calls rest (fst (escrow_call c db))
  end.

(** A weight that depends on a row only through [available + frozen]. *)
Definition total_weight (f : Z * Currency -> UserBalance -> Z) : Prop :=
  exists g : Currency -> Z,
    forall k b, f k b = g (snd k) * (available b + frozen b).

(** The chain outcomes after which the sender gives a withdrawal up: the
    send fails, or it succeeds, a hash is found and, of the three finality
    checks, the first that gives an answer reports a failure. *)
Definition usdt_send_failed (chain : UsdtWithdraw.Chain) (our_wallet : pystr)
    (tx : UsdtTransaction) : Prop :=
  UsdtWithdraw.send_jetton chain tx = None
  \/ exists c h k,
       our_wallet <> []
       /\ UsdtWithdraw.fetch_tx_hash chain tx = Some (c :: h)
       /\ (k < 3)%nat
       /\ UsdtWithdraw.verify_tx_success chain (c :: h) k = Some false
       /\ forall j, (j < k)%nat -> UsdtWithdraw.verify_tx_success chain (c :: h) j = None.

(** What normalization leaves of the appended literal: the hashtag without
    its two line feeds. *)
Definition hashtag_alone : pystr := [35; 1056; 1077; 1082; 1083; 1072; 1084; 1072]%N.

(** The notices [_notify_post_edited] sends for an order. *)
Definition edit_notices (order : Order) : list Event :=
  (if bool_decide (buyer_telegram_id order = 0) then []
   else [SendMessage (buyer_telegram_id order) PostEdited])
  ++ (if bool_decide (seller_telegram_id order = 0)
         || bool_decide (seller_telegram_id order = buyer_telegram_id order)
      then []
      else [SendMessage (seller_telegram_id order) PostEdited]).

(** A value that a column of the given unit holds without rounding. *)
Definition at_scale (unit : Z) (x : Decimal) : Prop := x mod unit = 0.

(** A hash on which none of the three finality checks gives an answer, or no
    usable hash at all. *)
Definition finality_unknown (verify : pystr -> nat -> option bool) (h : option pystr) : Prop :=
  PyStr.truthy h = false
  \/ forall n, (n < 3)%nat -> verify (PyStr.or_empty h) n = None.

(** The identifiers recorded in [db] are recorded in [db']. *)
Definition keeps_records (db db' : DB) : Prop :=
  forall e, Wallet.has_event_id e (usdt_transactions db) = true ->
            Wallet.has_event_id e (usdt_transactions db') = true.

(** The result of scanning a list a second time: it raises where the first
    pass raised and credits nothing. *)
Definition again (r : Raises Z) : Raises Z :=
  match r with
  | Raised => Raised
  | Returned _ => Returned 0
  end.

(** Every balance row has non-negative available and frozen amounts. *)
Definition nonneg_balances (db : DB) : Prop :=
  forall k b, user_balances db !! k = Some b -> 0 <= available b /\ 0 <= frozen b.

(** Every order that carries an amount carries a non-negative one. *)
Definition nonneg_orders (db : DB) : Prop :=
  forall o order amt,
    orders db !! o = Some order -> payment_amount order = Some amt -> 0 <= amt.

Definition nonneg_call (c : EscrowCall) : Prop :=
  match c with
  | Freeze _ _ amt => 0 <= amt
  | _ => True
  end.

(** The balance rows a call may write. *)
Definition touched (c : EscrowCall) (db : DB) : list (Z * Currency) :=
  match c with
  | Freeze u cur _ => [(u, cur)]
  | Release o =>
      match orders db !! o with
      | Some order =>
          match payment_currency order with
          | Some cur => [(buyer_telegram_id order, cur); (seller_telegram_id order, cur)]
          | None => []
          end
      | None => []
      end
  | Refund o =>
      match orders db !! o with
      | Some order =>
          match payment_currency order with
          | Some cur => [(buyer_telegram_id order, cur)]
          | None => []
          end
      | None => []
      end
  end.

(** What a guarded seller route may do: an error changes nothing and logs
    nothing; an answer means the secret matched, the order exists, the caller
    is its seller and the order was waiting for the seller. *)
Definition seller_guarded {A} (internal_secret x_internal_secret : option pystr)
    (body : Internal.OrderIn) (db : DB) (res : Orders.HTTP A * DB * list Event) : Prop :=
  match res with
  | (Orders.HTTPException _, db', log) => db' = db /\ log = []
  | (Orders.Response _, _, _) =>
      PyStr.truthy internal_secret = true
      /\ x_internal_secret = internal_secret
      /\ exists order,
           orders db !! Internal.orderId body = Some order
           /\ seller_telegram_id order = Internal.telegramId body
           /\ status order = pending_seller
  end.

(** A withdrawal row after the sender handled it: the same request, with a
    final status. *)
Definition settled_from (tx tx' : UsdtTransaction) : Prop :=
  event_id tx' = event_id tx /\ tx_telegram_id tx' = tx_telegram_id tx
  /\ amount tx' = amount tx /\ memo tx' = memo tx /\ tx_type tx' = tx_type tx
  /\ (tx_status tx' = completed \/ tx_status tx' = failed).

(** How many of the rows at the positions [rows] are completed in [db]. *)
Definition completed_among (db : DB) (rows : list nat) : Z :=
  Z.of_nat
    (length
       (List.filter
          (fun i => bool_decide ((tx_status <$> (usdt_transactions db !! i)) = Some completed))
          rows)).

(** A row the deposit scanner writes, the notice it sends for it, and the
    sum of the amounts of a list of rows. *)
Definition deposit_row (t : UsdtTransaction) : Prop :=
  tx_type t = deposit /\ tx_status t = completed /\ 0 < amount t
  /\ exists s, event_id t = UsdtDeposit.PREFIX ++ s.

Definition credit_notice (t : UsdtTransaction) : Event :=
  SendMessage (tx_telegram_id t) (UsdtDeposited (amount t)).

Definition amounts (l : list UsdtTransaction) : Z :=
  fold_right (fun t acc => amount t + acc) 0 l.

(** A balance row that was only credited: nothing but [available] and
    [total_deposited] may differ, and only rows in USDT may differ at all. *)
Definition credited_from (k : Z * Currency) (b b' : UserBalance) : Prop :=
  available b <= available b' /\ frozen b' = frozen b
  /\ total_withdrawn b' = total_withdrawn b
  /\ available b' - available b = total_deposited b' - total_deposited b
  /\ (snd k <> Usdt -> b' = b).

(** One call of an order route or of a bot handler of the order flow. *)
Inductive OrderOp :=
  | OpCreate (body : Orders.CreateOrderIn) (telegram_id : Z) (token : pystr)
  | OpCancel (order_id telegram_id : Z)
  | OpPostUpdate (secret header : option pystr) (body : Internal.OrderIn)
      (text media : option pystr)
  | OpPostApprove (secret header : option pystr) (body : Internal.OrderIn)
  | OpSellerApprove (secret header : option pystr) (body : Internal.OrderIn) (now : Z)
  | OpSellerRevision (secret header : option pystr) (body : Internal.OrderIn)
      (comment : pystr)
  | OpSellerDecline (secret header : option pystr) (body : Internal.OrderIn)
  | OpBotApprove (order_id : Z) (sent : option Z) (now : Z)
  | OpBotDecline (order_id : Z)
  | OpBotComment (order_id : option Z) (text : option pystr).

Definition order_op (op : OrderOp) (db : DB) : DB :=
  match op with
  | OpCreate body u token => fst (Orders.create_order body u token db)
  | OpCancel o u => run_db (Orders.cancel_order o u) db
  | OpPostUpdate s h body text media =>
      run_db (Internal.order_post_update s h body text media) db
  | OpPostApprove s h body => run_db (Internal.order_post_approve s h body) db
  | OpSellerApprove s h body now => run_db (Internal.order_seller_approve s h body now) db
  | OpSellerRevision s h body comment =>
      run_db (Internal.order_seller_revision s h body comment) db
  | OpSellerDecline s h body => run_db (Internal.order_seller_decline s h body) db
  | OpBotApprove o sent now => run_db (Handlers.cb_seller_approve o sent now) db
  | OpBotDecline o => run_db (Handlers.cb_seller_decline o) db
  | OpBotComment o text => run_db (Handlers.on_seller_comment o text) db
  end.

Fixpoint order_ops (ops : list OrderOp) (db : DB) : DB :=
  match ops with
  | [] => db
  | op :: rest => order_ops rest (order_op op db)
  end.

(** ** Sample data

    A buyer (100) and a seller (200) who owns channel 1 with format 7. *)

Module Samples.

Definition usdt (whole : Z) : Decimal := whole * 1000000000.

Definition channel1 : Channel :=
  mkChannel (-1001) 200 "active" true (lit "News") (Some (lit "news")).

Definition format7 : ChannelAdFormat :=
  mkChannelAdFormat 1 true 50 (Some (usdt 30)) 24.

Definition empty_db : DB :=
  mkDB ∅ ∅ 1 [] [] {[ 1 := channel1 ]} {[ 7 := format7 ]} None ∅.

(** The buyer holds 100 USDT. *)
Definition funded_db : DB :=
  with_balances empty_db {[ (100, Usdt) := mkUserBalance (usdt 100) 0 (usdt 100) 0 ]}.

(** The buyer holds 20 USDT. *)
Definition poor_db : DB :=
  with_balances empty_db {[ (100, Usdt) := mkUserBalance (usdt 20) 0 (usdt 20) 0 ]}.

(** An order of 30 USDT placed by the buyer, in the given status. *)
Definition order30 (st : OrderStatus) : Order :=
  mkOrder 1 7 100 200 st (Some Usdt) (Some (usdt 30))
    (Some (lit "Buy now")) None (Some (lit "a1b2c3d4")) None None None None None.

(** Order 1 waits for the seller; its 30 USDT are frozen. *)
Definition pending_db : DB :=
  with_orders_seq
    (with_orders
       (with_balances empty_db
          {[ (100, Usdt) := mkUserBalance (usdt 70) (usdt 30) (usdt 100) 0 ]})
       {[ 1 := order30 pending_seller ]})
    2.

(** Order 1 was cancelled and refunded; order 2, of 50 USDT, is still being
    written and has its 50 USDT frozen. *)
Definition order50 : Order :=
  mkOrder 1 7 100 200 writing_post (Some Usdt) (Some (usdt 50))
    None None (Some (lit "e5f6g7h8")) None None None None None.

Definition after_cancel_db : DB :=
  with_orders_seq
    (with_orders
       (with_balances empty_db
          {[ (100, Usdt) := mkUserBalance (usdt 50) (usdt 50) (usdt 100) 0 ]})
       {[ 1 := order30 cancelled; 2 := order50 ]})
    3.

(** A request to withdraw 50 USDT to a 48-character address. *)
Definition address48 : pystr := lit "UQBvW8Z5huBkMJYdnfAEM5JqTNkuWX3diqYENkWsIL0XggGG".

Definition withdraw50 : Wallet.UsdtWithdrawRequest :=
  Wallet.mkUsdtWithdrawRequest (usdt 50) address48 None.

(** A request to withdraw 10.0000004 USDT. *)
Definition withdraw_fraction : Wallet.UsdtWithdrawRequest :=
  Wallet.mkUsdtWithdrawRequest 10000000400 address48 None.

(** A chain on which every send fails. *)
Definition dead_chain : UsdtWithdraw.Chain :=
  UsdtWithdraw.mkChain (fun _ => None) (fun _ => None) (fun _ _ => None).

(** A chain that accepts the send, finds the hash, is silent at the first
    finality check and reports a failure at the second. *)
Definition rejecting_chain : UsdtWithdraw.Chain :=
  UsdtWithdraw.mkChain (fun _ => Some None) (fun _ => Some (lit "abcdef0123456789"))
    (fun _ n => match n with 1%nat => Some false | _ => None end).

(** A chain that accepts the send and never answers about the hash. *)
Definition silent_chain : UsdtWithdraw.Chain :=
  UsdtWithdraw.mkChain (fun _ => Some None) (fun _ => Some (lit "abcdef0123456789"))
    (fun _ _ => None).

(** The TON sender with [pytoniq] in place. *)
Definition ton_chain : TonWithdraw.Chain := TonWithdraw.mkChain true.

(** One pending USDT withdrawal and one pending TON withdrawal of the buyer,
    both already debited. *)
Definition usdt_row : UsdtTransaction :=
  mkUsdtTransaction (lit "wd_1") 100 49700000000 (Some address48) None
    withdrawal pending None.

Definition ton_row : TonWithdrawal :=
  mkTonWithdrawal (lit "tw_1") 100 (usdt 2) (Some address48) pending None.

Definition withdrawing_db : DB :=
  with_ton_withdrawals
    (with_usdt_transactions
       (with_balances empty_db
          {[ (100, Usdt) := mkUserBalance (usdt 50) 0 (usdt 100) (usdt 50);
             (100, Ton) := mkUserBalance (usdt 3) 0 (usdt 5) 2150000000 ]})
       [usdt_row])
    [ton_row].

(** The built-ins of the deposit scanner on ASCII input: [str.isdigit] and
    [int] of a string of the digits 0-9, the amount of a raw value given in
    units of 10^-6, and [str] of an integer or [None], which the samples do
    not exercise. *)
Definition ascii_isdigit (s : pystr) : bool :=
  match s with
  | [] => false
  | _ => forallb (fun c => (48 <=? c)%N && (c <=? 57)%N) s
  end.

Definition ascii_int (s : pystr) : option Z :=
  if ascii_isdigit s
  then Some (fold_left (fun acc c => acc * 10 + (Z.of_N c - 48)) s 0)
  else None.

Definition raw_usdt_amount (v : pyval) : DecimalResult :=
  match v with
  | PInt z => DecValue (z * 1000)
  | PStr s => match ascii_int s with
              | Some z => DecValue (z * 1000)
              | None => DecInvalidOperation
              end
  | _ => DecTypeOrValueError
  end.

Definition str_unused (v : pyval) : pystr := [].

(** A transfer of 5 USDT with comment "777", as TonAPI reports it. *)
Definition transfer_777 : list (string * pyval) :=
  [("event_id", PStr (lit "ev1"));
   ("actions",
    PList [PDict [("type", PStr (lit "JettonTransfer"));
                  ("JettonTransfer",
                   PDict [("amount", PStr (lit "5000000"));
                          ("comment", PStr (lit "777"))])]])].

(** A transfer of 5 USDT whose comment is twenty nines. *)
Definition transfer_huge : list (string * pyval) :=
  [("event_id", PStr (lit "ev2"));
   ("actions",
    PList [PDict [("type", PStr (lit "JettonTransfer"));
                  ("JettonTransfer",
                   PDict [("amount", PStr (lit "5000000"));
                          ("comment", PStr (lit "99999999999999999999"))])]])].

(** The database after the buyer asked to withdraw 10.0000004 USDT. *)
Definition fraction_db : DB :=
  fst (Wallet.usdt_withdraw withdraw_fraction 100 (lit "wd_1") funded_db).

(** The database after the buyer asked to withdraw 50 USDT. *)
Definition requested_db : DB :=
  fst (Wallet.usdt_withdraw withdraw50 100 (lit "wd_1") funded_db).

(** The scan over the transfer once, and over a feed that repeats it. *)
Definition scan_once : M (Raises Z) :=
  UsdtDeposit.scan_usdt_deposits str_unused raw_usdt_amount ascii_isdigit ascii_int
    [transfer_777].

Definition scan_repeated : M (Raises Z) :=
  UsdtDeposit.scan_usdt_deposits str_unused raw_usdt_amount ascii_isdigit ascii_int
    [transfer_777; transfer_777].

(** Order 1 was approved at time 1000 and published as message 55 of the
    channel for 24 hours. *)
Definition published_order : Order :=
  mkOrder 1 7 100 200 done_ (Some Usdt) (Some (usdt 30))
    (Some (lit "Buy now")) None (Some (lit "a1b2c3d4")) None (Some 1000)
    (Some (lit "news", 55)) (Some 55) None.

Definition published_db : DB :=
  with_orders_seq
    (with_orders
       (with_balances empty_db
          {[ (100, Usdt) := mkUserBalance (usdt 70) 0 (usdt 100) 0;
             (200, Usdt) := mkUserBalance (usdt 30) 0 0 0 ]})
       {[ 1 := published_order ]})
    2.

(** Order 1 with a stored text that is markup and a space only. *)
Definition blank_order : Order :=
  mkOrder 1 7 100 200 done_ (Some Usdt) (Some (usdt 30))
    (Some (lit "<b> </b>")) None (Some (lit "a1b2c3d4")) None (Some 1000)
    (Some (lit "news", 55)) (Some 55) None.

Definition blank_db : DB :=
  with_orders published_db {[ 1 := blank_order ]}.

(** The message is there and its text is the hashtag. *)
Definition post_hashtag (chat message_id : Z) : OrderVerifier.Forward :=
  OrderVerifier.Forwarded (Some hashtag_alone) None.

(** The message is gone: forwarding it raises. *)
Definition post_deleted (chat message_id : Z) : OrderVerifier.Forward :=
  OrderVerifier.ForwardRaised.

(** The message is there with another text. *)
Definition post_edited (chat message_id : Z) : OrderVerifier.Forward :=
  OrderVerifier.Forwarded (Some (lit "Sold out")) None.

(** The message is there as it was published. *)
Definition post_intact (chat message_id : Z) : OrderVerifier.Forward :=
  OrderVerifier.Forwarded (Some (lit "Buy now" ++ OrderVerifier.HASHTAG)) None.

Definition order_usdt : Orders.CreateOrderIn := Orders.mkCreateOrderIn 1 7 Usdt.

Definition token : pystr := lit "a1b2c3d4".

End Samples.

(** ** Further sample data *)

Module Cases.

(** The buyer holds 5 TON and has one connected wallet. *)
Definition ton_db : DB :=
  with_balances Samples.empty_db
    {[ (100, Ton) := mkUserBalance (Samples.usdt 5) 0 (Samples.usdt 5) 0 ]}.

Definition wallet1 : TonWallet :=
  mkTonWallet 100 Samples.address48 None (Some (lit "Tonkeeper")) true true None.

(** The TON sender on a host without [pytoniq]. *)
Definition bare_host : TonWithdraw.Chain := TonWithdraw.mkChain false.

(** The buyer holds 50 Stars, topped up earlier. *)
Definition stars_db : DB :=
  with_balances Samples.empty_db
    {[ (100, Stars) := mkUserBalance (Stars.stars 50) 0 (Stars.stars 50) 0 ]}.

(** A wallet the buyer connected first and disconnected when he connected
    [wallet1]. *)
Definition wallet0 : TonWallet :=
  mkTonWallet 100 (lit "0:1f2e3d4c") None (Some (lit "MyTonWallet")) false false (Some 900).

Definition connect_new : TonWallets.ConnectWalletRequest :=
  TonWallets.mkConnectWalletRequest (lit "0:a1b2c3d4") None (Some (lit "Tonkeeper")).

Definition connect_again : TonWallets.ConnectWalletRequest :=
  TonWallets.mkConnectWalletRequest (lit "0:1f2e3d4c") None None.

(** Order 1 was approved and paid; order 2, of 50 USDT, is being written
    and has its 50 USDT frozen. *)
Definition paid_db : DB :=
  with_orders_seq
    (with_orders
       (with_balances Samples.empty_db
          {[ (100, Usdt) := mkUserBalance (Samples.usdt 20) (Samples.usdt 50)
                              (Samples.usdt 100) 0;
             (200, Usdt) := mkUserBalance (Samples.usdt 30) 0 0 0 ]})
       {[ 1 := Samples.published_order; 2 := Samples.order50 ]})
    3.

End Cases.

(** * Properties *)

(** ** Sums over the balance table *)

Section BalancesSum.

Variable f : Z * Currency -> UserBalance -> Z.

Lemma balances_sum_insert_fresh m k b :
  m !! k = None ->
  balances_sum f (<[k := b]> m) = f k b + balances_sum f m.
Proof.
  intros Hk. unfold balances_sum.
  rewrite map_fold_insert_L; [done | | done].
  intros. lia.
Qed.

Lemma balances_sum_lookup m k b :
  m !! k = Some b ->
  balances_sum f m = f k b + balances_sum f (delete k m).
Proof.
  intros Hk. unfold balances_sum.
  rewrite (map_fold_delete_L _ _ k b m); [done | | done].
  intros. lia.
Qed.

Lemma balances_sum_insert m k b b' :
  m !! k = Some b ->
  balances_sum f (<[k := b']> m) = balances_sum f m - f k b + f k b'.
Proof.
  intros Hk.
  rewrite <- (insert_delete_eq m k b').
  rewrite balances_sum_insert_fresh by apply lookup_delete_eq.
  rewrite (balances_sum_lookup m k b Hk). lia.
Qed.

Lemma balances_sum_insert_same m k b b' :
  m !! k = Some b -> f k b' = f k b ->
  balances_sum f (<[k := b']> m) = balances_sum f m.
Proof. intros Hk Hf. rewrite (balances_sum_insert m k b b' Hk). lia. Qed.

End BalancesSum.

Lemma freeze_preserves_sum f u cur amt db :
  total_weight f ->
  balances_sum f (user_balances (fst (OrderPayment.freeze_for_order u cur amt db)))
  = balances_sum f (user_balances db).
Proof.
  intros [g Hf]. unfold OrderPayment.freeze_for_order.
  destruct (user_balances db !! (u, cur)) as [bal|] eqn:Hb; [|done].
  destruct (available bal <? amt); [done|]. simpl.
  apply (balances_sum_insert_same f _ _ bal); [done|].
  rewrite !Hf. simpl. f_equal. lia.
Qed.

Lemma refund_preserves_sum f o db :
  total_weight f ->
  balances_sum f (user_balances (fst (OrderPayment.refund_to_buyer o db)))
  = balances_sum f (user_balances db).
Proof.
  intros [g Hf]. unfold OrderPayment.refund_to_buyer.
  destruct (orders db !! o) as [order|]; [|done].
  destruct (payment_currency order) as [curr|]; [|done].
  destruct (payment_amount order) as [amt|]; [|done].
  destruct (user_balances db !! (buyer_telegram_id order, curr)) as [bal|] eqn:Hb; [|done].
  destruct (frozen bal <? amt); [done|]. simpl.
  apply (balances_sum_insert_same f _ _ bal); [done|].
  rewrite !Hf. simpl. f_equal. lia.
Qed.

Lemma release_preserves_sum f o db :
  total_weight f ->
  balances_sum f (user_balances (fst (OrderPayment.release_to_seller o db)))
  = balances_sum f (user_balances db).
Proof.
  intros [g Hf]. unfold OrderPayment.release_to_seller.
  destruct (orders db !! o) as [order|]; [|done].
  destruct (payment_currency order) as [curr|]; [|done].
  destruct (payment_amount order) as [amt|]; [|done].
  destruct (negb _); [done|].
  destruct (user_balances db !! (buyer_telegram_id order, curr)) as [bal|] eqn:Hb; [|done].
  destruct (frozen bal <? amt); [done|]. simpl.
  set (m1 := <[(buyer_telegram_id order, curr) := _]> (user_balances db)).
  assert (Hm1 : balances_sum f m1
                = balances_sum f (user_balances db) - g curr * amt).
  { unfold m1. rewrite (balances_sum_insert f _ _ bal) by done.
    rewrite !Hf. simpl. lia. }
  destruct (m1 !! (seller_telegram_id order, curr)) as [sbal|] eqn:Hs.
  - rewrite (balances_sum_insert f _ _ sbal) by done.
    rewrite Hm1, !Hf. simpl. lia.
  - rewrite balances_sum_insert_fresh by done.
    rewrite Hm1, !Hf. simpl. lia.
Qed.

Lemma escrow_call_preserves_sum f c db :
  total_weight f ->
  balances_sum f (user_balances (fst (escrow_call c db)))
  = balances_sum f (user_balances db).
Proof.
  intros Hf. destruct c; simpl.
  - by apply freeze_preserves_sum.
  - by apply release_preserves_sum.
  - by apply refund_preserves_sum.
Qed.

Lemma total_weight_all : total_weight (fun _ b => available b + frozen b).
Proof. exists (fun _ => 1). intros. lia. Qed.

Lemma total_weight_of cur :
  total_weight (fun k b => if bool_decide (snd k = cur) then available b + frozen b else 0).
Proof.
  exists (fun c => if bool_decide (c = cur) then 1 else 0).
  intros k b. destruct (bool_decide (snd k = cur)); lia.
Qed.

(** C2. Conservation.  A call of [freeze_for_order], [release_to_seller] or
    [refund_to_buyer], successful or not, leaves the sum of [available +
    frozen] over all balance rows as it was, in total and per currency; so
    does every sequence of such calls. *)
Theorem escrow_conservation :
  (forall c db,
      ledger_total (fst (escrow_call c db)) = ledger_total db
      /\ forall cur, ledger_total_of cur (fst (escrow_call c db)) = ledger_total_of cur db)
  /\ (forall cs db,
      ledger_total (escrow_calls cs db) = ledger_total db
      /\ forall cur, ledger_total_of cur (escrow_calls cs db) = ledger_total_of cur db).
Proof.
  assert (Hone : forall c db,
      ledger_total (fst (escrow_call c db)) = ledger_total db
      /\ forall cur, ledger_total_of cur (fst (escrow_call c db)) = ledger_total_of cur db).
  { intros c db. split; [|intros cur].
    - apply escrow_call_preserves_sum, total_weight_all.
    - apply escrow_call_preserves_sum, total_weight_of. }
  split; [exact Hone|].
  induction cs as [|c cs IH]; intros db; simpl; [done|].
  destruct (IH (fst (escrow_call c db))) as [IH1 IH2].
  destruct (Hone c db) as [H1 H2].
  split; [congruence|]. intros cur. rewrite IH2. apply H2.
Qed.

(** ** Freeze *)

Lemma freeze_false_unchanged u cur amt db :
  snd (OrderPayment.freeze_for_order u cur amt db) = false ->
  fst (OrderPayment.freeze_for_order u cur amt db) = db.
Proof.
  unfold OrderPayment.freeze_for_order.
  destruct (user_balances db !! (u, cur)) as [bal|]; [|done].
  by destruct (available bal <? amt).
Qed.

(** C6. Freeze semantics.  [freeze_for_order] returns false and leaves the
    database as it was when the user has no balance row for the currency or
    the row's available balance is below the amount; otherwise it returns true
    and the row has the amount moved from available to frozen, nothing else
    changing.  When the freeze returns false, [create_order] answers with an
    error and the database, orders included, is unchanged; an order row is
    only inserted after a freeze that returned true. *)
Theorem freeze_semantics u cur amt db :
  (user_balances db !! (u, cur) = None ->
     OrderPayment.freeze_for_order u cur amt db = (db, false))
  /\ (forall bal, user_balances db !! (u, cur) = Some bal -> available bal < amt ->
     OrderPayment.freeze_for_order u cur amt db = (db, false))
  /\ (forall bal, user_balances db !! (u, cur) = Some bal -> amt <= available bal ->
     OrderPayment.freeze_for_order u cur amt db
     = (with_balances db
          (<[(u, cur) := mkUserBalance (available bal - amt) (frozen bal + amt)
                           (total_deposited bal) (total_withdrawn bal)]>
             (user_balances db)),
        true))
  /\ (forall body token seller,
     Orders.currency body = cur ->
     Orders.checked_amount body u db = Orders.Response (seller, amt) ->
     snd (OrderPayment.freeze_for_order u cur amt db) = false ->
     Orders.create_order body u token db = (db, Orders.HTTPException 400))
  /\ (forall body token id,
     Orders.currency body = cur ->
     snd (Orders.create_order body u token db) = Orders.Response id ->
     exists seller price,
       Orders.checked_amount body u db = Orders.Response (seller, price)
       /\ snd (OrderPayment.freeze_for_order u cur price db) = true).
Proof.
  repeat split.
  - intros Hn. unfold OrderPayment.freeze_for_order. by rewrite Hn.
  - intros bal Hb Hlt. unfold OrderPayment.freeze_for_order. rewrite Hb.
    by rewrite (proj2 (Z.ltb_lt _ _) Hlt).
  - intros bal Hb Hle. unfold OrderPayment.freeze_for_order. rewrite Hb.
    by rewrite (proj2 (Z.ltb_ge _ _) Hle).
  - intros body token seller Hc Hchk Hfalse.
    unfold Orders.create_order. rewrite Hchk, Hc.
    pose proof (freeze_false_unchanged u cur amt db Hfalse) as Hdb.
    destruct (OrderPayment.freeze_for_order u cur amt db) as [db1 ok].
    simpl in *. subst. done.
  - intros body token id Hc Hres.
    unfold Orders.create_order in Hres.
    destruct (Orders.checked_amount body u db) as [[seller price]|code] eqn:Hchk;
      [|done].
    exists seller, price. split; [done|]. rewrite Hc in Hres.
    destruct (OrderPayment.freeze_for_order u cur price db) as [db1 ok].
    by destruct ok.
Qed.

Lemma freeze_semantics_witness :
  OrderPayment.freeze_for_order 100 Usdt (Samples.usdt 30) Samples.empty_db
    = (Samples.empty_db, false)
  /\ OrderPayment.freeze_for_order 100 Usdt (Samples.usdt 30) Samples.poor_db
    = (Samples.poor_db, false)
  /\ OrderPayment.freeze_for_order 100 Usdt (Samples.usdt 30) Samples.funded_db
    = (with_balances Samples.funded_db
         (<[(100, Usdt) := mkUserBalance (Samples.usdt 70) (Samples.usdt 30)
                             (Samples.usdt 100) 0]>
            (user_balances Samples.funded_db)), true)
  /\ Orders.create_order Samples.order_usdt 100 Samples.token Samples.poor_db
    = (Samples.poor_db, Orders.HTTPException 400)
  /\ exists seller price,
       Orders.checked_amount Samples.order_usdt 100 Samples.funded_db
         = Orders.Response (seller, price)
       /\ snd (OrderPayment.freeze_for_order 100 Usdt price Samples.funded_db) = true.
Proof.
  split; [|split; [|split; [|split]]].
  - apply (proj1 (freeze_semantics 100 Usdt (Samples.usdt 30) Samples.empty_db)).
    reflexivity.
  - apply (proj1 (proj2 (freeze_semantics 100 Usdt (Samples.usdt 30) Samples.poor_db))
             (mkUserBalance (Samples.usdt 20) 0 (Samples.usdt 20) 0)).
    + reflexivity.
    + vm_compute. reflexivity.
  - apply (proj1 (proj2 (proj2 (freeze_semantics 100 Usdt (Samples.usdt 30) Samples.funded_db)))
             (mkUserBalance (Samples.usdt 100) 0 (Samples.usdt 100) 0)).
    + reflexivity.
    + vm_compute. discriminate.
  - apply (proj1 (proj2 (proj2 (proj2
             (freeze_semantics 100 Usdt (Samples.usdt 30) Samples.poor_db))))
             Samples.order_usdt Samples.token 200).
    + reflexivity.
    + reflexivity.
    + reflexivity.
  - apply (proj2 (proj2 (proj2 (proj2
             (freeze_semantics 100 Usdt (Samples.usdt 30) Samples.funded_db))))
             Samples.order_usdt Samples.token 1).
    + reflexivity.
    + reflexivity.
Defined.

(** ** Order transitions *)

Lemma release_keeps_orders o db :
  orders (fst (OrderPayment.release_to_seller o db)) = orders db
  /\ channels (fst (OrderPayment.release_to_seller o db)) = channels db.
Proof.
  unfold OrderPayment.release_to_seller.
  destruct (orders db !! o) as [order|]; [|done].
  destruct (payment_currency order); [|done].
  destruct (payment_amount order); [|done].
  destruct (negb _); [done|].
  destruct (user_balances db !! _) as [bal|]; [|done].
  by destruct (frozen bal <? _).
Qed.

(** The guarded paths: the buyer's cancel and the seller's approval of an
    order that is done or cancelled are answered with an error and change
    nothing. *)
Lemma guarded_paths_reject_terminal oid db order :
  orders db !! oid = Some order ->
  status order = done_ \/ status order = cancelled ->
  Orders.cancel_order oid (buyer_telegram_id order) db
    = (Orders.HTTPException 400, db, [])
  /\ forall sent now channel,
       channels db !! channel_id order = Some channel ->
       Handlers.cb_seller_approve oid sent now db = (tt, db, [Answer AlreadyProcessed]).
Proof.
  intros Ho Hst. split.
  - unfold Orders.cancel_order. rewrite Ho.
    rewrite bool_decide_eq_true_2 by done. simpl.
    destruct Hst as [-> | ->]; done.
  - intros sent now channel Hc.
    unfold Handlers.cb_seller_approve, bind, Handlers._get_order_and_channel.
    rewrite Ho, Hc. destruct Hst as [-> | ->]; done.
Qed.

(** C1. Terminal-state immutability fails on the seller's decline:
    [cb_seller_decline] on the cancelled and already refunded order 1 answers
    that the order was declined, and [refund_to_buyer] moves another 30 USDT
    out of the buyer's frozen balance, which was backing order 2.  The
    seller's revision comment is not rejected either: it puts the cancelled
    order back to writing_post. *)
Theorem decline_of_cancelled_order_refunds_again :
  (status <$> (orders Samples.after_cancel_db !! 1)) = Some cancelled
  /\ user_balances Samples.after_cancel_db !! (100, Usdt)
     = Some (mkUserBalance (Samples.usdt 50) (Samples.usdt 50) (Samples.usdt 100) 0)
  /\ run_log (Handlers.cb_seller_decline 1) Samples.after_cancel_db
     = [OrderStatusCommitted 1 cancelled; RefundCalled 1 true; Answer Declined]
  /\ user_balances (run_db (Handlers.cb_seller_decline 1) Samples.after_cancel_db)
       !! (100, Usdt)
     = Some (mkUserBalance (Samples.usdt 80) (Samples.usdt 20) (Samples.usdt 100) 0)
  /\ run_log (Handlers.on_seller_comment (Some 1) (Some (lit "shorter"))) Samples.after_cancel_db
     = [OrderStatusCommitted 1 writing_post; SendMessage 100 RevisionComment;
        Answer CommentSent]
  /\ (status <$>
        (orders (run_db (Handlers.on_seller_comment (Some 1) (Some (lit "shorter")))
                        Samples.after_cancel_db) !! 1))
     = Some writing_post.
Proof. repeat split; vm_compute; reflexivity. Qed.

Lemma set_order_done_spec oid link message_id now db order :
  orders db !! oid = Some order ->
  exists db2 ok o',
    Handlers._set_order_done oid link message_id now db
      = (true, db2, [OrderStatusCommitted oid done_; ReleaseCalled oid ok])
    /\ orders db2 !! oid = Some o'
    /\ status o' = done_
    /\ channel_id o' = channel_id order
    /\ buyer_telegram_id o' = buyer_telegram_id order
    /\ channels db2 = channels db.
Proof.
  intros Ho. unfold Handlers._set_order_done. rewrite Ho.
  match goal with
  | |- context [OrderPayment.release_to_seller oid ?d] =>
      pose proof (release_keeps_orders oid d) as [Hord Hch];
      destruct (OrderPayment.release_to_seller oid d) as [db2 ok]
  end.
  simpl in Hord, Hch. eexists db2, ok, _. split; [reflexivity|].
  rewrite Hord, Hch, lookup_insert_eq. split; [reflexivity|].
  by destruct link, message_id.
Qed.

(** C5. Publish-before-done.  For an order waiting for the seller,
    [cb_seller_approve] first posts to the channel.  When the post fails
    nothing else happens: the database is unchanged, so the order is still
    pending_seller and no balance moved, and a later approval starts from the
    same state.  When the post succeeds the status done is committed next,
    then [release_to_seller] is called, then the parties are told. *)
Theorem publish_before_done oid now db order channel :
  orders db !! oid = Some order ->
  channels db !! channel_id order = Some channel ->
  status order = pending_seller ->
  Handlers.cb_seller_approve oid None now db
    = (tt, db, [ChannelPost (ch_telegram_id channel) oid false; Answer PublishFailed])
  /\ forall message_id,
     exists ok,
       run_log (Handlers.cb_seller_approve oid (Some message_id) now) db
         = [ChannelPost (ch_telegram_id channel) oid true;
            OrderStatusCommitted oid done_;
            ReleaseCalled oid ok;
            SendMessage (buyer_telegram_id order) PostApproved;
            Answer PublishedDone]
       /\ (status <$> (orders (run_db (Handlers.cb_seller_approve oid (Some message_id) now) db)
                       !! oid)) = Some done_.
Proof.
  intros Ho Hc Hst. split.
  - unfold Handlers.cb_seller_approve, bind, Handlers._get_order_and_channel.
    rewrite Ho, Hc, Hst. reflexivity.
  - intros message_id.
    unfold run_log, run_db, Handlers.cb_seller_approve, bind,
      Handlers._get_order_and_channel.
    rewrite Ho, Hc, Hst.
    unfold Handlers._publish_post_to_channel, bind, emit, ret.
    rewrite (bool_decide_eq_true_2 (pending_seller = pending_seller)) by done.
    cbn [negb]. cbn beta iota zeta.
    match goal with
    | |- context [Handlers._set_order_done oid ?l ?m now db] =>
        destruct (set_order_done_spec oid l m now db order Ho)
          as (db2 & ok & o' & Hdone & Ho' & Hst' & Hcid & Hbuy & Hch);
        rewrite Hdone
    end.
    exists ok. cbn beta iota zeta.
    unfold Handlers._notify_buyer_post_approved, bind, Handlers._get_order_and_channel, emit.
    rewrite Ho', Hcid, Hch, Hc, Hbuy. cbn. rewrite Ho'. cbn. by rewrite Hst'.
Qed.

Lemma publish_before_done_witness :
  Handlers.cb_seller_approve 1 None 1700000000 Samples.pending_db
    = (tt, Samples.pending_db, [ChannelPost (-1001) 1 false; Answer PublishFailed])
  /\ forall message_id,
     exists ok,
       run_log (Handlers.cb_seller_approve 1 (Some message_id) 1700000000) Samples.pending_db
         = [ChannelPost (-1001) 1 true;
            OrderStatusCommitted 1 done_;
            ReleaseCalled 1 ok;
            SendMessage 100 PostApproved;
            Answer PublishedDone]
       /\ (status <$> (orders (run_db (Handlers.cb_seller_approve 1 (Some message_id) 1700000000)
                                 Samples.pending_db) !! 1)) = Some done_.
Proof.
  apply (publish_before_done 1 1700000000 Samples.pending_db
           (Samples.order30 pending_seller) Samples.channel1);
    reflexivity.
Defined.

(** The scenario of the specification: 100 USDT available, an order of 30
    USDT is created, the seller approves and the post is published. *)
Example scenario_create_then_approve :
  let '(db1, r) := Orders.create_order Samples.order_usdt 100 Samples.token Samples.funded_db in
  let db2 := run_db (Handlers._set_order_pending_seller 1) db1 in
  let db3 := run_db (Handlers.cb_seller_approve 1 (Some 55) 1700000000) db2 in
  r = Orders.Response 1
  /\ user_balances db1 !! (100, Usdt)
     = Some (mkUserBalance (Samples.usdt 70) (Samples.usdt 30) (Samples.usdt 100) 0)
  /\ user_balances db3 !! (100, Usdt)
     = Some (mkUserBalance (Samples.usdt 70) 0 (Samples.usdt 100) 0)
  /\ user_balances db3 !! (200, Usdt) = Some (mkUserBalance (Samples.usdt 30) 0 0 0)
  /\ (published_post_link <$> (orders db3 !! 1)) = Some (Some (lit "news", 55)).
Proof. vm_compute. repeat split; reflexivity. Qed.

(** ** Withdrawals *)

Lemma verify_attempts_unknown verify attempts :
  (forall n, In n attempts -> verify n = None) ->
  verify_attempts verify attempts = None.
Proof.
  induction attempts as [|a rest IH]; intros H; simpl; [done|].
  rewrite (H a) by (by left). apply IH. intros n Hn. apply H. by right.
Qed.

Lemma numeric_exact unit x : 0 < unit -> at_scale unit x -> numeric unit x = x.
Proof.
  intros Hu Hx. unfold at_scale in Hx. apply Z.mod_divide in Hx; [|lia].
  destruct Hx as [k ->]. unfold numeric.
  assert (Habs : Z.abs (k * unit) = Z.abs k * unit) by (rewrite Z.abs_mul; lia).
  rewrite Habs.
  replace ((2 * (Z.abs k * unit) + unit) / (2 * unit)) with (Z.abs k).
  2:{ apply (Z.div_unique _ _ _ unit); lia. }
  assert (Hsgn : Z.sgn (k * unit) = Z.sgn k) by (rewrite Z.sgn_mul; lia).
  rewrite Hsgn. pose proof (Z.abs_sgn k) as Hk. nia.
Qed.

Lemma at_scale_add unit x y : 0 < unit -> at_scale unit x -> at_scale unit y ->
  at_scale unit (x + y) /\ at_scale unit (x - y).
Proof.
  unfold at_scale. intros Hu Hx Hy.
  apply Z.mod_divide in Hx, Hy; try lia. destruct Hx as [a ->], Hy as [b ->].
  split; apply Z.mod_divide; try lia.
  - exists (a + b). lia.
  - exists (a - b). lia.
Qed.

Lemma at_scale_coarser x : at_scale 1000 x -> at_scale 10 x.
Proof.
  unfold at_scale. intros Hx. apply Z.mod_divide in Hx; [|lia]. destruct Hx as [a ->].
  apply Z.mod_divide; [lia|]. exists (a * 100). lia.
Qed.

Lemma verify_attempts_first verify k n s :
  (k < n)%nat -> verify (s + k)%nat = Some false ->
  (forall j, (j < k)%nat -> verify (s + j)%nat = None) ->
  verify_attempts verify (seq s n) = Some false.
Proof.
  revert s n. induction k as [|k IH]; intros s n Hk Hv Hnone.
  - destruct n; [lia|]. simpl. rewrite Nat.add_0_r in Hv. by rewrite Hv.
  - destruct n; [lia|]. simpl.
    pose proof (Hnone 0%nat ltac:(lia)) as H0. rewrite Nat.add_0_r in H0. rewrite H0.
    apply IH; [lia | by rewrite Nat.add_succ_comm |].
    intros j Hj. rewrite Nat.add_succ_comm. apply Hnone. lia.
Qed.

(** The refund after a failure, for the amounts the columns hold exactly.  An
    accepted [usdt_withdraw] request of an amount with at most six decimals,
    on a balance row held at eight decimals, appends a pending row and debits
    the full amount; when the sender then processes that row and the send
    fails, or finality reports failure, the row is marked failed and the
    balance table is exactly what it was before the request. *)
Lemma withdrawal_failure_refund_exact body u wd_id db db1 chain our_wallet :
  Wallet.usdt_withdraw body u wd_id db = (db1, Orders.Response pending) ->
  at_scale 1000 (Wallet.req_amount body) ->
  (forall bal, user_balances db !! (u, Usdt) = Some bal ->
               at_scale 10 (available bal) /\ at_scale 10 (total_withdrawn bal)) ->
  (forall tx, usdt_transactions db1 !! length (usdt_transactions db) = Some tx ->
              usdt_send_failed chain our_wallet tx) ->
  let i := length (usdt_transactions db) in
  let db2 := run_db (UsdtWithdraw.process_row chain our_wallet i) db1 in
  (exists tx, usdt_transactions db1 !! i = Some tx
              /\ tx_status tx = pending
              /\ amount tx = Wallet.req_amount body - Wallet.USDT_WITHDRAW_FEE)
  /\ (exists bal, user_balances db !! (u, Usdt) = Some bal
                  /\ user_balances db1 !! (u, Usdt)
                     = Some (mkUserBalance (available bal - Wallet.req_amount body)
                               (frozen bal) (total_deposited bal)
                               (total_withdrawn bal + Wallet.req_amount body)))
  /\ (tx_status <$> (usdt_transactions db2 !! i)) = Some failed
  /\ user_balances db2 = user_balances db.
Proof.
  intros Hreq Hamt Hscale Hfail i db2. subst db2.
  unfold Wallet.usdt_withdraw in Hreq.
  destruct (Wallet.valid_request body) eqn:Hvalid; [|done]. simpl in Hreq.
  destruct (user_balances db !! (u, Usdt)) as [bal|] eqn:Hbal; [|done].
  destruct (available bal <? Wallet.req_amount body) eqn:Havail; [done|].
  destruct (Wallet.has_event_id wd_id (usdt_transactions db)); [done|].
  destruct (Hscale bal eq_refl) as [Hav Htw].
  assert (Hfee : at_scale 1000 Wallet.USDT_WITHDRAW_FEE) by reflexivity.
  assert (Hnet : at_scale 1000 (Wallet.req_amount body - Wallet.USDT_WITHDRAW_FEE))
    by (by apply at_scale_add).
  assert (Hamt10 : at_scale 10 (Wallet.req_amount body)) by (by apply at_scale_coarser).
  unfold numeric6, numeric8 in Hreq.
  rewrite (numeric_exact 1000) in Hreq by done.
  rewrite !(numeric_exact 10) in Hreq
    by (first [lia | (by apply at_scale_add) | (simpl; by apply at_scale_add)]).
  injection Hreq as <-.
  apply Z.ltb_ge in Havail.
  unfold Wallet.valid_request in Hvalid.
  apply andb_prop in Hvalid as [Hvalid _].
  apply andb_prop in Hvalid as [Hvalid _].
  apply andb_prop in Hvalid as [Hmin Hlen].
  apply Nat.leb_le in Hlen.
  set (tx := mkUsdtTransaction _ _ _ _ _ _ _ _) in *.
  assert (Htx : (usdt_transactions db ++ [tx]) !! i = Some tx).
  { subst i. by rewrite list_lookup_middle. }
  specialize (Hfail tx Htx).
  assert (Hmemo : exists c m, memo tx = Some (c :: m) /\ (40 <= length (c :: m))%nat).
  { subst tx. simpl. destruct (Wallet.req_address body) as [|c a] eqn:Ha.
    - simpl in Hlen. lia.
    - exists c, (firstn 255 a). split; [done|].
      change (c :: firstn 255 a) with (firstn 256 (c :: a)).
      rewrite length_firstn. simpl length in Hlen. lia. }
  destruct Hmemo as (c & m & Hmemo & Hmlen).
  split; [|split].
  { exists tx. split; [exact Htx|]. by subst tx. }
  { exists bal. split; [done|]. simpl. by rewrite lookup_insert_eq. }
  match goal with |- context [run_db _ ?d] => set (db1 := d) in * end.
  assert (Hrow : exists tx' log,
    UsdtWithdraw.process_row chain our_wallet i db1
      = (false, UsdtWithdraw.fail_and_refund i tx' db1, log)
    /\ tx_telegram_id tx' = u
    /\ amount tx' = Wallet.req_amount body - Wallet.USDT_WITHDRAW_FEE).
  { unfold UsdtWithdraw.process_row. subst db1. simpl usdt_transactions. rewrite Htx.
    rewrite Hmemo. simpl PyStr.truthy. simpl PyStr.or_empty.
    replace (length (c :: m) <? 40)%nat with false
      by (symmetry; apply Nat.ltb_ge; lia).
    simpl orb. cbv iota.
    simpl user_balances. replace (tx_telegram_id tx) with u by (by subst tx).
    rewrite lookup_insert_eq.
    replace (available _ <? 0) with false
      by (symmetry; apply Z.ltb_ge; simpl; lia).
    destruct Hfail as [Hsend | (c' & h & k & Hw & Hfetch & Hk & Hver & Hnone)].
    - rewrite Hsend. by exists tx, [].
    - destruct (UsdtWithdraw.send_jetton chain tx) as [a|].
      + destruct our_wallet as [|w ws]; [done|].
        rewrite Hfetch. simpl PyStr.truthy. simpl PyStr.or_empty. cbv iota.
        rewrite (verify_attempts_first _ k 3 0 Hk Hver Hnone). by eexists _, _.
      + by exists tx, []. }
  destruct Hrow as (tx' & log & Hrow & Hu & Hamt').
  unfold run_db. rewrite Hrow. simpl fst. simpl snd.
  unfold UsdtWithdraw.fail_and_refund, UsdtWithdraw._refund_withdrawal,
    UsdtWithdraw.store_tx.
  rewrite Hu, Hamt'. subst db1. simpl user_balances.
  rewrite lookup_insert_eq. simpl usdt_transactions. simpl user_balances. split.
  - rewrite list_lookup_insert_eq; [done|].
    subst i. rewrite length_app. simpl. lia.
  - rewrite insert_insert_eq. apply insert_id. rewrite Hbal. f_equal.
    destruct bal as [av fr td tw]. unfold set_total_withdrawn, set_available. simpl in *.
    change UsdtWithdraw.USDT_WITHDRAW_FEE with Wallet.USDT_WITHDRAW_FEE.
    replace (av - Wallet.req_amount body
             + (Wallet.req_amount body - Wallet.USDT_WITHDRAW_FEE
                + Wallet.USDT_WITHDRAW_FEE)) with av by lia.
    replace (tw + Wallet.req_amount body
             - (Wallet.req_amount body - Wallet.USDT_WITHDRAW_FEE
                + Wallet.USDT_WITHDRAW_FEE)) with tw by lia.
    unfold numeric8. by rewrite !(numeric_exact 10) by (done || lia).
Qed.

(** C4. Withdrawal failure refund, evaluated on a request of 10.0000004 USDT
    by the buyer, who holds 100 USDT.  The request is accepted and debits
    10.0000004; the withdrawal row keeps six decimals, 9.700000.  When the
    send fails, and as well when the second finality check reports a failure,
    the row is marked failed and [_refund_withdrawal] adds 9.700000 + 0.3 back:
    the buyer is left with 99.9999996 USDT and a [total_withdrawn] of
    0.0000004, not with the 100 and 0 of before the request. *)
Theorem withdrawal_refund_loses_fraction :
  Wallet.usdt_withdraw Samples.withdraw_fraction 100 (lit "wd_1") Samples.funded_db
    = (Samples.fraction_db, Orders.Response pending)
  /\ user_balances Samples.funded_db !! (100, Usdt)
     = Some (mkUserBalance 100000000000 0 100000000000 0)
  /\ user_balances Samples.fraction_db !! (100, Usdt)
     = Some (mkUserBalance 89999999600 0 100000000000 10000000400)
  /\ (amount <$> (usdt_transactions Samples.fraction_db !! 0%nat)) = Some 9700000000
  /\ (tx_status <$>
        (usdt_transactions
           (run_db (UsdtWithdraw.process_row Samples.dead_chain (lit "UQ") 0)
                   Samples.fraction_db) !! 0%nat)) = Some failed
  /\ user_balances
       (run_db (UsdtWithdraw.process_row Samples.dead_chain (lit "UQ") 0)
               Samples.fraction_db) !! (100, Usdt)
     = Some (mkUserBalance 99999999600 0 100000000000 400)
  /\ (tx_status <$>
        (usdt_transactions
           (run_db (UsdtWithdraw.process_row Samples.rejecting_chain (lit "UQ") 0)
                   Samples.fraction_db) !! 0%nat)) = Some failed
  /\ user_balances
       (run_db (UsdtWithdraw.process_row Samples.rejecting_chain (lit "UQ") 0)
               Samples.fraction_db) !! (100, Usdt)
     = Some (mkUserBalance 99999999600 0 100000000000 400).
Proof. repeat split; vm_compute; reflexivity. Qed.

(** The same failures on the request of 50 USDT restore the balance. *)
Lemma withdrawal_failure_refund_exact_sample :
  user_balances Samples.requested_db !! (100, Usdt)
    = Some (mkUserBalance (Samples.usdt 50) 0 (Samples.usdt 100) (Samples.usdt 50))
  /\ user_balances
       (run_db (UsdtWithdraw.process_row Samples.dead_chain (lit "UQ") 0)
               Samples.requested_db)
     = user_balances Samples.funded_db
  /\ user_balances
       (run_db (UsdtWithdraw.process_row Samples.rejecting_chain (lit "UQ") 0)
               Samples.requested_db)
     = user_balances Samples.funded_db.
Proof.
  assert (Hreq : Wallet.usdt_withdraw Samples.withdraw50 100 (lit "wd_1") Samples.funded_db
                 = (Samples.requested_db, Orders.Response pending)) by reflexivity.
  assert (Hscale : forall bal,
             user_balances Samples.funded_db !! (100, Usdt) = Some bal ->
             at_scale 10 (available bal) /\ at_scale 10 (total_withdrawn bal)).
  { intros bal H. vm_compute in H. injection H as <-. split; reflexivity. }
  split; [reflexivity|]. split.
  - apply (withdrawal_failure_refund_exact Samples.withdraw50 100 (lit "wd_1")
             Samples.funded_db Samples.requested_db Samples.dead_chain (lit "UQ")
             Hreq eq_refl Hscale).
    intros tx _. left. reflexivity.
  - apply (withdrawal_failure_refund_exact Samples.withdraw50 100 (lit "wd_1")
             Samples.funded_db Samples.requested_db Samples.rejecting_chain (lit "UQ")
             Hreq eq_refl Hscale).
    intros tx _. right. exists 97%N, (tl (lit "abcdef0123456789")), 1%nat.
    split; [done|]. split; [reflexivity|]. split; [lia|]. split; [reflexivity|].
    intros j Hj. assert (j = 0%nat) as -> by lia. reflexivity.
Defined.

(** The whole sender run on the same request: the single pending row is
    picked up, nothing is counted as processed and the balance is back. *)
Example settler_run_refunds :
  run_val (UsdtWithdraw.process_pending_withdrawals true Samples.dead_chain (lit "UQ"))
          Samples.requested_db = 0
  /\ user_balances
       (run_db (UsdtWithdraw.process_pending_withdrawals true Samples.dead_chain (lit "UQ"))
               Samples.requested_db)
     = user_balances Samples.funded_db.
Proof. split; vm_compute; reflexivity. Qed.

Lemma verified_unknown verify h :
  finality_unknown verify h ->
  (if PyStr.truthy h then verify_attempts (verify (PyStr.or_empty h)) (seq 0 3) else None)
  = None.
Proof.
  intros [-> | Hall]; [done|].
  destruct (PyStr.truthy h); [|done].
  apply verify_attempts_unknown. intros n Hn. apply Hall.
  apply in_seq in Hn. lia.
Qed.

(** Optimistic completion in the USDT sender.  When the send of a pending
    withdrawal succeeded and the hash was not found, or each of the three
    finality checks answered unknown, the row is marked completed with
    whatever hash was found, [processed] is incremented, the completion is
    notified, and no balance row changes. *)
Lemma usdt_unknown_finality_completes our_wallet i db chain tx c m bal a :
  usdt_transactions db !! i = Some tx ->
  memo tx = Some (c :: m) -> (40 <= length (c :: m))%nat ->
  user_balances db !! (tx_telegram_id tx, Usdt) = Some bal -> 0 <= available bal ->
  UsdtWithdraw.send_jetton chain tx = Some a ->
  let h := match our_wallet with
           | [] => None
           | _ => UsdtWithdraw.fetch_tx_hash chain tx
           end in
  finality_unknown (UsdtWithdraw.verify_tx_success chain) h ->
  UsdtWithdraw.process_row chain our_wallet i db
    = (true,
       with_usdt_transactions db
         (<[i := mkUsdtTransaction (event_id tx) (tx_telegram_id tx) (amount tx)
                   (memo tx) (destination_memo tx) (tx_type tx) completed h]>
            (usdt_transactions db)),
       [SendMessage (tx_telegram_id tx) (WithdrawalCompleted (amount tx) h)]).
Proof.
  intros Htx Hmemo Hlen Hbal Hav Hsend h Hunk.
  unfold UsdtWithdraw.process_row. rewrite Htx, Hmemo.
  simpl PyStr.truthy. simpl PyStr.or_empty.
  replace (length (c :: m) <? 40)%nat with false
    by (symmetry; apply Nat.ltb_ge; lia).
  simpl orb. cbv iota. rewrite Hbal.
  replace (available bal <? 0) with false by (symmetry; apply Z.ltb_ge; lia).
  rewrite Hsend. fold h. rewrite (verified_unknown _ h Hunk).
  unfold UsdtWithdraw.store_tx, UsdtWithdraw.set_tx_status, UsdtWithdraw.set_tx_hash.
  simpl. by rewrite Hmemo.
Qed.


(** ** Deposits *)

Section DepositProps.

Variable str_other : pyval -> pystr.
Variable usdt_amount : pyval -> DecimalResult.
Variable isdigit : pystr -> bool.
Variable int_of : pystr -> option Z.

Abbreviation scan_actions :=
  (UsdtDeposit.scan_actions str_other usdt_amount isdigit int_of).
Abbreviation scan_event :=
  (UsdtDeposit.scan_event str_other usdt_amount isdigit int_of).
Abbreviation scan_events :=
  (UsdtDeposit.scan_events str_other usdt_amount isdigit int_of).
Abbreviation scan_usdt_deposits :=
  (UsdtDeposit.scan_usdt_deposits str_other usdt_amount isdigit int_of).
Abbreviation first_usable :=
  (UsdtDeposit.first_usable str_other usdt_amount isdigit int_of).
Abbreviation usable :=
  (UsdtDeposit.usable str_other usdt_amount isdigit int_of).
Abbreviation unique_id_of := (UsdtDeposit.unique_id_of str_other).

Lemma has_event_id_app e l l' :
  Wallet.has_event_id e (l ++ l') = Wallet.has_event_id e l || Wallet.has_event_id e l'.
Proof. unfold Wallet.has_event_id. apply existsb_app. Qed.

Lemma credit_usdt_recorded t a uid db :
  Wallet.has_event_id uid (usdt_transactions db) = true ->
  UsdtDeposit._credit_usdt t a uid db = (db, false).
Proof.
  intros H. unfold UsdtDeposit._credit_usdt. rewrite H.
  by destruct (negb (fits_bigint t)).
Qed.

Lemma credit_usdt_unfit t a uid db :
  fits_bigint t = false ->
  UsdtDeposit._credit_usdt t a uid db = (db, false).
Proof. intros H. unfold UsdtDeposit._credit_usdt. by rewrite H. Qed.

Lemma credit_usdt_fresh t a uid db :
  fits_bigint t = true ->
  Wallet.has_event_id uid (usdt_transactions db) = false ->
  exists db1,
    UsdtDeposit._credit_usdt t a uid db = (db1, true)
    /\ usdt_transactions db1
       = usdt_transactions db
         ++ [mkUsdtTransaction uid t a None None deposit completed None]
    /\ user_balances db1
       = <[(t, Usdt) :=
             match user_balances db !! (t, Usdt) with
             | Some bal =>
                 mkUserBalance (available bal + a) (frozen bal)
                   (total_deposited bal + a) (total_withdrawn bal)
             | None => mkUserBalance a 0 a 0
             end]> (user_balances db)
    /\ orders db1 = orders db /\ users db1 = users db.
Proof.
  intros Hfit H. unfold UsdtDeposit._credit_usdt. rewrite Hfit, H.
  eexists. split; [reflexivity|]. simpl.
  split; [done|]. split; [|done].
  by destruct (user_balances db !! (t, Usdt)).
Qed.

Lemma scan_actions_eq uid actions db :
  scan_actions uid actions db
  = match first_usable actions with
    | Raised => (Raised, db, [])
    | Returned None => (Returned false, db, [])
    | Returned (Some (t, a)) =>
        let '(db1, ok) := UsdtDeposit._credit_usdt t a uid db in
        (Returned ok, db1, if ok then [SendMessage t (UsdtDeposited a)] else [])
    end.
Proof.
  induction actions as [|act rest IH]; [done|].
  destruct act as [|s|z|action|l]; try done.
  simpl. unfold UsdtDeposit.usable.
  destruct (UsdtDeposit._parse_jetton_transfer str_other usdt_amount action)
    as [[[amt [m|]]|]|]; try done.
  destruct (isdigit m); [|done].
  by destruct (int_of m).
Qed.

Lemma scan_event_eq ev db :
  scan_event ev db
  = match unique_id_of ev with
    | None => (Returned false, db, [])
    | Some uid =>
        if Wallet.has_event_id uid (usdt_transactions db) then (Returned false, db, [])
        else match UsdtDeposit.actions_of ev with
             | Raised => (Raised, db, [])
             | Returned actions => scan_actions uid actions db
             end
    end.
Proof.
  unfold UsdtDeposit.scan_event, UsdtDeposit.unique_id_of, UsdtDeposit.actions_of.
  destruct (UsdtDeposit.truthy _); [|done]. simpl.
  unfold bind, get_db, UsdtDeposit._already_processed.
  destruct (Wallet.has_event_id _ _); [done|].
  destruct (UsdtDeposit.py_or _ _); try done.
  match goal with |- context [scan_actions ?u ?l db] =>
    destruct (scan_actions u l db) as [[r d] lg] end.
  done.
Qed.

Lemma has_event_id_true e l :
  Wallet.has_event_id e l = true <-> e ∈ event_id <$> l.
Proof.
  unfold Wallet.has_event_id. rewrite existsb_exists, list_elem_of_fmap. split.
  - intros (t & Hin & Ht). apply bool_decide_eq_true in Ht.
    exists t. split; [done|]. by apply list_elem_of_In.
  - intros (t & -> & Hin). exists t. split; [by apply list_elem_of_In|].
    by apply bool_decide_eq_true.
Qed.

(** What one event does: nothing, or exactly one credit under its own,
    so far unrecorded, identifier. *)
Lemma scan_event_step ev db :
  (exists r, scan_event ev db = (r, db, []) /\ (r = Raised \/ r = Returned false))
  \/ (exists uid t a db1,
        unique_id_of ev = Some uid
        /\ Wallet.has_event_id uid (usdt_transactions db) = false
        /\ fits_bigint t = true
        /\ UsdtDeposit._credit_usdt t a uid db = (db1, true)
        /\ scan_event ev db = (Returned true, db1, [SendMessage t (UsdtDeposited a)])).
Proof.
  rewrite scan_event_eq.
  destruct (unique_id_of ev) as [uid|]; [|left; eauto].
  destruct (Wallet.has_event_id uid (usdt_transactions db)) eqn:Hrec; [left; eauto|].
  destruct (UsdtDeposit.actions_of ev) as [actions|]; [|left; eauto].
  rewrite scan_actions_eq.
  destruct (first_usable actions) as [[[t a]|]|]; [|left; eauto..].
  destruct (fits_bigint t) eqn:Hfit.
  - destruct (credit_usdt_fresh t a uid db Hfit Hrec) as (db1 & Hc & _).
    right. exists uid, t, a, db1. by rewrite Hc.
  - rewrite (credit_usdt_unfit t a uid db Hfit). left; eauto.
Qed.

Lemma scan_event_keeps ev db : keeps_records db (run_db (scan_event ev) db).
Proof.
  unfold run_db.
  destruct (scan_event_step ev db)
    as [(r & -> & _) | (uid & t & a & db1 & _ & Hrec & Hfit & Hc & ->)];
    [by intros e He|].
  destruct (credit_usdt_fresh t a uid db Hfit Hrec) as (db1' & Hc' & Htx & _).
  rewrite Hc in Hc'. injection Hc' as <-. simpl.
  intros e He. rewrite Htx, has_event_id_app, He. done.
Qed.

Lemma scan_events_keeps events db : keeps_records db (run_db (scan_events events) db).
Proof.
  revert db. induction events as [|ev rest IH]; intros db; [by intros e He|].
  unfold run_db. simpl. unfold bind.
  pose proof (scan_event_keeps ev db) as Hk. unfold run_db in Hk.
  destruct (scan_event ev db) as [[[ok|] dba] l0]; simpl in *; [|done].
  pose proof (IH dba) as Hk'. unfold run_db in Hk'.
  destruct (scan_events rest dba) as [[r db1] l1]. simpl in *.
  intros e He. by apply Hk', Hk.
Qed.

(** An event that was scanned without raising does nothing from then on. *)
Lemma scan_event_settled ev db ok db' :
  run_val (scan_event ev) db = Returned ok ->
  keeps_records (run_db (scan_event ev) db) db' ->
  scan_event ev db' = (Returned false, db', []).
Proof.
  unfold run_val, run_db. intros Hval Hkeep.
  destruct (scan_event_step ev db)
    as [(r & Hs & Hr) | (uid & t & a & db1 & Hid & Hrec & Hfit & Hc & Hs)];
    rewrite Hs in Hval, Hkeep; simpl in *.
  - rewrite scan_event_eq in Hs |- *.
    destruct (unique_id_of ev) as [uid|]; [|done].
    destruct (Wallet.has_event_id uid (usdt_transactions db)) eqn:Hrec.
    { by rewrite (Hkeep uid Hrec). }
    destruct (Wallet.has_event_id uid (usdt_transactions db')); [done|].
    destruct (UsdtDeposit.actions_of ev) as [actions|]; [|congruence].
    rewrite scan_actions_eq in Hs |- *.
    destruct (first_usable actions) as [[[t a]|]|]; [|done|congruence].
    destruct (fits_bigint t) eqn:Hfit.
    + destruct (credit_usdt_fresh t a uid db Hfit Hrec) as (db1 & Hc & _).
      rewrite Hc in Hs. congruence.
    + by rewrite (credit_usdt_unfit t a uid db' Hfit).
  - rewrite scan_event_eq, Hid.
    destruct (credit_usdt_fresh t a uid db Hfit Hrec) as (db1' & Hc' & Htx & _).
    rewrite Hc in Hc'. injection Hc' as <-.
    rewrite (Hkeep uid); [done|].
    rewrite Htx, has_event_id_app. simpl.
    rewrite bool_decide_eq_true_2 by done. by rewrite orb_true_r.
Qed.

Lemma scan_events_again events db :
  scan_events events (run_db (scan_events events) db)
  = (again (run_val (scan_events events) db), run_db (scan_events events) db, []).
Proof.
  revert db. induction events as [|ev rest IH]; intros db; [done|].
  unfold run_db, run_val. simpl. unfold bind.
  destruct (scan_event ev db) as [[[ok|] dba] l0] eqn:Hev.
  - pose proof (IH dba) as IHa. unfold run_db, run_val in IHa.
    pose proof (scan_events_keeps rest dba) as Hk. unfold run_db in Hk.
    destruct (scan_events rest dba) as [[r db1] l1] eqn:Hrest. simpl in *.
    rewrite (scan_event_settled ev db ok db1).
    + rewrite IHa. by destruct r.
    + unfold run_val. by rewrite Hev.
    + unfold run_db. by rewrite Hev.
  - simpl.
    destruct (scan_event_step ev db)
      as [(r & Hs & _) | (uid & t & a & db1 & _ & _ & _ & _ & Hs)];
      rewrite Hs in Hev; [|done].
    injection Hev as -> <- <-. by rewrite Hs.
Qed.

Lemma scan_events_nodup events db :
  NoDup (event_id <$> usdt_transactions db) ->
  NoDup (event_id <$> usdt_transactions (run_db (scan_events events) db)).
Proof.
  revert db. induction events as [|ev rest IH]; intros db Hnd; [done|].
  unfold run_db. simpl. unfold bind.
  destruct (scan_event_step ev db)
    as [(r & Hs & Hr) | (uid & t & a & db1 & _ & Hrec & Hfit & Hc & Hs)]; rewrite Hs.
  - destruct Hr as [-> | ->]; [done|].
    specialize (IH db Hnd). unfold run_db in IH.
    by destruct (scan_events rest db) as [[r db1] l1].
  - destruct (credit_usdt_fresh t a uid db Hfit Hrec) as (db1' & Hc' & Htx & _).
    rewrite Hc in Hc'. injection Hc' as <-.
    assert (Hnd1 : NoDup (event_id <$> usdt_transactions db1)).
    { rewrite Htx, fmap_app. apply NoDup_app. split; [done|]. split.
      - intros e He Hin. simpl in Hin. apply list_elem_of_singleton in Hin as ->.
        apply has_event_id_true in He. congruence.
      - simpl. apply NoDup_singleton. }
    specialize (IH db1 Hnd1). unfold run_db in IH.
    by destruct (scan_events rest db1) as [[r db2] l1].
Qed.



End DepositProps.




(** ** Delivery verification *)

(** A due order whose post cannot be fetched is skipped without a word. *)
Lemma missing_post_is_silent now chat forward oid order db :
  (forall c m, forward c m = OrderVerifier.ForwardRaised) ->
  OrderVerifier.verify_order now chat forward oid order db = (false, db, []).
Proof.
  intros Hf. unfold OrderVerifier.verify_order.
  destruct (done_at order); [|done].
  destruct (published_channel_message_id order); [|done].
  destruct (_ <? _); [done|].
  destruct (channels db !! channel_id order); [|done].
  rewrite Hf. unfold OrderVerifier._fetch_post_content.
  destruct chat as [v|]; [|done]. by destruct (bool_decide (v = 0)).
Qed.

(** C9. Missing-post handling, evaluated on the due order 1 whose message
    was deleted: the verifier leaves [verified_at] unset, and it sends
    nothing, to the buyer or to the seller; the notification that the owner
    "edited or deleted" the post is only sent when the fetched text differs. *)
Theorem missing_post_sends_no_notification :
  OrderVerifier.selected Samples.published_order = true
  /\ OrderVerifier.verify_pending_orders 87400 (Some (-2002)) Samples.post_deleted
       Samples.published_db
     = (0, Samples.published_db, [])
  /\ run_log (OrderVerifier.verify_pending_orders 87400 (Some (-2002)) Samples.post_edited)
       Samples.published_db
     = [SendMessage 100 PostEdited; SendMessage 200 PostEdited]
  /\ run_val (OrderVerifier.verify_pending_orders 87400 (Some (-2002)) Samples.post_intact)
       Samples.published_db
     = 1.
Proof. repeat split; vm_compute; reflexivity. Qed.

(** *** The expected text is never empty *)

Lemma strip_tags_from_no_gt open t :
  (62%N ∉ t) ->
  PyStr.strip_tags_from open t = default [] open ++ t.
Proof.
  revert open. induction t as [|c t IH]; intros open Hgt.
  - destruct open; simpl; [by rewrite app_nil_r | done].
  - apply not_elem_of_cons in Hgt as [Hc Hgt].
    assert (Hc62 : (c =? 62)%N = false) by (apply N.eqb_neq; congruence).
    destruct open as [b|]; simpl.
    + rewrite Hc62, IH by done. simpl. by rewrite <- app_assoc.
    + destruct (c =? 60)%N; rewrite IH by done; done.
Qed.

Lemma strip_tags_from_suffix open s t :
  (62%N ∉ t) ->
  exists p, PyStr.strip_tags_from open (s ++ t) = p ++ t.
Proof.
  intros Hgt. revert open. induction s as [|c s IH]; intros open.
  - exists (default [] open). by apply strip_tags_from_no_gt.
  - simpl. destruct open as [b|].
    + destruct (c =? 62)%N.
      * destruct b as [|x [|y b]]; destruct (IH None) as [p Hp]; rewrite Hp.
        -- by exists (c :: p).
        -- by exists (x :: c :: p).
        -- by exists p.
      * apply IH.
    + destruct (c =? 60)%N; [apply IH|].
      destruct (IH None) as [p Hp]. rewrite Hp. by exists (c :: p).
Qed.

Lemma lstrip_by_keeps (p : N -> bool) c s :
  c ∈ s -> p c = false -> c ∈ PyStr.lstrip_by p s.
Proof.
  induction s as [|x s IH]; intros Hin Hp; [done|]. simpl.
  destruct (p x) eqn:Hx; [|done].
  apply elem_of_cons in Hin as [-> | Hin]; [congruence | by apply IH].
Qed.

Lemma elem_of_rev_iff (c : N) (s : list N) : c ∈ rev s <-> c ∈ s.
Proof. rewrite !list_elem_of_In. symmetry. apply in_rev. Qed.

Lemma strip_keeps c s :
  c ∈ s -> PyStr.is_space c = false -> c ∈ PyStr.strip s.
Proof.
  intros Hin Hc. unfold PyStr.strip, PyStr.rstrip_by.
  apply elem_of_rev_iff, lstrip_by_keeps; [|done].
  apply elem_of_rev_iff. by apply lstrip_by_keeps.
Qed.

Lemma join_space_keeps c w ws :
  (c ∈ w -> c ∈ PyStr.join_space (w :: ws))
  /\ (c ∈ PyStr.join_space ws -> c ∈ PyStr.join_space (w :: ws)).
Proof.
  destruct ws as [|w' ws]; simpl.
  - split; [done|]. intros H. by apply elem_of_nil in H.
  - split; intros H.
    + apply elem_of_app. by left.
    + apply elem_of_app. right. by right.
Qed.

Lemma split_from_keeps c cur s :
  PyStr.is_space c = false ->
  c ∈ cur \/ c ∈ s ->
  c ∈ PyStr.join_space (PyStr.split_from cur s).
Proof.
  intros Hc. revert cur. induction s as [|x s IH]; intros cur Hin.
  - destruct Hin as [Hin | Hin]; [|by apply elem_of_nil in Hin].
    simpl. destruct cur; [by apply elem_of_nil in Hin | done].
  - simpl. destruct (PyStr.is_space x) eqn:Hx.
    + assert (Hs : c ∈ cur \/ c ∈ s).
      { destruct Hin as [Hin | Hin]; [by left|].
        apply elem_of_cons in Hin as [-> | Hin]; [congruence | by right]. }
      destruct cur as [|y cur].
      * destruct Hs as [Hs | Hs]; [by apply elem_of_nil in Hs|].
        apply IH. by right.
      * destruct Hs as [Hs | Hs].
        -- by apply (proj1 (join_space_keeps c (y :: cur) _)).
        -- apply (proj2 (join_space_keeps c (y :: cur) _)). apply IH. by right.
    + apply IH. destruct Hin as [Hin | Hin].
      * left. apply elem_of_app. by left.
      * apply elem_of_cons in Hin as [-> | Hin]; [|by right].
        left. apply elem_of_app. right. by apply list_elem_of_singleton.
Qed.

(** [_build_expected_text] always contains the hashtag or the dots of the
    truncation: it is not the empty string, whatever the order holds. *)
Lemma expected_text_never_empty order has_media :
  OrderVerifier._build_expected_text order has_media <> [].
Proof.
  unfold OrderVerifier._build_expected_text.
  set (body := PyStr.strip _).
  assert (Hfull : 35%N ∈ OrderVerifier._normalize_text (body ++ OrderVerifier.HASHTAG)).
  { unfold OrderVerifier._normalize_text.
    destruct (body ++ OrderVerifier.HASHTAG) as [|x l] eqn:Hb.
    { apply app_eq_nil in Hb as [_ Hb]. discriminate. }
    rewrite <- Hb. apply strip_keeps; [|done].
    apply split_from_keeps; [done|]. right.
    destruct (strip_tags_from_suffix None body OrderVerifier.HASHTAG) as [p Hp].
    { unfold OrderVerifier.HASHTAG. intros Hin.
      repeat (apply elem_of_cons in Hin as [Hin | Hin]; [discriminate|]).
      by apply elem_of_nil in Hin. }
    unfold PyStr.strip_tags. rewrite Hp.
    apply elem_of_app. right. unfold OrderVerifier.HASHTAG.
    do 2 apply list_elem_of_further. apply list_elem_of_here. }
  destruct (has_media && _).
  - intros Hnil.
    assert (Hdot : 46%N ∈ PyStr.strip
                     (firstn 1000 (OrderVerifier._normalize_text (body ++ OrderVerifier.HASHTAG))
                      ++ OrderVerifier.DOTS)).
    { apply strip_keeps; [|done]. apply elem_of_app. right. apply list_elem_of_here. }
    rewrite Hnil in Hdot. by apply elem_of_nil in Hdot.
  - intros Hnil. rewrite Hnil in Hfull. by apply elem_of_nil in Hfull.
Qed.

(** *** An order whose stored text is empty *)

Lemma strip_tags_from_app open s t :
  (62%N ∉ t) ->
  PyStr.strip_tags_from open (s ++ t) = PyStr.strip_tags_from open s ++ t.
Proof.
  intros Hgt. revert open. induction s as [|c s IH]; intros open.
  - rewrite app_nil_l, strip_tags_from_no_gt by done. by destruct open.
  - simpl. destruct open as [b|].
    + destruct (c =? 62)%N; [|apply IH].
      destruct b as [|x [|y b]]; rewrite IH; done.
    + destruct (c =? 60)%N; by rewrite IH.
Qed.

Lemma normalize_nonempty s :
  s <> [] ->
  OrderVerifier._normalize_text s
  = PyStr.strip (PyStr.join_space (PyStr.split (PyStr.strip_tags s))).
Proof. by destruct s. Qed.

Lemma collapsed_empty_all_space x :
  PyStr.strip (PyStr.join_space (PyStr.split x)) = [] ->
  forall c, c ∈ x -> PyStr.is_space c = true.
Proof.
  intros Hnil c Hin. destruct (PyStr.is_space c) eqn:Hc; [done|].
  assert (Hkeep : c ∈ PyStr.strip (PyStr.join_space (PyStr.split x))).
  { apply strip_keeps; [|done]. apply split_from_keeps; [done | by right]. }
  rewrite Hnil in Hkeep. by apply elem_of_nil in Hkeep.
Qed.

Lemma split_skips_spaces x t :
  (forall c, c ∈ x -> PyStr.is_space c = true) ->
  PyStr.split_from [] (x ++ t) = PyStr.split_from [] t.
Proof.
  induction x as [|c x IH]; intros Hall; [done|].
  simpl. rewrite (Hall c) by apply list_elem_of_here.
  apply IH. intros d Hd. apply Hall. by apply list_elem_of_further.
Qed.

(** For an order whose stored text normalizes to the empty string the
    expected text is the hashtag. *)
Lemma empty_body_expected order has_media :
  OrderVerifier._normalize_text (PyStr.strip (PyStr.or_empty (post_text_html order))) = [] ->
  OrderVerifier._build_expected_text order has_media = hashtag_alone.
Proof.
  intros Hbody. unfold OrderVerifier._build_expected_text.
  set (body := PyStr.strip _) in *.
  assert (Hfull : OrderVerifier._normalize_text (body ++ OrderVerifier.HASHTAG)
                  = hashtag_alone).
  { destruct body as [|c l] eqn:Hb; [reflexivity|].
    rewrite normalize_nonempty in Hbody by done.
    rewrite normalize_nonempty by done.
    unfold PyStr.strip_tags. rewrite strip_tags_from_app.
    2:{ unfold OrderVerifier.HASHTAG. intros Hin.
        repeat (apply elem_of_cons in Hin as [Hin | Hin]; [discriminate|]).
        by apply elem_of_nil in Hin. }
    unfold PyStr.split.
    rewrite (split_skips_spaces _ _ (collapsed_empty_all_space _ Hbody)).
    reflexivity. }
  rewrite Hfull. by destruct has_media.
Qed.

Lemma content_matches_hashtag current order :
  OrderVerifier._content_matches hashtag_alone current order
  = bool_decide (hashtag_alone = current).
Proof.
  unfold OrderVerifier._content_matches, hashtag_alone, PyStr.pystr_eqb.
  match goal with |- (if ?b then true else _) = ?c => change c with b; destruct b; [done|] end.
  destruct current; [done|]. by destruct (PyStr.truthy _).
Qed.

Lemma notify_post_edited_eq order db :
  OrderVerifier._notify_post_edited order db = (tt, db, edit_notices order).
Proof.
  unfold OrderVerifier._notify_post_edited, edit_notices, bind, emit, ret.
  destruct (bool_decide (buyer_telegram_id order = 0));
    destruct (bool_decide (seller_telegram_id order = 0));
    destruct (bool_decide (seller_telegram_id order = buyer_telegram_id order));
    reflexivity.
Qed.

(** C10, as the code has it.  The expected text is never the empty string,
    so the verifier never takes the branch of [_content_matches] that accepts
    every content.  For an order whose stored text normalizes to the empty
    string the expected text is the hashtag alone, and [_content_matches]
    accepts exactly the content equal to it.  When such an order is due, its
    channel exists and its message was forwarded, the verifier sets
    [verified_at] to the time of the run, counts the order and sends nothing
    exactly when the normalized text of the forwarded message is the hashtag;
    for any other content it leaves the database as it was, [verified_at]
    unset, counts nothing and sends the post-edited notices. *)
Theorem empty_body_expects_hashtag now c forward oid order db channel t m text caption :
  OrderVerifier._normalize_text (PyStr.strip (PyStr.or_empty (post_text_html order))) = [] ->
  done_at order = Some t ->
  published_channel_message_id order = Some m ->
  match channel_ad_formats db !! format_id order with
  | Some fmt => duration_hours fmt
  | None => 24
  end * 3600 - 60 <= now - t ->
  channels db !! channel_id order = Some channel ->
  c <> 0 ->
  forward (ch_telegram_id channel) m = OrderVerifier.Forwarded text caption ->
  let current :=
    OrderVerifier._normalize_text
      (if PyStr.truthy text then PyStr.or_empty text
       else if PyStr.truthy caption then PyStr.or_empty caption else []) in
  let run := OrderVerifier.verify_order now (Some c) forward oid order in
  (forall o has_media, OrderVerifier._build_expected_text o has_media <> [])
  /\ (forall has_media, OrderVerifier._build_expected_text order has_media = hashtag_alone)
  /\ (forall cur, OrderVerifier._content_matches hashtag_alone cur order = true
                  <-> cur = hashtag_alone)
  /\ (current = hashtag_alone ->
      run_val run db = true
      /\ (verified_at <$> (orders (run_db run db) !! oid)) = Some (Some now)
      /\ (forall j, j <> oid -> orders (run_db run db) !! j = orders db !! j)
      /\ run_log run db = [])
  /\ (current <> hashtag_alone ->
      run_val run db = false
      /\ run_db run db = db
      /\ run_log run db = edit_notices order).
Proof.
  intros Hbody Hdone Hmsg Hdue Hch Hc Hfwd current run.
  split; [apply expected_text_never_empty|].
  split; [intros hm; by apply empty_body_expected|].
  split.
  { intros cur. rewrite content_matches_hashtag. rewrite bool_decide_eq_true.
    split; congruence. }
  assert (Hrun : run db
            = OrderVerifier.conclude now oid order hashtag_alone current db).
  { subst run. unfold OrderVerifier.verify_order. rewrite Hdone, Hmsg.
    apply Z.ltb_ge in Hdue. rewrite Hdue, Hch.
    unfold OrderVerifier._fetch_post_content.
    rewrite bool_decide_eq_false_2 by done. rewrite Hfwd.
    simpl negb. cbv iota. by rewrite empty_body_expected. }
  unfold run_val, run_db, run_log. rewrite Hrun.
  unfold OrderVerifier.conclude. rewrite content_matches_hashtag.
  change (match hashtag_alone with [] => false | _ :: _ => true end) with true.
  split.
  - intros Heq. rewrite bool_decide_eq_true_2 by done. simpl.
    split; [done|]. split; [by rewrite lookup_insert_eq|]. split; [|done].
    intros j Hj. by rewrite lookup_insert_ne.
  - intros Hne. rewrite bool_decide_eq_false_2 by congruence. simpl.
    by rewrite notify_post_edited_eq.
Qed.

Lemma empty_body_expects_hashtag_witness :
  (run_val (OrderVerifier.verify_order 87400 (Some (-2002)) Samples.post_hashtag 1
              Samples.blank_order) Samples.blank_db = true
   /\ (verified_at <$>
         (orders (run_db (OrderVerifier.verify_order 87400 (Some (-2002))
                            Samples.post_hashtag 1 Samples.blank_order)
                         Samples.blank_db) !! 1))
      = Some (Some 87400))
  /\ (run_val (OrderVerifier.verify_order 87400 (Some (-2002)) Samples.post_edited 1
                 Samples.blank_order) Samples.blank_db = false
      /\ run_db (OrderVerifier.verify_order 87400 (Some (-2002)) Samples.post_edited 1
                   Samples.blank_order) Samples.blank_db
         = Samples.blank_db
      /\ run_log (OrderVerifier.verify_order 87400 (Some (-2002)) Samples.post_edited 1
                    Samples.blank_order) Samples.blank_db
         = [SendMessage 100 PostEdited; SendMessage 200 PostEdited]).
Proof.
  destruct (empty_body_expects_hashtag 87400 (-2002) Samples.post_hashtag 1
              Samples.blank_order Samples.blank_db Samples.channel1 1000 55
              (Some hashtag_alone) None
              eq_refl eq_refl eq_refl ltac:(vm_compute; discriminate) eq_refl
              ltac:(lia) eq_refl) as (_ & _ & _ & Hyes & _).
  destruct (empty_body_expects_hashtag 87400 (-2002) Samples.post_edited 1
              Samples.blank_order Samples.blank_db Samples.channel1 1000 55
              (Some (lit "Sold out")) None
              eq_refl eq_refl eq_refl ltac:(vm_compute; discriminate) eq_refl
              ltac:(lia) eq_refl) as (_ & _ & _ & _ & Hno).
  destruct (Hyes eq_refl) as (Hv & Hat & _ & _).
  split; [by split|].
  apply Hno. vm_compute. discriminate.
Defined.

(** C10 as stated fails.  The stored text of order 1 is markup and a space
    and normalizes to the empty string; the expected text is then the hashtag,
    not the empty string; with "Sold out" published, [_content_matches]
    answers false, and the verifier run leaves [verified_at] unset, counts
    nothing and notifies buyer and seller of an edit. *)
Lemma empty_body_edited_post_not_verified :
  post_text_html Samples.blank_order = Some (lit "<b> </b>")
  /\ OrderVerifier._normalize_text
       (PyStr.strip (PyStr.or_empty (post_text_html Samples.blank_order))) = []
  /\ OrderVerifier.selected Samples.blank_order = true
  /\ OrderVerifier._build_expected_text Samples.blank_order false = hashtag_alone
  /\ OrderVerifier._content_matches
       (OrderVerifier._build_expected_text Samples.blank_order false)
       (lit "Sold out") Samples.blank_order = false
  /\ OrderVerifier.verify_pending_orders 87400 (Some (-2002)) Samples.post_edited
       Samples.blank_db
     = (0, Samples.blank_db, [SendMessage 100 PostEdited; SendMessage 200 PostEdited])
  /\ (verified_at <$>
        (orders (run_db (OrderVerifier.verify_pending_orders 87400 (Some (-2002))
                           Samples.post_edited) Samples.blank_db) !! 1))
     = Some None.
Proof. repeat split; vm_compute; reflexivity. Qed.

(** * Further properties of the code *)

(** ** The escrow primitives *)

Lemma escrow_call_keeps_tables c db :
  orders (fst (escrow_call c db)) = orders db
  /\ usdt_transactions (fst (escrow_call c db)) = usdt_transactions db
  /\ ton_withdrawals (fst (escrow_call c db)) = ton_withdrawals db
  /\ channels (fst (escrow_call c db)) = channels db.
Proof.
  destruct c as [u cur amt | o | o]; simpl.
  - unfold OrderPayment.freeze_for_order.
    destruct (user_balances db !! (u, cur)) as [bal|]; [|done].
    by destruct (available bal <? amt).
  - unfold OrderPayment.release_to_seller.
    destruct (orders db !! o) as [order|]; [|done].
    destruct (payment_currency order); [|done].
    destruct (payment_amount order); [|done].
    destruct (negb _); [done|].
    destruct (user_balances db !! _) as [bal|]; [|done].
    by destruct (frozen bal <? _).
  - unfold OrderPayment.refund_to_buyer.
    destruct (orders db !! o) as [order|]; [|done].
    destruct (payment_currency order); [|done].
    destruct (payment_amount order); [|done].
    destruct (user_balances db !! _) as [bal|]; [|done].
    by destruct (frozen bal <? _).
Qed.

Lemma escrow_call_nonneg c db :
  nonneg_balances db -> nonneg_orders db -> nonneg_call c ->
  nonneg_balances (fst (escrow_call c db)).
Proof.
  intros Hb Ho Hc. destruct c as [u cur amt | o | o]; simpl in *.
  - unfold OrderPayment.freeze_for_order.
    destruct (user_balances db !! (u, cur)) as [bal|] eqn:Hbal; [|done].
    destruct (available bal <? amt) eqn:Hlt; [done|]. apply Z.ltb_ge in Hlt.
    intros k b. simpl. rewrite lookup_insert.
    destruct (decide ((u, cur) = k)); [|apply Hb].
    intros [= <-]. simpl. destruct (Hb _ _ Hbal). lia.
  - unfold OrderPayment.release_to_seller.
    destruct (orders db !! o) as [order|] eqn:Hord; [|done].
    destruct (payment_currency order) as [cur|]; [|done].
    destruct (payment_amount order) as [amt|] eqn:Hamt; [|done].
    destruct (negb _); [done|].
    destruct (user_balances db !! _) as [bal|] eqn:Hbal; [|done].
    destruct (frozen bal <? amt) eqn:Hlt; [done|]. apply Z.ltb_ge in Hlt.
    pose proof (Ho _ _ _ Hord Hamt) as Hamt0.
    set (m1 := <[(buyer_telegram_id order, cur) := _]> (user_balances db)).
    assert (Hm1 : forall k b, m1 !! k = Some b -> 0 <= available b /\ 0 <= frozen b).
    { intros k b. unfold m1. rewrite lookup_insert.
      destruct (decide ((buyer_telegram_id order, cur) = k)); [|apply Hb].
      intros [= <-]. simpl. destruct (Hb _ _ Hbal). lia. }
    intros k b. simpl. fold m1.
    destruct (m1 !! (seller_telegram_id order, cur)) as [sbal|] eqn:Hs;
      rewrite lookup_insert;
      (destruct (decide ((seller_telegram_id order, cur) = k)); [|apply Hm1]);
      intros [= <-]; simpl.
    + destruct (Hm1 _ _ Hs). lia.
    + lia.
  - unfold OrderPayment.refund_to_buyer.
    destruct (orders db !! o) as [order|] eqn:Hord; [|done].
    destruct (payment_currency order) as [cur|]; [|done].
    destruct (payment_amount order) as [amt|] eqn:Hamt; [|done].
    destruct (user_balances db !! _) as [bal|] eqn:Hbal; [|done].
    destruct (frozen bal <? amt) eqn:Hlt; [done|]. apply Z.ltb_ge in Hlt.
    pose proof (Ho _ _ _ Hord Hamt) as Hamt0.
    intros k b. simpl. rewrite lookup_insert.
    destruct (decide ((buyer_telegram_id order, cur) = k)); [|apply Hb].
    intros [= <-]. simpl. destruct (Hb _ _ Hbal). lia.
Qed.

(** X1. No negative balances.  From a table whose rows are all non-negative,
    with non-negative order amounts, any sequence of [freeze_for_order] (of
    non-negative amounts), [release_to_seller] and [refund_to_buyer] calls
    leaves every row with [available >= 0] and [frozen >= 0]. *)
Theorem escrow_keeps_balances_nonneg cs db :
  nonneg_balances db -> nonneg_orders db -> Forall nonneg_call cs ->
  nonneg_balances (escrow_calls cs db).
Proof.
  revert db. induction cs as [|c cs IH]; intros db Hb Ho Hcs; [done|].
  apply Forall_cons in Hcs as [Hc Hcs]. simpl. apply IH; [|
    |done].
  - by apply escrow_call_nonneg.
  - unfold nonneg_orders. destruct (escrow_call_keeps_tables c db) as [-> _]. apply Ho.
Qed.

Lemma pending_db_nonneg :
  nonneg_balances Samples.pending_db /\ nonneg_orders Samples.pending_db.
Proof.
  split.
  - intros k b H.
    change (user_balances Samples.pending_db)
      with ({[ (100, Usdt) :=
                 mkUserBalance (Samples.usdt 70) (Samples.usdt 30) (Samples.usdt 100) 0 ]}
            : gmap (Z * Currency) UserBalance) in H.
    apply lookup_singleton_Some in H as [_ <-]. by vm_compute.
  - intros o order amt H Hamt.
    change (orders Samples.pending_db)
      with ({[ 1 := Samples.order30 pending_seller ]} : gmap Z Order) in H.
    apply lookup_singleton_Some in H as [_ <-].
    injection Hamt as <-. by vm_compute.
Qed.

Lemma escrow_keeps_balances_nonneg_witness :
  nonneg_balances
    (escrow_calls [Freeze 100 Usdt (Samples.usdt 10); Refund 1; Freeze 100 Usdt (Samples.usdt 500)]
                  Samples.pending_db).
Proof.
  apply escrow_keeps_balances_nonneg.
  - apply pending_db_nonneg.
  - apply pending_db_nonneg.
  - repeat constructor; vm_compute; discriminate.
Defined.

(** X2. Frame of the escrow primitives.  A call writes no balance row
    besides the caller's row (freeze), the buyer's row (refund) or the
    buyer's and the seller's rows (release) in the currency concerned; it
    removes no row, never changes [total_deposited] or [total_withdrawn], and
    leaves orders and transaction tables alone. *)
Theorem escrow_call_frame c db :
  (forall k, k ∉ touched c db ->
     user_balances (fst (escrow_call c db)) !! k = user_balances db !! k)
  /\ (forall k b, user_balances db !! k = Some b ->
        exists b', user_balances (fst (escrow_call c db)) !! k = Some b'
                   /\ total_deposited b' = total_deposited b
                   /\ total_withdrawn b' = total_withdrawn b)
  /\ orders (fst (escrow_call c db)) = orders db
  /\ usdt_transactions (fst (escrow_call c db)) = usdt_transactions db
  /\ ton_withdrawals (fst (escrow_call c db)) = ton_withdrawals db.
Proof.
  destruct (escrow_call_keeps_tables c db) as (Ho & Hu & Ht & _).
  split; [|split; [|done]].
  - intros k Hk. destruct c as [u cur amt | o | o]; simpl in *.
    + unfold OrderPayment.freeze_for_order.
      destruct (user_balances db !! (u, cur)) as [bal|]; [|done].
      destruct (available bal <? amt); [done|]. simpl.
      apply lookup_insert_ne. intros <-. apply Hk. by left.
    + unfold OrderPayment.release_to_seller.
      destruct (orders db !! o) as [order|]; [|done].
      destruct (payment_currency order) as [cur|]; [|done].
      destruct (payment_amount order) as [amt|]; [|done].
      destruct (negb _); [done|].
      destruct (user_balances db !! _) as [bal|]; [|done].
      destruct (frozen bal <? amt); [done|]. simpl.
      assert (Hb : (buyer_telegram_id order, cur) <> k)
        by (intros <-; apply Hk; by left).
      assert (Hs : (seller_telegram_id order, cur) <> k)
        by (intros <-; apply Hk; right; by left).
      destruct (_ !! (seller_telegram_id order, cur));
        by rewrite !lookup_insert_ne.
    + unfold OrderPayment.refund_to_buyer.
      destruct (orders db !! o) as [order|]; [|done].
      destruct (payment_currency order) as [cur|]; [|done].
      destruct (payment_amount order) as [amt|]; [|done].
      destruct (user_balances db !! _) as [bal|]; [|done].
      destruct (frozen bal <? amt); [done|]. simpl.
      apply lookup_insert_ne. intros <-. apply Hk. by left.
  - intros k b Hkb. destruct c as [u cur amt | o | o]; simpl in *.
    + unfold OrderPayment.freeze_for_order.
      destruct (user_balances db !! (u, cur)) as [bal|] eqn:Hbal; [|by exists b].
      destruct (available bal <? amt); [by exists b|]. simpl.
      rewrite lookup_insert. destruct (decide ((u, cur) = k)) as [<-|]; [|by exists b].
      rewrite Hbal in Hkb. injection Hkb as <-. by eexists.
    + unfold OrderPayment.release_to_seller.
      destruct (orders db !! o) as [order|]; [|by exists b].
      destruct (payment_currency order) as [cur|]; [|by exists b].
      destruct (payment_amount order) as [amt|]; [|by exists b].
      destruct (negb _); [by exists b|].
      destruct (user_balances db !! (buyer_telegram_id order, cur)) as [bal|] eqn:Hbal;
        [|by exists b].
      destruct (frozen bal <? amt); [by exists b|]. simpl.
      set (m1 := <[(buyer_telegram_id order, cur) := _]> (user_balances db)).
      assert (Hm1 : exists b1, m1 !! k = Some b1
                               /\ total_deposited b1 = total_deposited b
                               /\ total_withdrawn b1 = total_withdrawn b).
      { unfold m1. rewrite lookup_insert.
        destruct (decide ((buyer_telegram_id order, cur) = k)) as [<-|]; [|by exists b].
        rewrite Hbal in Hkb. injection Hkb as <-. by eexists. }
      destruct Hm1 as (b1 & Hb1 & Hd & Hw).
      destruct (m1 !! (seller_telegram_id order, cur)) as [sbal|] eqn:Hs;
        rewrite lookup_insert;
        destruct (decide ((seller_telegram_id order, cur) = k)) as [<-|];
        try (by exists b1).
      * rewrite Hs in Hb1. injection Hb1 as <-. by eexists.
      * congruence.
    + unfold OrderPayment.refund_to_buyer.
      destruct (orders db !! o) as [order|]; [|by exists b].
      destruct (payment_currency order) as [cur|]; [|by exists b].
      destruct (payment_amount order) as [amt|]; [|by exists b].
      destruct (user_balances db !! (buyer_telegram_id order, cur)) as [bal|] eqn:Hbal;
        [|by exists b].
      destruct (frozen bal <? amt); [by exists b|]. simpl.
      rewrite lookup_insert.
      destruct (decide ((buyer_telegram_id order, cur) = k)) as [<-|]; [|by exists b].
      rewrite Hbal in Hkb. injection Hkb as <-. by eexists.
Qed.

Lemma escrow_call_frame_witness :
  user_balances (fst (escrow_call (Refund 1) Samples.pending_db)) !! (200, Usdt)
    = user_balances Samples.pending_db !! (200, Usdt)
  /\ exists b',
       user_balances (fst (escrow_call (Refund 1) Samples.pending_db)) !! (100, Usdt)
         = Some b'
       /\ total_deposited b' = Samples.usdt 100 /\ total_withdrawn b' = 0.
Proof.
  destruct (escrow_call_frame (Refund 1) Samples.pending_db) as (Hframe & Hkeep & _).
  split.
  - apply Hframe. vm_compute. intros H.
    apply elem_of_cons in H as [H | H]; [discriminate | by apply elem_of_nil in H].
  - apply (Hkeep (100, Usdt)
             (mkUserBalance (Samples.usdt 70) (Samples.usdt 30) (Samples.usdt 100) 0)).
    reflexivity.
Defined.

(** ** Creating and cancelling orders *)

Lemma freeze_true_shape u cur amt db :
  snd (OrderPayment.freeze_for_order u cur amt db) = true ->
  exists bal,
    user_balances db !! (u, cur) = Some bal
    /\ amt <= available bal
    /\ fst (OrderPayment.freeze_for_order u cur amt db)
       = with_balances db
           (<[(u, cur) := mkUserBalance (available bal - amt) (frozen bal + amt)
                            (total_deposited bal) (total_withdrawn bal)]>
              (user_balances db)).
Proof.
  unfold OrderPayment.freeze_for_order.
  destruct (user_balances db !! (u, cur)) as [bal|]; [|done].
  destruct (available bal <? amt) eqn:Hlt; [done|]. apply Z.ltb_ge in Hlt.
  intros _. by exists bal.
Qed.

Lemma create_order_response body u token db db1 id :
  Orders.create_order body u token db = (db1, Orders.Response id) ->
  id = orders_seq db
  /\ orders_seq db1 = id + 1
  /\ (forall j, j <> id -> orders db1 !! j = orders db !! j)
  /\ exists seller amt bal,
       seller <> u
       /\ (owner_telegram_id <$> (channels db !! Orders.channelId body)) = Some seller
       /\ orders db1 !! id
          = Some (mkOrder (Orders.channelId body) (Orders.formatId body) u seller
                    writing_post (Some (Orders.currency body)) (Some amt)
                    None None (Some token) None None None None None)
       /\ user_balances db !! (u, Orders.currency body) = Some bal
       /\ amt <= available bal
       /\ user_balances db1
          = <[(u, Orders.currency body) :=
                mkUserBalance (available bal - amt) (frozen bal + amt)
                  (total_deposited bal) (total_withdrawn bal)]> (user_balances db).
Proof.
  unfold Orders.create_order.
  destruct (Orders.checked_amount body u db) as [[seller amt]|code] eqn:Hchk; [|done].
  destruct (OrderPayment.freeze_for_order u (Orders.currency body) amt db)
    as [db0 ok] eqn:Hfr.
  destruct ok; simpl; [|done].
  destruct (freeze_true_shape u (Orders.currency body) amt db) as (bal & Hbal & Hle & Hdb0).
  { by rewrite Hfr. }
  rewrite Hfr in Hdb0. simpl in Hdb0. subst db0.
  destruct (Orders.token_in_use token _); [done|].
  intros [= <- <-]. simpl.
  split; [done|]. split; [done|]. split.
  { intros j Hj. by rewrite lookup_insert_ne. }
  exists seller, amt, bal. rewrite lookup_insert_eq.
  assert (Hseller : seller <> u
            /\ (owner_telegram_id <$> (channels db !! Orders.channelId body))
               = Some seller); [|by destruct Hseller].
  unfold Orders.checked_amount in Hchk.
  destruct (channels db !! Orders.channelId body) as [channel|]; [|done].
  destruct (negb _); [done|].
  destruct (bool_decide (owner_telegram_id channel = u)) eqn:Hown; [done|].
  apply bool_decide_eq_false in Hown.
  destruct (channel_ad_formats db !! Orders.formatId body) as [fmt|]; [|done].
  destruct (negb _); [done|].
  destruct (Orders.currency body).
  + destruct (_ || _); [done|]. by injection Hchk as <- _.
  + destruct (price_usdt fmt); [|done]. destruct (_ || _); [done|].
    by injection Hchk as <- _.
  + destruct (price_usdt fmt); [|done]. destruct (_ || _); [done|].
    by injection Hchk as <- _.
Qed.

Lemma checked_amount_code body u db code :
  Orders.checked_amount body u db = Orders.HTTPException code -> code = 404 \/ code = 400.
Proof.
  unfold Orders.checked_amount.
  repeat match goal with
         | |- context [match ?x with _ => _ end] => destruct x
         end; intros [= <-]; auto.
Qed.


(** X4. Create then cancel is a round trip on the ledger.  When the buyer's
    frozen balance was not negative, cancelling the order that [create_order]
    just answered is accepted, marks the order cancelled and gives every
    balance row the value it had before the order was created. *)
Theorem create_then_cancel_restores body u token db db1 id :
  (forall bal, user_balances db !! (u, Orders.currency body) = Some bal -> 0 <= frozen bal) ->
  Orders.create_order body u token db = (db1, Orders.Response id) ->
  run_val (Orders.cancel_order id u) db1 = Orders.Response cancelled
  /\ run_log (Orders.cancel_order id u) db1
     = [OrderStatusCommitted id cancelled; RefundCalled id true]
  /\ user_balances (run_db (Orders.cancel_order id u) db1) = user_balances db
  /\ (status <$> (orders (run_db (Orders.cancel_order id u) db1) !! id)) = Some cancelled.
Proof.
  intros Hfrozen Hcreate.
  destruct (create_order_response body u token db db1 id Hcreate)
    as (-> & _ & _ & seller & amt & bal & _ & _ & Hord & Hbal & Hle & Hbals).
  specialize (Hfrozen bal Hbal).
  unfold run_val, run_log, run_db, Orders.cancel_order. rewrite Hord. simpl.
  rewrite bool_decide_eq_true_2 by done. simpl.
  unfold OrderPayment.refund_to_buyer. simpl. rewrite lookup_insert_eq. simpl.
  rewrite Hbals, lookup_insert_eq. simpl.
  replace (frozen bal + amt <? amt) with false by (symmetry; apply Z.ltb_ge; lia).
  simpl. rewrite lookup_insert_eq. repeat split.
  rewrite insert_insert_eq. apply insert_id. rewrite Hbal. f_equal.
  destruct bal. unfold set_available, set_frozen. simpl. f_equal; lia.
Qed.

Lemma create_then_cancel_restores_witness :
  user_balances
    (run_db (Orders.cancel_order 1 100)
       (fst (Orders.create_order Samples.order_usdt 100 Samples.token Samples.funded_db)))
  = user_balances Samples.funded_db.
Proof.
  apply (create_then_cancel_restores Samples.order_usdt 100 Samples.token
           Samples.funded_db
           (fst (Orders.create_order Samples.order_usdt 100 Samples.token Samples.funded_db))
           1).
  - intros bal H. vm_compute in H. injection H as <-. vm_compute. discriminate.
  - reflexivity.
Defined.

(** ** Rounding to cents *)

(** X5. [Decimal.quantize] as [_get_ton_price_for_usdt] uses it: for a
    positive divisor the result is a nearest integer to the quotient (the
    error is at most half the divisor), it is exact when the division is
    exact, and on a tie it is the even neighbour.  The TON price of a
    non-negative USDT price is a non-negative whole number of cents, whatever
    the stored rate. *)
Theorem quantize_is_nearest n d :
  0 < d ->
  2 * Z.abs (n - Orders.div_half_even n d * d) <= d
  /\ (n mod d = 0 -> Orders.div_half_even n d * d = n)
  /\ (2 * Z.abs (n - Orders.div_half_even n d * d) = d ->
      Z.even (Orders.div_half_even n d) = true)
  /\ forall db, 0 <= n ->
       0 <= Orders._get_ton_price_for_usdt n db
       /\ Orders._get_ton_price_for_usdt n db mod 10000000 = 0.
Proof.
  intros Hd.
  assert (Hcases : forall q r, n = d * q + r -> 0 <= r < d ->
            let res := if 2 * r <? d then q
                       else if d <? 2 * r then q + 1
                       else if Z.even q then q else q + 1 in
            2 * Z.abs (n - res * d) <= d
            /\ (r = 0 -> res * d = n)
            /\ (2 * Z.abs (n - res * d) = d -> Z.even res = true)).
  { intros q r Hn Hr. cbv zeta.
    destruct (2 * r <? d) eqn:H1.
    { apply Z.ltb_lt in H1. repeat split; intros; nia. }
    apply Z.ltb_ge in H1.
    destruct (d <? 2 * r) eqn:H2.
    { apply Z.ltb_lt in H2. repeat split; intros; nia. }
    apply Z.ltb_ge in H2.
    destruct (Z.even q) eqn:He.
    - repeat split; intros; try nia. done.
    - repeat split; intros; try nia. rewrite Z.even_add, He. done. }
  pose proof (Hcases (n / d) (n mod d) (Z.div_mod n d ltac:(lia))
                (Z.mod_pos_bound n d Hd)) as (H1 & H2 & H3).
  unfold Orders.div_half_even.
  split; [exact H1|]. split; [exact H2|]. split; [exact H3|].
  intros db Hn. unfold Orders._get_ton_price_for_usdt, Orders.div_half_even.
  set (rate := match ton_usd_price db with
               | Some p => if bool_decide (p ≠ 0) && (0 <? p) then p else 5000000000
               | None => 5000000000
               end).
  assert (Hrate : 0 < rate).
  { unfold rate. destruct (ton_usd_price db) as [p|]; [|lia].
    destruct (bool_decide (p ≠ 0)); simpl; [|lia].
    destruct (0 <? p) eqn:Hp; [by apply Z.ltb_lt in Hp | lia]. }
  assert (Hdiv : 0 <= n * 100 / rate) by (apply Z.div_pos; lia).
  cbv zeta. set (q := n * 100 / rate) in *. set (r := (n * 100) mod rate).
  clearbody q r rate.
  split.
  - destruct (2 * r <? rate), (rate <? 2 * r), (Z.even q); lia.
  - apply Z.mod_mul. lia.
Qed.

Lemma quantize_is_nearest_witness :
  Orders.div_half_even 25 10 = 2 /\ Orders.div_half_even 35 10 = 4
  /\ 2 * Z.abs (35 - Orders.div_half_even 35 10 * 10) <= 10.
Proof.
  split; [reflexivity|]. split; [reflexivity|].
  apply (proj1 (quantize_is_nearest 35 10 ltac:(lia))).
Defined.

(** ** The seller's approval *)

Lemma cb_seller_approve_eq oid now db order channel m :
  orders db !! oid = Some order ->
  channels db !! channel_id order = Some channel ->
  status order = pending_seller ->
  exists o',
    status o' = done_ /\ done_at o' = Some now
    /\ published_channel_message_id o' = Some m
    /\ buyer_telegram_id o' = buyer_telegram_id order
    /\ seller_telegram_id o' = seller_telegram_id order
    /\ payment_currency o' = payment_currency order
    /\ payment_amount o' = payment_amount order
    /\ Handlers.cb_seller_approve oid (Some m) now db
       = (tt,
          fst (OrderPayment.release_to_seller oid
                 (with_orders db (<[oid := o']> (orders db)))),
          [ChannelPost (ch_telegram_id channel) oid true;
           OrderStatusCommitted oid done_;
           ReleaseCalled oid
             (snd (OrderPayment.release_to_seller oid
                     (with_orders db (<[oid := o']> (orders db)))));
           SendMessage (buyer_telegram_id order) PostApproved;
           Answer PublishedDone]).
Proof.
  intros Ho Hc Hst.
  unfold Handlers.cb_seller_approve, bind, Handlers._get_order_and_channel.
  rewrite Ho, Hc, Hst.
  unfold Handlers._publish_post_to_channel, bind, emit, ret.
  rewrite (bool_decide_eq_true_2 (pending_seller = pending_seller)) by done.
  cbn [negb]. cbn beta iota zeta.
  unfold Handlers._set_order_done. rewrite Ho.
  match goal with
  | |- context [OrderPayment.release_to_seller oid (with_orders db (<[oid := ?o]> _))] =>
      exists o;
      pose proof (release_keeps_orders oid (with_orders db (<[oid := o]> (orders db))))
        as [Hord Hch];
      destruct (OrderPayment.release_to_seller oid
                  (with_orders db (<[oid := o]> (orders db)))) as [db2 ok]
  end.
  simpl in Hord, Hch.
  repeat (split; [by destruct (match PyStr.lstrip_by _ _ with [] => None | _ => _ end)|]).
  cbn beta iota zeta.
  unfold Handlers._notify_buyer_post_approved, bind, Handlers._get_order_and_channel, emit.
  rewrite Hord, lookup_insert_eq, Hch.
  destruct (match PyStr.lstrip_by _ _ with [] => None | _ => _ end); simpl; by rewrite Hc.
Qed.

Lemma release_pays o db order cur amt bal :
  orders db !! o = Some order ->
  status order = done_ ->
  payment_currency order = Some cur -> payment_amount order = Some amt ->
  buyer_telegram_id order <> seller_telegram_id order ->
  user_balances db !! (buyer_telegram_id order, cur) = Some bal ->
  amt <= frozen bal ->
  snd (OrderPayment.release_to_seller o db) = true
  /\ user_balances (fst (OrderPayment.release_to_seller o db))
       !! (buyer_telegram_id order, cur)
     = Some (mkUserBalance (available bal) (frozen bal - amt)
               (total_deposited bal) (total_withdrawn bal))
  /\ user_balances (fst (OrderPayment.release_to_seller o db))
       !! (seller_telegram_id order, cur)
     = Some (match user_balances db !! (seller_telegram_id order, cur) with
             | Some s => mkUserBalance (available s + amt) (frozen s)
                           (total_deposited s) (total_withdrawn s)
             | None => mkUserBalance amt 0 0 0
             end).
Proof.
  intros Ho Hst Hcur Hamt Hne Hbal Hle.
  unfold OrderPayment.release_to_seller. rewrite Ho, Hcur, Hamt, Hst.
  rewrite bool_decide_eq_true_2 by done. simpl. rewrite Hbal.
  replace (frozen bal <? amt) with false by (symmetry; apply Z.ltb_ge; lia).
  simpl. rewrite lookup_insert_ne by congruence.
  destruct (user_balances db !! (seller_telegram_id order, cur)) as [s|];
    (split; [done|]); rewrite lookup_insert_eq;
    (rewrite lookup_insert_ne by congruence); by rewrite lookup_insert_eq.
Qed.

(** X6. An approval pays the seller.  For an order waiting for the seller
    whose buyer is not the seller and has at least the order's amount frozen,
    [cb_seller_approve] after a successful post marks the order done at the
    current time with the message id recorded, takes the amount off the
    buyer's frozen balance and adds it to the seller's available balance,
    creating the seller's row when there was none. *)
Theorem seller_approval_pays oid now db order channel cur amt bal m :
  orders db !! oid = Some order ->
  channels db !! channel_id order = Some channel ->
  status order = pending_seller ->
  payment_currency order = Some cur -> payment_amount order = Some amt ->
  buyer_telegram_id order <> seller_telegram_id order ->
  user_balances db !! (buyer_telegram_id order, cur) = Some bal ->
  amt <= frozen bal ->
  exists o',
    orders (run_db (Handlers.cb_seller_approve oid (Some m) now) db) !! oid = Some o'
    /\ status o' = done_ /\ done_at o' = Some now
    /\ published_channel_message_id o' = Some m
    /\ In (ReleaseCalled oid true)
          (run_log (Handlers.cb_seller_approve oid (Some m) now) db)
    /\ user_balances (run_db (Handlers.cb_seller_approve oid (Some m) now) db)
         !! (buyer_telegram_id order, cur)
       = Some (mkUserBalance (available bal) (frozen bal - amt)
                 (total_deposited bal) (total_withdrawn bal))
    /\ user_balances (run_db (Handlers.cb_seller_approve oid (Some m) now) db)
         !! (seller_telegram_id order, cur)
       = Some (match user_balances db !! (seller_telegram_id order, cur) with
               | Some s => mkUserBalance (available s + amt) (frozen s)
                             (total_deposited s) (total_withdrawn s)
               | None => mkUserBalance amt 0 0 0
               end).
Proof.
  intros Ho Hc Hst Hcur Hamt Hne Hbal Hle.
  destruct (cb_seller_approve_eq oid now db order channel m Ho Hc Hst)
    as (o' & Hs' & Hd' & Hm' & Hb' & Hse' & Hc' & Ha' & Heq).
  exists o'. unfold run_db, run_log. rewrite Heq. simpl.
  set (db1 := with_orders db (<[oid := o']> (orders db))).
  destruct (release_pays oid db1 o' cur amt bal) as (Hok & Hbuyer & Hseller).
  { unfold db1. simpl. apply lookup_insert_eq. }
  { done. } { congruence. } { congruence. } { congruence. }
  { by rewrite Hb'. } { done. }
  destruct (release_keeps_orders oid db1) as [Hord _].
  rewrite Hord. unfold db1 at 1. simpl. rewrite lookup_insert_eq.
  repeat (split; [done|]).
  rewrite Hok. split; [right; right; by left|].
  rewrite Hb' in Hbuyer. rewrite Hse' in Hseller. done.
Qed.

Lemma seller_approval_pays_witness :
  user_balances (run_db (Handlers.cb_seller_approve 1 (Some 55) 1700000000) Samples.pending_db)
    !! (100, Usdt)
    = Some (mkUserBalance (Samples.usdt 70) 0 (Samples.usdt 100) 0)
  /\ user_balances (run_db (Handlers.cb_seller_approve 1 (Some 55) 1700000000)
                      Samples.pending_db) !! (200, Usdt)
    = Some (mkUserBalance (Samples.usdt 30) 0 0 0).
Proof.
  destruct (seller_approval_pays 1 1700000000 Samples.pending_db
              (Samples.order30 pending_seller) Samples.channel1 Usdt (Samples.usdt 30)
              (mkUserBalance (Samples.usdt 70) (Samples.usdt 30) (Samples.usdt 100) 0) 55)
    as (o' & _ & _ & _ & _ & _ & Hbuyer & Hseller);
    [first [reflexivity | (simpl; lia) | (unfold Samples.usdt; simpl; lia)] .. |].
  split; [exact Hbuyer | exact Hseller].
Defined.

(** X7. An approval without funds still completes the order.  When the
    buyer's frozen balance is below the order's amount (or the buyer has no
    row), [cb_seller_approve] after a successful post still marks the order
    done and tells both parties; [release_to_seller] returns false, which
    [_set_order_done] drops, and no balance row changes. *)
Theorem approval_without_funds_completes oid now db order channel cur amt m :
  orders db !! oid = Some order ->
  channels db !! channel_id order = Some channel ->
  status order = pending_seller ->
  payment_currency order = Some cur -> payment_amount order = Some amt ->
  (forall bal, user_balances db !! (buyer_telegram_id order, cur) = Some bal ->
               frozen bal < amt) ->
  run_log (Handlers.cb_seller_approve oid (Some m) now) db
    = [ChannelPost (ch_telegram_id channel) oid true;
       OrderStatusCommitted oid done_;
       ReleaseCalled oid false;
       SendMessage (buyer_telegram_id order) PostApproved;
       Answer PublishedDone]
  /\ user_balances (run_db (Handlers.cb_seller_approve oid (Some m) now) db)
     = user_balances db
  /\ (status <$> (orders (run_db (Handlers.cb_seller_approve oid (Some m) now) db) !! oid))
     = Some done_.
Proof.
  intros Ho Hc Hst Hcur Hamt Hlow.
  destruct (cb_seller_approve_eq oid now db order channel m Ho Hc Hst)
    as (o' & Hs' & Hd' & Hm' & Hb' & Hse' & Hc' & Ha' & Heq).
  unfold run_db, run_log. rewrite Heq. simpl.
  set (db1 := with_orders db (<[oid := o']> (orders db))).
  assert (Hrel : OrderPayment.release_to_seller oid db1 = (db1, false)).
  { unfold OrderPayment.release_to_seller. unfold db1 at 1. simpl.
    rewrite lookup_insert_eq, Hc', Ha', Hcur, Hamt, Hs'.
    rewrite bool_decide_eq_true_2 by done. simpl. rewrite Hb'.
    destruct (user_balances db !! (buyer_telegram_id order, cur)) as [bal|] eqn:Hbal;
      [|done].
    specialize (Hlow bal eq_refl).
    by replace (frozen bal <? amt) with true by (symmetry; apply Z.ltb_lt; lia). }
  rewrite Hrel. simpl. rewrite lookup_insert_eq. simpl. by rewrite Hs'.
Qed.

Lemma approval_without_funds_completes_witness :
  user_balances
    (run_db (Handlers.cb_seller_approve 1 (Some 55) 1700000000)
       (with_balances Samples.pending_db ∅))
  = ∅
  /\ (status <$>
        (orders (run_db (Handlers.cb_seller_approve 1 (Some 55) 1700000000)
                   (with_balances Samples.pending_db ∅)) !! 1))
     = Some done_.
Proof.
  destruct (approval_without_funds_completes 1 1700000000
              (with_balances Samples.pending_db ∅)
              (Samples.order30 pending_seller) Samples.channel1 Usdt (Samples.usdt 30) 55)
    as (_ & Hbal & Hst); try reflexivity.
  - intros bal H. vm_compute in H. discriminate.
  - split; [exact Hbal | exact Hst].
Defined.

(** ** The internal order routes *)

Lemma load_order_response who secret header body db order :
  Internal.load_order who secret header body db = Orders.Response order ->
  PyStr.truthy secret = true /\ header = secret
  /\ orders db !! Internal.orderId body = Some order
  /\ who order = Internal.telegramId body.
Proof.
  unfold Internal.load_order, Internal._verify_internal_secret.
  destruct (negb (Internal.valid_body body)); [done|].
  destruct (PyStr.truthy secret); [|done]. simpl.
  destruct (bool_decide (header = secret)) eqn:Hh; [|done].
  apply bool_decide_eq_true in Hh.
  destruct (orders db !! Internal.orderId body) as [o|]; [|done].
  destruct (bool_decide (who o = Internal.telegramId body)) eqn:Hw; [|done].
  apply bool_decide_eq_true in Hw. simpl. intros [= <-]. done.
Qed.

(** X8. The internal seller routes keep processed orders closed.  Each of
    [order_seller_approve], [order_seller_revision] and
    [order_seller_decline] either answers with an error, changing and
    logging nothing, or was called with the configured secret by the seller
    of an existing order that was waiting for the seller; an order that is
    done, cancelled or still being written is never touched, and a missing
    secret in the settings rejects every call. *)
Theorem internal_seller_routes_guarded secret header body now comment db :
  seller_guarded secret header body db
    (Internal.order_seller_approve secret header body now db)
  /\ seller_guarded secret header body db
       (Internal.order_seller_revision secret header body comment db)
  /\ seller_guarded secret header body db
       (Internal.order_seller_decline secret header body db).
Proof.
  assert (Hst : forall st : OrderStatus,
             negb (bool_decide (st = pending_seller)) = false -> st = pending_seller).
  { intros st H. apply negb_false_iff, bool_decide_eq_true in H. done. }
  split; [|split].
  - unfold Internal.order_seller_approve.
    destruct (Internal.load_order _ _ _ _ _) as [order|code] eqn:Hl; [|done].
    destruct (negb (bool_decide (status order = pending_seller))) eqn:Hs; [done|].
    destruct (OrderPayment.release_to_seller _ _) as [db2 ok].
    apply load_order_response in Hl as (H1 & H2 & H3 & H4).
    simpl. eauto 10.
  - unfold Internal.order_seller_revision.
    destruct (negb (_ && _)); [done|].
    destruct (Internal.load_order _ _ _ _ _) as [order|code] eqn:Hl; [|done].
    destruct (negb (bool_decide (status order = pending_seller))) eqn:Hs; [done|].
    apply load_order_response in Hl as (H1 & H2 & H3 & H4).
    simpl. eauto 10.
  - unfold Internal.order_seller_decline.
    destruct (Internal.load_order _ _ _ _ _) as [order|code] eqn:Hl; [|done].
    destruct (negb (bool_decide (status order = pending_seller))) eqn:Hs; [done|].
    destruct (OrderPayment.refund_to_buyer _ _) as [db2 ok].
    apply load_order_response in Hl as (H1 & H2 & H3 & H4).
    simpl. eauto 10.
Qed.

Lemma load_order_ok who secret body db order :
  PyStr.truthy secret = true ->
  1 <= Internal.orderId body -> 1 <= Internal.telegramId body ->
  orders db !! Internal.orderId body = Some order ->
  who order = Internal.telegramId body ->
  Internal.load_order who secret secret body db = Orders.Response order.
Proof.
  intros Hs Ho Ht Hord Hw.
  unfold Internal.load_order, Internal.valid_body, Internal._verify_internal_secret.
  rewrite (proj2 (Z.leb_le _ _) Ho), (proj2 (Z.leb_le _ _) Ht), Hs, Hord. simpl.
  rewrite !bool_decide_eq_true_2 by done. done.
Qed.

(** X9. A decline refunds once.  When the seller declines, with the right
    secret, an order waiting for him whose amount is covered by the buyer's
    frozen balance, the order becomes cancelled and the amount moves back
    from the buyer's frozen to his available balance; declining the same
    order again is answered 400 and changes nothing. *)
Theorem internal_decline_refunds_once secret body db order cur amt bal :
  PyStr.truthy secret = true ->
  1 <= Internal.orderId body -> 1 <= Internal.telegramId body ->
  orders db !! Internal.orderId body = Some order ->
  seller_telegram_id order = Internal.telegramId body ->
  status order = pending_seller ->
  payment_currency order = Some cur -> payment_amount order = Some amt ->
  user_balances db !! (buyer_telegram_id order, cur) = Some bal ->
  amt <= frozen bal ->
  let db1 := run_db (Internal.order_seller_decline secret secret body) db in
  run_val (Internal.order_seller_decline secret secret body) db = Orders.Response tt
  /\ (status <$> (orders db1 !! Internal.orderId body)) = Some cancelled
  /\ user_balances db1
     = <[(buyer_telegram_id order, cur) :=
           mkUserBalance (available bal + amt) (frozen bal - amt)
             (total_deposited bal) (total_withdrawn bal)]> (user_balances db)
  /\ Internal.order_seller_decline secret secret body db1
     = (Orders.HTTPException 400, db1, []).
Proof.
  intros Hs Ho Ht Hord Hsel Hst Hcur Hamt Hbal Hle db1. subst db1.
  unfold run_val, run_db.
  assert (Heq : Internal.order_seller_decline secret secret body db
                = (Orders.Response tt,
                   with_balances
                     (with_orders db
                        (<[Internal.orderId body := set_status order cancelled]> (orders db)))
                     (<[(buyer_telegram_id order, cur) :=
                          mkUserBalance (available bal + amt) (frozen bal - amt)
                            (total_deposited bal) (total_withdrawn bal)]>
                        (user_balances db)),
                   [OrderStatusCommitted (Internal.orderId body) cancelled;
                    RefundCalled (Internal.orderId body) true])).
  { unfold Internal.order_seller_decline.
    rewrite (load_order_ok _ secret body db order Hs Ho Ht Hord Hsel), Hst.
    rewrite bool_decide_eq_true_2 by done. simpl.
    unfold OrderPayment.refund_to_buyer. simpl.
    rewrite lookup_insert_eq. simpl. rewrite Hcur, Hamt, Hbal.
    replace (frozen bal <? amt) with false by (symmetry; apply Z.ltb_ge; lia).
    done. }
  rewrite Heq. simpl. rewrite lookup_insert_eq.
  repeat (split; [done|]).
  unfold Internal.order_seller_decline.
  erewrite load_order_ok; [| done | done | done | simpl; apply lookup_insert_eq | done].
  done.
Qed.

Lemma internal_decline_refunds_once_witness :
  user_balances
    (run_db (Internal.order_seller_decline (Some (lit "s3cret")) (Some (lit "s3cret"))
               (Internal.mkOrderIn 1 200)) Samples.pending_db) !! (100, Usdt)
  = Some (mkUserBalance (Samples.usdt 100) 0 (Samples.usdt 100) 0).
Proof.
  destruct (internal_decline_refunds_once (Some (lit "s3cret")) (Internal.mkOrderIn 1 200)
              Samples.pending_db (Samples.order30 pending_seller) Usdt (Samples.usdt 30)
              (mkUserBalance (Samples.usdt 70) (Samples.usdt 30) (Samples.usdt 100) 0))
    as (_ & _ & Hbal & _);
    [first [reflexivity | (simpl; lia) | (unfold Samples.usdt; simpl; lia)] .. |].
  rewrite Hbal. reflexivity.
Defined.

(** X10. The life of an order through the HTTP routes.  After
    [create_order] answered an id, the buyer stores the post
    ([order_post_update]) and submits it ([order_post_approve]) and the
    seller approves ([order_seller_approve]), every call is answered, the order
    is done with the stored text, and in total the buyer's available balance
    went down by the order's amount, his frozen balance is back to what it
    was and the seller's available balance went up by the amount. *)
Theorem order_lifecycle_pays body u token db db1 id secret text now :
  PyStr.truthy secret = true ->
  1 <= u -> 1 <= orders_seq db ->
  (forall channel, channels db !! Orders.channelId body = Some channel ->
                   1 <= owner_telegram_id channel) ->
  (forall bal, user_balances db !! (u, Orders.currency body) = Some bal -> 0 <= frozen bal) ->
  Orders.create_order body u token db = (db1, Orders.Response id) ->
  exists seller amt bal,
    user_balances db !! (u, Orders.currency body) = Some bal
    /\ seller <> u
    /\ let db2 := run_db (Internal.order_post_update secret secret
                            (Internal.mkOrderIn id u) (Some text) None) db1 in
       let db3 := run_db (Internal.order_post_approve secret secret
                            (Internal.mkOrderIn id u)) db2 in
       let db4 := run_db (Internal.order_seller_approve secret secret
                            (Internal.mkOrderIn id seller) now) db3 in
       run_val (Internal.order_post_update secret secret
                  (Internal.mkOrderIn id u) (Some text) None) db1 = Orders.Response tt
       /\ run_val (Internal.order_post_approve secret secret
                     (Internal.mkOrderIn id u)) db2 = Orders.Response seller
       /\ run_val (Internal.order_seller_approve secret secret
                     (Internal.mkOrderIn id seller) now) db3 = Orders.Response u
       /\ orders db4 !! id
          = Some (mkOrder (Orders.channelId body) (Orders.formatId body) u seller done_
                    (Some (Orders.currency body)) (Some amt) (Some text) None
                    (Some token) None (Some now) None None None)
       /\ user_balances db4 !! (u, Orders.currency body)
          = Some (mkUserBalance (available bal - amt) (frozen bal)
                    (total_deposited bal) (total_withdrawn bal))
       /\ user_balances db4 !! (seller, Orders.currency body)
          = Some (match user_balances db !! (seller, Orders.currency body) with
                  | Some s => mkUserBalance (available s + amt) (frozen s)
                                (total_deposited s) (total_withdrawn s)
                  | None => mkUserBalance amt 0 0 0
                  end).
Proof.
  intros Hs Hu Hseq Hown Hfrozen Hcreate.
  destruct (create_order_response body u token db db1 id Hcreate)
    as (-> & _ & _ & seller & amt & bal & Hne & Hch & Hord & Hbal & Hle & Hbals).
  assert (Hseller : 1 <= seller).
  { destruct (channels db !! Orders.channelId body) as [channel|] eqn:Hc; [|done].
    injection Hch as <-. by apply Hown. }
  specialize (Hfrozen bal Hbal).
  exists seller, amt, bal. split; [done|]. split; [done|].
  set (id := orders_seq db) in *.
  set (o0 := mkOrder _ _ _ _ writing_post _ _ None None _ _ _ _ _ _) in Hord.
  cbv zeta. unfold run_db, run_val.
  (* order_post_update *)
  unfold Internal.order_post_update.
  rewrite (load_order_ok buyer_telegram_id secret (Internal.mkOrderIn id u) db1 o0)
    by done.
  simpl.
  (* order_post_approve *)
  unfold Internal.order_post_approve.
  erewrite (load_order_ok buyer_telegram_id secret (Internal.mkOrderIn id u));
    [| done | done | done | simpl; apply lookup_insert_eq | done].
  simpl. rewrite insert_insert_eq.
  (* order_seller_approve *)
  unfold Internal.order_seller_approve.
  erewrite (load_order_ok seller_telegram_id secret (Internal.mkOrderIn id seller));
    [| done | done | done | simpl; apply lookup_insert_eq | done].
  simpl. rewrite insert_insert_eq.
  match goal with
  | |- context [OrderPayment.release_to_seller id (with_orders ?d0 (<[id := ?o]> ?m))] =>
      set (o4 := o); set (d4 := with_orders d0 (<[id := o4]> m))
  end.
  destruct (release_pays id d4 o4 (Orders.currency body) amt
              (mkUserBalance (available bal - amt) (frozen bal + amt)
                 (total_deposited bal) (total_withdrawn bal)))
    as (Hok & Hbuyer & Hsel);
    [first [ done
           | (unfold d4; simpl; apply lookup_insert_eq)
           | (simpl; congruence)
           | (unfold d4; simpl; rewrite Hbals; apply lookup_insert_eq)
           | (simpl; lia) ] .. |].
  destruct (release_keeps_orders id d4) as [Hkeep _].
  destruct (OrderPayment.release_to_seller id d4) as [db4 ok]. cbn [fst snd] in *.
  repeat (split; [done|]).
  rewrite Hkeep. unfold d4 at 1. simpl. rewrite lookup_insert_eq.
  change (buyer_telegram_id o4) with u in Hbuyer.
  change (seller_telegram_id o4) with seller in Hsel.
  split; [done|]. split.
  - rewrite Hbuyer. simpl. do 2 f_equal. lia.
  - rewrite Hsel. unfold d4. simpl. rewrite Hbals.
    rewrite lookup_insert_ne by congruence. done.
Qed.

Lemma order_lifecycle_pays_witness :
  exists seller amt bal,
    user_balances Samples.funded_db !! (100, Usdt) = Some bal
    /\ seller <> 100
    /\ user_balances
         (run_db (Internal.order_seller_approve (Some (lit "s3cret")) (Some (lit "s3cret"))
                    (Internal.mkOrderIn 1 seller) 1700000000)
            (run_db (Internal.order_post_approve (Some (lit "s3cret")) (Some (lit "s3cret"))
                       (Internal.mkOrderIn 1 100))
               (run_db (Internal.order_post_update (Some (lit "s3cret"))
                          (Some (lit "s3cret")) (Internal.mkOrderIn 1 100)
                          (Some (lit "Buy now")) None)
                  (fst (Orders.create_order Samples.order_usdt 100 Samples.token
                          Samples.funded_db)))))
         !! (seller, Usdt)
       = Some (mkUserBalance amt 0 0 0).
Proof.
  destruct (order_lifecycle_pays Samples.order_usdt 100 Samples.token Samples.funded_db
              (fst (Orders.create_order Samples.order_usdt 100 Samples.token
                      Samples.funded_db))
              1 (Some (lit "s3cret")) (lit "Buy now") 1700000000)
    as (seller & amt & bal & Hbal & Hne & _ & _ & _ & _ & _ & Hseller).
  - reflexivity.
  - lia.
  - simpl. lia.
  - intros channel H. vm_compute in H. injection H as <-. simpl. lia.
  - intros b H. vm_compute in H. injection H as <-. simpl. lia.
  - reflexivity.
  - exists seller, amt, bal. split; [exact Hbal|]. split; [exact Hne|].
    change (Orders.currency Samples.order_usdt) with Usdt in Hseller.
    rewrite Hseller.
    assert (Hnone : user_balances Samples.funded_db !! (seller, Usdt) = None).
    { destruct (decide (seller = 100)) as [->|Hs]; [done|].
      change (user_balances Samples.funded_db)
        with ({[ (100, Usdt) := mkUserBalance (Samples.usdt 100) 0 (Samples.usdt 100) 0 ]}
              : gmap (Z * Currency) UserBalance).
      apply lookup_singleton_ne. congruence. }
    by rewrite Hnone.
Defined.

(** ** The withdrawal senders *)

Lemma usdt_tx_eta tx : UsdtWithdraw.set_tx_hash tx (tx_hash tx) = tx.
Proof. by destruct tx. Qed.

(** One row: completed, or failed and refunded, whatever the chain does. *)
Lemma usdt_process_row_cases chain our_wallet i db tx :
  usdt_transactions db !! i = Some tx ->
  exists h log,
    UsdtWithdraw.process_row chain our_wallet i db
    = (true,
       UsdtWithdraw.store_tx i
         (UsdtWithdraw.set_tx_status (UsdtWithdraw.set_tx_hash tx h) completed) db,
       log)
    \/ UsdtWithdraw.process_row chain our_wallet i db
       = (false, UsdtWithdraw.fail_and_refund i (UsdtWithdraw.set_tx_hash tx h) db, log).
Proof.
  intros Htx. unfold UsdtWithdraw.process_row. rewrite Htx.
  destruct (_ || _).
  { exists (tx_hash tx), []. right. by rewrite usdt_tx_eta. }
  destruct (user_balances db !! _) as [bal|];
    [|exists (tx_hash tx), []; right; by rewrite usdt_tx_eta].
  destruct (available bal <? 0);
    [exists (tx_hash tx), []; right; by rewrite usdt_tx_eta|].
  destruct (UsdtWithdraw.send_jetton chain tx);
    [|exists (tx_hash tx), []; right; by rewrite usdt_tx_eta].
  set (h := match our_wallet with [] => None | _ => UsdtWithdraw.fetch_tx_hash chain tx end).
  destruct (if PyStr.truthy h then _ else None) as [[|]|];
    eexists h, _; [left | right | left]; reflexivity.
Qed.

Lemma usdt_process_row_spec chain our_wallet i db tx :
  usdt_transactions db !! i = Some tx ->
  exists tx',
    settled_from tx tx'
    /\ tx_status tx'
       = (if run_val (UsdtWithdraw.process_row chain our_wallet i) db
          then completed else failed)
    /\ usdt_transactions (run_db (UsdtWithdraw.process_row chain our_wallet i) db)
       = <[i := tx']> (usdt_transactions db)
    /\ user_balances (run_db (UsdtWithdraw.process_row chain our_wallet i) db)
       = (if run_val (UsdtWithdraw.process_row chain our_wallet i) db
          then user_balances db
          else user_balances
                 (UsdtWithdraw._refund_withdrawal (tx_telegram_id tx) (amount tx)
                    UsdtWithdraw.USDT_WITHDRAW_FEE db))
    /\ orders (run_db (UsdtWithdraw.process_row chain our_wallet i) db) = orders db.
Proof.
  intros Htx.
  destruct (usdt_process_row_cases chain our_wallet i db tx Htx) as (h & log & [H | H]);
    unfold run_val, run_db; rewrite H; simpl.
  - exists (UsdtWithdraw.set_tx_status (UsdtWithdraw.set_tx_hash tx h) completed).
    split; [unfold settled_from; simpl; by repeat split; try left|].
    done.
  - exists (UsdtWithdraw.set_tx_status (UsdtWithdraw.set_tx_hash tx h) failed).
    split; [unfold settled_from; simpl; by repeat split; try right|].
    split; [done|].
    unfold UsdtWithdraw.fail_and_refund, UsdtWithdraw._refund_withdrawal,
      UsdtWithdraw.store_tx. simpl.
    by destruct (user_balances db !! (tx_telegram_id tx, Usdt)).
Qed.

Lemma usdt_process_rows_spec chain our_wallet rows :
  forall db,
    NoDup rows ->
    (forall i, i ∈ rows -> is_Some (usdt_transactions db !! i)) ->
    let db' := run_db (UsdtWithdraw.process_rows chain our_wallet rows) db in
    length (usdt_transactions db') = length (usdt_transactions db)
    /\ (forall i, i ∉ rows -> usdt_transactions db' !! i = usdt_transactions db !! i)
    /\ (forall i, i ∈ rows ->
          exists tx tx', usdt_transactions db !! i = Some tx
                         /\ usdt_transactions db' !! i = Some tx'
                         /\ settled_from tx tx')
    /\ run_val (UsdtWithdraw.process_rows chain our_wallet rows) db
       = completed_among db' rows
    /\ orders db' = orders db.
Proof.
  induction rows as [|i rest IH]; intros db Hnd Hrows db'.
  { subst db'. unfold run_db, run_val, completed_among. simpl.
    repeat split; try done. intros i Hi. by apply elem_of_nil in Hi. }
  apply NoDup_cons in Hnd as [Hi Hnd].
  destruct (Hrows i) as [tx Htx]; [by left|].
  destruct (usdt_process_row_spec chain our_wallet i db tx Htx)
    as (tx1 & Hset & Hst & Htxs & _ & Hord).
  subst db'. unfold run_db, run_val in *. simpl. unfold bind.
  destruct (UsdtWithdraw.process_row chain our_wallet i db) as [[ok db1] l1].
  simpl in Hst, Htxs, Hord.
  assert (Hrows1 : forall j, j ∈ rest -> is_Some (usdt_transactions db1 !! j)).
  { intros j Hj. rewrite Htxs, list_lookup_insert_ne by (intros ->; done).
    apply Hrows. by right. }
  specialize (IH db1 Hnd Hrows1). simpl in IH.
  destruct (UsdtWithdraw.process_rows chain our_wallet rest db1) as [[n db2] l2].
  simpl in *. destruct IH as (Hlen & Hout & Hin & Hn & Hord2).
  assert (Hi2 : usdt_transactions db2 !! i = Some tx1).
  { rewrite (Hout i Hi), Htxs. apply list_lookup_insert_eq.
    by apply lookup_lt_Some in Htx. }
  split; [by rewrite Hlen, Htxs, length_insert|]. split; [|split; [|split]].
  - intros j Hj. apply not_elem_of_cons in Hj as [Hji Hj].
    rewrite (Hout j Hj), Htxs. by apply list_lookup_insert_ne.
  - intros j Hj. apply elem_of_cons in Hj as [-> | Hj].
    + by exists tx, tx1.
    + destruct (Hin j Hj) as (t & t' & Ht & Ht' & Hs).
      exists t, t'. split; [|done].
      rewrite Htxs, list_lookup_insert_ne in Ht by (intros ->; done). done.
  - unfold completed_among in *. simpl. rewrite Hi2. simpl. rewrite Hst, Hn.
    destruct ok; simpl; lia.
  - congruence.
Qed.

(** Positions and rows of a table, as the queries pair them. *)
Lemma elem_of_indexed {A} (l : list A) s i x :
  (i, x) ∈ combine (seq s (length l)) l <-> (s <= i)%nat /\ l !! (i - s)%nat = Some x.
Proof.
  revert s. induction l as [|y l IH]; intros s; simpl.
  - split; [intros H; by apply elem_of_nil in H | by intros [_ H]].
  - rewrite elem_of_cons, IH. split.
    + intros [[= -> ->] | [Hle Hl]].
      * split; [lia|]. by rewrite Nat.sub_diag.
      * split; [lia|]. by replace (i - s)%nat with (S (i - S s)) by lia.
    + intros [Hle Hl]. destruct (decide (i = s)) as [-> | Hne].
      * left. rewrite Nat.sub_diag in Hl. simpl in Hl. congruence.
      * right. split; [lia|].
        by replace (i - s)%nat with (S (i - S s)) in Hl by lia.
Qed.

Lemma indexed_fst_sublist {A} (p : nat * A -> bool) (l : list A) s :
  List.map fst (List.filter p (combine (seq s (length l)) l)) `sublist_of` seq s (length l).
Proof.
  revert s. induction l as [|y l IH]; intros s; simpl; [done|].
  destruct (p (s, y)); simpl.
  - by apply sublist_skip.
  - by apply sublist_cons.
Qed.

Lemma usdt_pending_rows_spec db :
  NoDup (UsdtWithdraw.pending_rows db)
  /\ (length (UsdtWithdraw.pending_rows db) <= 10)%nat
  /\ (forall i, i ∈ UsdtWithdraw.pending_rows db ->
        exists tx, usdt_transactions db !! i = Some tx
                   /\ tx_type tx = withdrawal /\ tx_status tx = pending)
  /\ ((length (UsdtWithdraw.pending_rows db) < 10)%nat ->
      forall i tx, usdt_transactions db !! i = Some tx ->
                   tx_type tx = withdrawal -> tx_status tx = pending ->
                   i ∈ UsdtWithdraw.pending_rows db).
Proof.
  unfold UsdtWithdraw.pending_rows.
  set (p := fun it : nat * UsdtTransaction =>
              bool_decide (tx_type (snd it) = withdrawal)
              && bool_decide (tx_status (snd it) = pending)).
  set (all := List.map fst
                (List.filter p (combine (seq 0 (length (usdt_transactions db)))
                                  (usdt_transactions db)))).
  assert (Hall : forall i, i ∈ all <->
            exists tx, usdt_transactions db !! i = Some tx
                       /\ tx_type tx = withdrawal /\ tx_status tx = pending).
  { intros i. unfold all. rewrite list_elem_of_In, in_map_iff. split.
    - intros ([j tx] & Hj & Hin). simpl in Hj. subst j.
      apply filter_In in Hin as [Hin Hp].
      apply list_elem_of_In, elem_of_indexed in Hin as [_ Hl].
      rewrite Nat.sub_0_r in Hl. unfold p in Hp. simpl in Hp.
      apply andb_prop in Hp as [H1 H2].
      apply bool_decide_eq_true in H1, H2. by exists tx.
    - intros (tx & Hl & H1 & H2). exists (i, tx). split; [done|].
      apply filter_In. split.
      + apply list_elem_of_In, elem_of_indexed. split; [lia|].
        by rewrite Nat.sub_0_r.
      + unfold p. simpl. by rewrite !bool_decide_eq_true_2. }
  split; [|split; [|split]].
  - apply (sublist_NoDup _ all); [|apply sublist_take].
    apply (sublist_NoDup _ (seq 0 (length (usdt_transactions db))));
      [apply NoDup_seq | apply indexed_fst_sublist].
  - rewrite length_take. lia.
  - intros i Hi. apply Hall. apply elem_of_take in Hi as (j & Hj & _).
    apply list_elem_of_lookup. by exists j.
  - intros Hlt i tx Hl H1 H2. rewrite length_take in Hlt.
    rewrite take_ge by lia. apply Hall. by exists tx.
Qed.

(** X11. One run of the USDT sender.  Without a key nothing happens.  With
    a key, the run takes at most ten rows, the pending withdrawals; it leaves
    each of them completed or failed, never pending, with the request (user,
    amount, address, identifier) as it was; it touches no other row and no
    order; it returns the number of rows it completed; and when fewer than
    ten were pending, none is pending afterwards. *)
Theorem usdt_sender_run_settles chain our_wallet db :
  UsdtWithdraw.process_pending_withdrawals false chain our_wallet db = (0, db, [])
  /\ let rows := UsdtWithdraw.pending_rows db in
     let db' := run_db (UsdtWithdraw.process_pending_withdrawals true chain our_wallet) db in
     (length rows <= 10)%nat
     /\ length (usdt_transactions db') = length (usdt_transactions db)
     /\ (forall i, i ∈ rows ->
           exists tx tx', usdt_transactions db !! i = Some tx
                          /\ tx_type tx = withdrawal /\ tx_status tx = pending
                          /\ usdt_transactions db' !! i = Some tx'
                          /\ settled_from tx tx')
     /\ (forall i, i ∉ rows -> usdt_transactions db' !! i = usdt_transactions db !! i)
     /\ run_val (UsdtWithdraw.process_pending_withdrawals true chain our_wallet) db
        = completed_among db' rows
     /\ orders db' = orders db
     /\ ((length rows < 10)%nat -> UsdtWithdraw.pending_rows db' = []).
Proof.
  split; [done|]. intros rows db'.
  destruct (usdt_pending_rows_spec db) as (Hnd & Hlen & Hsel & Hall).
  fold rows in Hnd, Hlen, Hsel, Hall.
  assert (Hsome : forall i, i ∈ rows -> is_Some (usdt_transactions db !! i)).
  { intros i Hi. destruct (Hsel i Hi) as (tx & -> & _). by eexists. }
  pose proof (usdt_process_rows_spec chain our_wallet rows db Hnd Hsome) as Hrun.
  assert (Heq : UsdtWithdraw.process_pending_withdrawals true chain our_wallet db
                = UsdtWithdraw.process_rows chain our_wallet rows db).
  { unfold UsdtWithdraw.process_pending_withdrawals, bind, get_db. simpl. fold rows.
    by destruct (UsdtWithdraw.process_rows chain our_wallet rows db) as [[n d] l]. }
  subst db'. unfold run_db, run_val in *. rewrite Heq.
  cbv zeta in Hrun. destruct Hrun as (Hl & Hout & Hin & Hn & Hord).
  split; [done|]. split; [done|]. split; [|split; [done|split; [done|split; [done|]]]].
  - intros i Hi. destruct (Hin i Hi) as (tx & tx' & Ht & Ht' & Hs).
    destruct (Hsel i Hi) as (tx0 & Ht0 & H1 & H2).
    rewrite Ht in Ht0. injection Ht0 as <-. by exists tx, tx'.
  - intros Hlt. apply elem_of_nil_inv. intros i Hi.
    destruct (usdt_pending_rows_spec
                (snd (fst (UsdtWithdraw.process_rows chain our_wallet rows db))))
      as (_ & _ & Hsel' & _).
    destruct (Hsel' i Hi) as (tx' & Ht' & H1 & H2).
    destruct (decide (i ∈ rows)) as [Hr | Hr].
    + destruct (Hin i Hr) as (t & t' & _ & Ht2 & Hs).
      rewrite Ht' in Ht2. injection Ht2 as <-.
      destruct Hs as (_ & _ & _ & _ & _ & [Hs | Hs]); congruence.
    + rewrite (Hout i Hr) in Ht'. apply Hr. by apply (Hall Hlt i tx').
Qed.

Lemma numeric9_id x : numeric9 x = x.
Proof. apply numeric_exact; [lia|]. apply Z.mod_1_r. Qed.

(** X12. A TON withdrawal is refunded or stays pending.  An accepted
    [ton_withdraw] of an amount with at most eight decimals, on a balance row
    held at eight decimals, debits the amount plus the 0.15 TON fee and
    appends a pending row.  When the sender then processes that row, either
    it gives the row up (the address is shorter than 40 characters or
    [pytoniq] is missing): the row is failed and the whole balance table is
    exactly what it was before the request; or [pytoniq] is installed and the
    conversion of the amount raises: the database is left as the request left
    it, the row pending and the balance debited.  The row is never
    completed. *)
Theorem ton_withdrawal_refunded_or_stuck amt u wd_id wallets db db1 chain our_wallet :
  TonWallets.ton_withdraw amt u wd_id wallets db = (db1, Orders.Response pending) ->
  at_scale 10 amt ->
  (forall bal, user_balances db !! (u, Ton) = Some bal ->
               at_scale 10 (available bal) /\ at_scale 10 (total_withdrawn bal)) ->
  let i := length (ton_withdrawals db) in
  let r := run_val (TonWithdraw.process_row chain our_wallet i) db1 in
  let db2 := run_db (TonWithdraw.process_row chain our_wallet i) db1 in
  exists bal,
    user_balances db !! (u, Ton) = Some bal
    /\ amt + TonWallets.TON_WITHDRAW_FEE <= available bal
    /\ user_balances db1
       = <[(u, Ton) :=
             mkUserBalance (available bal - (amt + TonWallets.TON_WITHDRAW_FEE))
               (frozen bal) (total_deposited bal)
               (total_withdrawn bal + (amt + TonWallets.TON_WITHDRAW_FEE))]>
           (user_balances db)
    /\ (tw_status <$> (ton_withdrawals db1 !! i)) = Some pending
    /\ (tw_amount <$> (ton_withdrawals db1 !! i)) = Some amt
    /\ ((r = Returned false
         /\ (tw_status <$> (ton_withdrawals db2 !! i)) = Some failed
         /\ user_balances db2 = user_balances db)
        \/ (r = Raised
            /\ TonWithdraw.pytoniq_installed chain = true
            /\ db2 = db1)).
Proof.
  intros Hreq Hamt Hscale i r db2. subst r db2.
  unfold TonWallets.ton_withdraw in Hreq.
  destruct (negb _); [done|].
  destruct (TonWallets.withdraw_wallet u wallets) as [conn|]; [|done].
  destruct (w_address conn) as [|c addr]; [done|].
  destruct (user_balances db !! (u, Ton)) as [bal|] eqn:Hbal; [|done].
  destruct (available bal <? amt + TonWallets.TON_WITHDRAW_FEE) eqn:Hav; [done|].
  destruct (TonWallets.has_ton_event_id wd_id (ton_withdrawals db)); [done|].
  apply Z.ltb_ge in Hav.
  destruct (Hscale bal eq_refl) as [Hsa Hsw].
  assert (Hfee : at_scale 10 TonWallets.TON_WITHDRAW_FEE) by reflexivity.
  assert (Htot : at_scale 10 (amt + TonWallets.TON_WITHDRAW_FEE))
    by (by apply at_scale_add).
  rewrite numeric9_id in Hreq. unfold numeric8 in Hreq.
  rewrite !(numeric_exact 10) in Hreq
    by (first [lia | (by apply at_scale_add) | (simpl; by apply at_scale_add)]).
  injection Hreq as <-.
  set (tx := mkTonWithdrawal _ _ _ _ _ _).
  exists bal. split; [done|]. split; [done|]. split; [done|].
  assert (Htx : (ton_withdrawals db ++ [tx]) !! i = Some tx).
  { subst i. by rewrite list_lookup_middle. }
  simpl ton_withdrawals. rewrite Htx. split; [done|]. split; [done|].
  match goal with |- context [run_db _ ?d] => set (db1 := d) end.
  assert (Hrefund :
    (tw_status <$> (ton_withdrawals (TonWithdraw.fail_and_refund i tx db1) !! i))
      = Some failed
    /\ user_balances (TonWithdraw.fail_and_refund i tx db1) = user_balances db).
  { unfold TonWithdraw.fail_and_refund, TonWithdraw._refund_ton_withdrawal,
      TonWithdraw.store_tw.
    subst tx db1. simpl. rewrite lookup_insert_eq. simpl. split.
    - rewrite list_lookup_insert_eq; [done|].
      subst i. rewrite length_app. simpl. lia.
    - rewrite insert_insert_eq. apply insert_id. rewrite Hbal. f_equal.
      destruct bal as [av fr td tw]. unfold set_total_withdrawn, set_available.
      simpl in *.
      change TonWithdraw.TON_WITHDRAW_FEE with TonWallets.TON_WITHDRAW_FEE.
      replace (av - (amt + TonWallets.TON_WITHDRAW_FEE)
               + (amt + TonWallets.TON_WITHDRAW_FEE)) with av by lia.
      replace (tw + (amt + TonWallets.TON_WITHDRAW_FEE)
               - (amt + TonWallets.TON_WITHDRAW_FEE)) with tw by lia.
      unfold numeric8. by rewrite !(numeric_exact 10) by (done || lia). }
  unfold run_val, run_db, TonWithdraw.process_row.
  change (ton_withdrawals db1) with (ton_withdrawals db ++ [tx]). rewrite Htx.
  destruct (_ || _); [left; by split|].
  destruct (negb (match user_balances db1 !! _ with Some _ => _ | None => _ end));
    [left; by split|].
  unfold TonWithdraw._send_ton. simpl negb. cbv iota.
  destruct (TonWithdraw.pytoniq_installed chain); simpl.
  - right. done.
  - left. by split.
Qed.

Lemma ton_withdrawal_refunded_or_stuck_witness :
  user_balances
    (run_db (TonWithdraw.process_row Cases.bare_host (lit "UQ") 0)
       (fst (TonWallets.ton_withdraw (Samples.usdt 2) 100 (lit "ton_wd_1")
               [Cases.wallet1] Cases.ton_db)))
  = user_balances Cases.ton_db
  /\ run_db (TonWithdraw.process_row Samples.ton_chain (lit "UQ") 0)
       (fst (TonWallets.ton_withdraw (Samples.usdt 2) 100 (lit "ton_wd_1")
               [Cases.wallet1] Cases.ton_db))
     = fst (TonWallets.ton_withdraw (Samples.usdt 2) 100 (lit "ton_wd_1")
              [Cases.wallet1] Cases.ton_db).
Proof.
  assert (Hscale : forall bal,
             user_balances Cases.ton_db !! (100, Ton) = Some bal ->
             at_scale 10 (available bal) /\ at_scale 10 (total_withdrawn bal)).
  { intros bal H. vm_compute in H. injection H as <-. split; reflexivity. }
  split.
  - destruct (ton_withdrawal_refunded_or_stuck (Samples.usdt 2) 100 (lit "ton_wd_1")
                [Cases.wallet1] Cases.ton_db
                (fst (TonWallets.ton_withdraw (Samples.usdt 2) 100 (lit "ton_wd_1")
                        [Cases.wallet1] Cases.ton_db))
                Cases.bare_host (lit "UQ") eq_refl eq_refl Hscale)
      as (bal & _ & _ & _ & _ & _ & [(_ & _ & Hbal) | (_ & Hinst & _)]).
    + exact Hbal.
    + discriminate Hinst.
  - destruct (ton_withdrawal_refunded_or_stuck (Samples.usdt 2) 100 (lit "ton_wd_1")
                [Cases.wallet1] Cases.ton_db
                (fst (TonWallets.ton_withdraw (Samples.usdt 2) 100 (lit "ton_wd_1")
                        [Cases.wallet1] Cases.ton_db))
                Samples.ton_chain (lit "UQ") eq_refl eq_refl Hscale)
      as (bal & _ & _ & _ & _ & _ & [(Hr & _ & _) | (_ & _ & Hdb)]).
    + vm_compute in Hr. discriminate Hr.
    + exact Hdb.
Defined.

(** ** The books of the deposit scanner *)

Lemma credit_sums (m : gmap (Z * Currency) UserBalance) k x :
  let m' := <[k := match m !! k with
                   | Some bal => mkUserBalance (available bal + x) (frozen bal)
                                   (total_deposited bal + x) (total_withdrawn bal)
                   | None => mkUserBalance x 0 x 0
                   end]> m in
  balances_sum (fun _ b => available b) m' = balances_sum (fun _ b => available b) m + x
  /\ balances_sum (fun _ b => total_deposited b) m'
     = balances_sum (fun _ b => total_deposited b) m + x
  /\ balances_sum (fun _ b => frozen b) m' = balances_sum (fun _ b => frozen b) m
  /\ balances_sum (fun _ b => total_withdrawn b) m'
     = balances_sum (fun _ b => total_withdrawn b) m.
Proof.
  cbv zeta. destruct (m !! k) as [bal|] eqn:Hk.
  - rewrite !(balances_sum_insert _ m k bal) by done. simpl. repeat split; lia.
  - rewrite !balances_sum_insert_fresh by done. simpl. repeat split; lia.
Qed.

Section DepositBooks.

Variable str_other : pyval -> pystr.
Variable usdt_amount : pyval -> DecimalResult.
Variable isdigit : pystr -> bool.
Variable int_of : pystr -> option Z.

Abbreviation scan_event' := (UsdtDeposit.scan_event str_other usdt_amount isdigit int_of).
Abbreviation scan_events' := (UsdtDeposit.scan_events str_other usdt_amount isdigit int_of).
Abbreviation scan_deposits' :=
  (UsdtDeposit.scan_usdt_deposits str_other usdt_amount isdigit int_of).

Lemma parsed_amount_positive action amt m :
  UsdtDeposit._parse_jetton_transfer str_other usdt_amount action = Returned (Some (amt, m)) ->
  0 < amt.
Proof.
  unfold UsdtDeposit._parse_jetton_transfer.
  destruct (negb _); [done|].
  destruct (UsdtDeposit.py_or _ _) as [| | |jt|]; try done.
  destruct (UsdtDeposit.get jt "amount"); try done;
    (destruct (usdt_amount _) as [a| |]; try done;
     destruct (a <=? 0) eqn:Ha; [done|]; apply Z.leb_gt in Ha;
     intros [= <- _]; done).
Qed.

Lemma first_usable_positive actions t a :
  UsdtDeposit.first_usable str_other usdt_amount isdigit int_of actions
    = Returned (Some (t, a)) ->
  0 < a.
Proof.
  induction actions as [|act rest IH]; [done|].
  destruct act as [|s|z|action|l]; try done. simpl.
  unfold UsdtDeposit.usable.
  destruct (UsdtDeposit._parse_jetton_transfer str_other usdt_amount action)
    as [[[amt [m|]]|]|] eqn:Hp; try done.
  destruct (isdigit m); [|done].
  destruct (int_of m); [|done].
  intros [= <- <-]. by apply parsed_amount_positive in Hp.
Qed.

(** What one event does to the books. *)
Lemma scan_event_effect ev db :
  (exists r, scan_event' ev db = (r, db, []) /\ (r = Raised \/ r = Returned false))
  \/ exists t,
       deposit_row t
       /\ scan_event' ev db
          = (Returned true,
             with_usdt_transactions
               (with_balances db
                  (<[(tx_telegram_id t, Usdt) :=
                       match user_balances db !! (tx_telegram_id t, Usdt) with
                       | Some bal =>
                           mkUserBalance (available bal + amount t) (frozen bal)
                             (total_deposited bal + amount t) (total_withdrawn bal)
                       | None => mkUserBalance (amount t) 0 (amount t) 0
                       end]> (user_balances db)))
               (usdt_transactions db ++ [t]),
             [credit_notice t]).
Proof.
  rewrite (scan_event_eq str_other usdt_amount isdigit int_of).
  destruct (UsdtDeposit.unique_id_of str_other ev) as [uid|] eqn:Hid; [|left; eauto].
  destruct (Wallet.has_event_id uid (usdt_transactions db)) eqn:Hrec; [left; eauto|].
  destruct (UsdtDeposit.actions_of ev) as [actions|]; [|left; eauto].
  rewrite (scan_actions_eq str_other usdt_amount isdigit int_of).
  destruct (UsdtDeposit.first_usable str_other usdt_amount isdigit int_of actions)
    as [[[t a]|]|] eqn:Hfirst; [|left; eauto..].
  destruct (fits_bigint t) eqn:Hfit.
  2:{ rewrite (credit_usdt_unfit t a uid db Hfit). left; eauto. }
  right. exists (mkUsdtTransaction uid t a None None deposit completed None). split.
  - split; [done|]. split; [done|]. split; [by apply first_usable_positive in Hfirst|].
    unfold UsdtDeposit.unique_id_of in Hid.
    destruct (UsdtDeposit.truthy _); [|done]. injection Hid as <-. by eexists.
  - unfold UsdtDeposit._credit_usdt. rewrite Hfit, Hrec. simpl.
    by destruct (user_balances db !! (t, Usdt)).
Qed.

Lemma scan_events_effect events :
  forall db,
  exists new,
    usdt_transactions (run_db (scan_events' events) db) = usdt_transactions db ++ new
    /\ Forall deposit_row new
    /\ run_log (scan_events' events) db = credit_notice <$> new
    /\ (forall n, run_val (scan_events' events) db = Returned n ->
                  n = Z.of_nat (length new))
    /\ orders (run_db (scan_events' events) db) = orders db
    /\ ton_withdrawals (run_db (scan_events' events) db) = ton_withdrawals db
    /\ balances_sum (fun _ b => available b) (user_balances (run_db (scan_events' events) db))
       = balances_sum (fun _ b => available b) (user_balances db) + amounts new
    /\ balances_sum (fun _ b => total_deposited b)
         (user_balances (run_db (scan_events' events) db))
       = balances_sum (fun _ b => total_deposited b) (user_balances db) + amounts new
    /\ balances_sum (fun _ b => frozen b) (user_balances (run_db (scan_events' events) db))
       = balances_sum (fun _ b => frozen b) (user_balances db)
    /\ (forall k b, user_balances db !! k = Some b ->
          exists b', user_balances (run_db (scan_events' events) db) !! k = Some b'
                     /\ credited_from k b b').
Proof.
  assert (Hrefl : forall k b, credited_from k b b).
  { intros k b. unfold credited_from. repeat split; lia. }
  induction events as [|ev rest IH]; intros db.
  { exists []. unfold run_db, run_log, run_val. simpl. rewrite app_nil_r.
    repeat split; try done; try lia.
    - intros n [= <-]. done.
    - intros k b Hk. exists b. split; [done|]. apply Hrefl. }
  unfold run_db, run_log, run_val in *. simpl. unfold bind.
  destruct (scan_event_effect ev db) as [(r & -> & [-> | ->]) | (t & Hrow & ->)].
  - exists []. simpl. rewrite app_nil_r.
    repeat split; try done; try lia.
    intros k b Hk. exists b. split; [done|]. apply Hrefl.
  - destruct (IH db) as (new & H1 & H2 & H3 & H4 & H5 & H6 & H7 & H8 & H9 & H10).
    destruct (scan_events' rest db) as [[n db1] l1]. simpl in *.
    rewrite app_nil_r.
    exists new. repeat (split; [done|]). split; [|by repeat split].
    intros k Hk. destruct n as [j|]; [|done]. injection Hk as <-.
    rewrite <- (H4 j eq_refl). lia.
  - match goal with |- context [scan_events' rest ?d] => set (db1 := d) end.
    destruct (IH db1) as (new & H1 & H2 & H3 & H4 & H5 & H6 & H7 & H8 & H9 & H10).
    destruct (scan_events' rest db1) as [[n db2] l1]. simpl in *.
    rewrite app_nil_r.
    destruct (credit_sums (user_balances db) (tx_telegram_id t, Usdt) (amount t))
      as (S1 & S2 & S3 & _).
    exists (t :: new). split; [by rewrite H1, <- app_assoc|].
    split; [by constructor|]. split; [by rewrite H3|]. split.
    { intros k Hk. destruct n as [j|]; [|done]. injection Hk as <-.
      rewrite (H4 j eq_refl). simpl length. lia. }
    split; [done|]. split; [done|].
    split; [rewrite H7, S1; simpl; lia|].
    split; [rewrite H8, S2; simpl; lia|].
    split; [rewrite H9, S3; done|].
    intros k b Hk.
    assert (Hmid : exists b1, user_balances db1 !! k = Some b1 /\ credited_from k b b1).
    { subst db1. simpl. rewrite lookup_insert.
      destruct (decide ((tx_telegram_id t, Usdt) = k)) as [<- | Hne].
      - rewrite Hk. eexists. split; [done|].
        destruct Hrow as (_ & _ & Hpos & _).
        unfold credited_from. simpl. repeat split; try lia. done.
      - exists b. split; [done|]. apply Hrefl. }
    destruct Hmid as (b1 & Hb1 & Hc1).
    destruct (H10 k b1 Hb1) as (b2 & Hb2 & Hc2).
    exists b2. split; [done|].
    destruct Hc1 as (A1 & A2 & A3 & A4 & A5), Hc2 as (B1 & B2 & B3 & B4 & B5).
    unfold credited_from. repeat split; try lia; try congruence.
    intros Hcur. rewrite (B5 Hcur). by apply A5.
Qed.

(** X13. The books of a deposit scan.  Whatever the feed holds, a scan only
    appends to [usdt_transactions]; every appended row is a completed deposit
    of a positive amount under an identifier that starts with [usdt_]; one
    notice is sent per appended row, to the credited user and for the credited
    amount, in the same order; the number the scan returns is the number of
    rows it appended; orders and TON withdrawals are not touched. *)
Theorem deposit_scan_bookkeeping events db :
  exists new,
    usdt_transactions (run_db (scan_deposits' events) db) = usdt_transactions db ++ new
    /\ Forall deposit_row new
    /\ run_log (scan_deposits' events) db = credit_notice <$> new
    /\ (forall n, run_val (scan_deposits' events) db = Returned n ->
                  n = Z.of_nat (length new))
    /\ orders (run_db (scan_deposits' events) db) = orders db
    /\ ton_withdrawals (run_db (scan_deposits' events) db) = ton_withdrawals db.
Proof.
  destruct (scan_events_effect events db) as (new & H1 & H2 & H3 & H4 & H5 & H6 & _).
  exists new. unfold UsdtDeposit.scan_usdt_deposits. done.
Qed.

(** X14. The balances after a deposit scan.  The sum of [available] over
    all balance rows, and the sum of [total_deposited], grow by exactly the
    sum of the amounts of the rows the scan appended; the sum of [frozen]
    does not move.  No balance row disappears or is debited: a row keeps its
    [frozen] and [total_withdrawn], its [available] and [total_deposited] grow
    by the same amount, and a row in Stars or TON is left as it was. *)
Theorem deposit_scan_accounting events db :
  exists new,
    usdt_transactions (run_db (scan_deposits' events) db) = usdt_transactions db ++ new
    /\ balances_sum (fun _ b => available b)
         (user_balances (run_db (scan_deposits' events) db))
       = balances_sum (fun _ b => available b) (user_balances db) + amounts new
    /\ balances_sum (fun _ b => total_deposited b)
         (user_balances (run_db (scan_deposits' events) db))
       = balances_sum (fun _ b => total_deposited b) (user_balances db) + amounts new
    /\ balances_sum (fun _ b => frozen b)
         (user_balances (run_db (scan_deposits' events) db))
       = balances_sum (fun _ b => frozen b) (user_balances db)
    /\ (forall k b, user_balances db !! k = Some b ->
          exists b', user_balances (run_db (scan_deposits' events) db) !! k = Some b'
                     /\ credited_from k b b').
Proof.
  destruct (scan_events_effect events db)
    as (new & H1 & _ & _ & _ & _ & _ & H7 & H8 & H9 & H10).
  exists new. unfold UsdtDeposit.scan_usdt_deposits. done.
Qed.

End DepositBooks.

(** ** Stars *)

(** X15. A Stars payment is credited once.  The first delivery of a
    successful payment appends the transaction and credits the paid number of
    Stars to [available] and [total_deposited] of the payer's Stars row,
    creating the row if needed, and touches no other row; every later delivery
    with the same Telegram charge id, whatever else it carries, is answered as
    a success and changes nothing. *)
Theorem stars_payment_credits_once u n c p payload s :
  Stars.charged c (snd s) = false ->
  let s1 := fst (Stars._process_stars_payment u n c p payload s) in
  snd s1 = snd s ++ [mkStarsTransaction u n payload c p stars_completed]
  /\ user_balances (fst s1) !! (u, Stars)
     = Some (match user_balances (fst s) !! (u, Stars) with
             | Some bal => mkUserBalance (available bal + Stars.stars n) (frozen bal)
                             (total_deposited bal + Stars.stars n) (total_withdrawn bal)
             | None => mkUserBalance (Stars.stars n) 0 (Stars.stars n) 0
             end)
  /\ (forall k, k <> (u, Stars) -> user_balances (fst s1) !! k = user_balances (fst s) !! k)
  /\ forall u' n' p' payload',
       Stars._process_stars_payment u' n' c p' payload' s1 = (s1, true).
Proof.
  destruct s as [db txs]. simpl. intros Hc.
  unfold Stars._process_stars_payment. rewrite Hc. simpl.
  split; [done|]. split; [|split].
  - destruct (user_balances db !! (u, Stars)); by rewrite lookup_insert_eq.
  - intros k Hk. destruct (user_balances db !! (u, Stars));
      by rewrite lookup_insert_ne.
  - intros u' n' p' payload'. unfold Stars.charged. rewrite existsb_app. simpl.
    rewrite bool_decide_eq_true_2 by done. by rewrite orb_true_r.
Qed.

Lemma stars_payment_credits_once_witness :
  user_balances
    (fst (fst (Stars._process_stars_payment 100 25 (lit "ch_1") (lit "") (lit "topup_100_25")
                 (Cases.stars_db, [])))) !! (100, Stars)
  = Some (mkUserBalance (Stars.stars 75) 0 (Stars.stars 75) 0).
Proof.
  destruct (stars_payment_credits_once 100 25 (lit "ch_1") (lit "") (lit "topup_100_25")
              (Cases.stars_db, []) eq_refl) as (_ & Hbal & _).
  rewrite Hbal. reflexivity.
Defined.

(** X16. A top-up can be refunded once.  After a top-up was credited to a
    row whose [available] was not negative, [refund_stars] of that transaction
    by its owner, Telegram having accepted the refund, is answered, gives the
    balance table the value it had before the top-up and marks the
    transaction refunded; a further refund of it is answered 400 whatever
    Telegram says, and a refund Telegram refuses or fails is answered 500 and
    changes nothing. *)
Theorem stars_refund_round_trip u n c p payload db txs bal :
  Stars.charged c txs = false ->
  user_balances db !! (u, Stars) = Some bal ->
  0 <= available bal ->
  let s1 := fst (Stars._process_stars_payment u n c p payload (db, txs)) in
  let r := Stars.refund_stars (length txs) u (Some true) s1 in
  snd r = Orders.Response tt
  /\ user_balances (fst (fst r)) = user_balances db
  /\ (st_status <$> (snd (fst r) !! length txs)) = Some stars_refunded
  /\ (forall refunded,
        Stars.refund_stars (length txs) u refunded (fst r)
        = (fst r, Orders.HTTPException 400))
  /\ (forall refunded, refunded <> Some true ->
        Stars.refund_stars (length txs) u refunded s1 = (s1, Orders.HTTPException 500)).
Proof.
  intros Hc Hbal Hav. cbv zeta.
  unfold Stars._process_stars_payment. rewrite Hc, Hbal. simpl fst.
  unfold Stars.refund_stars.
  rewrite list_lookup_middle by done. simpl.
  rewrite !bool_decide_eq_true_2 by done. simpl.
  rewrite lookup_insert_eq. simpl.
  replace (available bal + Stars.stars n <? Stars.stars n) with false
    by (symmetry; apply Z.ltb_ge; lia).
  simpl. split; [done|]. split; [|split; [|split]].
  - rewrite insert_insert_eq. apply insert_id. rewrite Hbal. f_equal.
    destruct bal as [av fr td tw]. unfold set_total_deposited, set_available. simpl.
    f_equal; lia.
  - rewrite list_lookup_insert_eq; [done|]. rewrite length_app. simpl. lia.
  - intros refunded. rewrite list_lookup_insert_eq by (rewrite length_app; simpl; lia).
    simpl. rewrite bool_decide_eq_true_2 by done. done.
  - intros refunded Hr. destruct refunded as [[|]|]; done.
Qed.

Lemma stars_refund_round_trip_witness :
  user_balances
    (fst (fst (Stars.refund_stars 0 100 (Some true)
                 (fst (Stars._process_stars_payment 100 25 (lit "ch_1") (lit "")
                         (lit "topup_100_25") (Cases.stars_db, []))))))
  = user_balances Cases.stars_db.
Proof.
  destruct (stars_refund_round_trip 100 25 (lit "ch_1") (lit "") (lit "topup_100_25")
              Cases.stars_db [] (mkUserBalance (Stars.stars 50) 0 (Stars.stars 50) 0))
    as (_ & Hbal & _);
    [first [reflexivity | (vm_compute; discriminate)] .. |].
  exact Hbal.
Defined.

Lemma div_half_even_nearest n d :
  0 < d ->
  2 * Z.abs (n - Orders.div_half_even n d * d) <= d
  /\ (0 <= n -> 0 <= Orders.div_half_even n d)
  /\ (0 <= n -> 2 * n < d -> Orders.div_half_even n d = 0).
Proof.
  intros Hd. unfold Orders.div_half_even.
  pose proof (Z.div_mod n d ltac:(lia)) as Hn.
  pose proof (Z.mod_pos_bound n d Hd) as Hr.
  split; [|split].
  - set (q := n / d) in *. set (r := n mod d) in *. clearbody q r.
    destruct (2 * r <? d) eqn:H1; [apply Z.ltb_lt in H1; nia|].
    apply Z.ltb_ge in H1.
    destruct (d <? 2 * r) eqn:H2; [apply Z.ltb_lt in H2; nia|].
    apply Z.ltb_ge in H2.
    destruct (Z.even q); nia.
  - intros Hn0. assert (0 <= n / d) by (apply Z.div_pos; lia).
    set (q := n / d) in *. set (r := n mod d) in *. clearbody q r.
    destruct (2 * r <? d), (d <? 2 * r), (Z.even q); lia.
  - intros Hn0 Hsmall.
    rewrite (Z.div_small n d) by lia. rewrite (Z.mod_small n d) by lia.
    by replace (2 * n <? d) with true by (symmetry; apply Z.ltb_lt; lia).
Qed.

(** X17. Exchanging Stars for USDT.  With a positive rate, an exchange that
    is refused changes nothing; an accepted one takes exactly the requested
    Stars off the user's available Stars, credits the answered USDT amount to
    the user's USDT row (created if missing) and touches no other row.  The
    answered amount is the quotient rounded to the nearest cent, so it is
    zero, the Stars being spent all the same, when the Stars are worth less
    than half a cent. *)
Theorem stars_exchange_outcome n u rate db :
  0 < rate ->
  match Stars.exchange_stars_to_usdt n u rate db with
  | (db', Orders.HTTPException _) => db' = db
  | (db', Orders.Response usdt_amount) =>
      1 <= n
      /\ usdt_amount = Orders.div_half_even (n * 100) rate * 10000000
      /\ 0 <= usdt_amount
      /\ 2 * Z.abs (Stars.stars n - usdt_amount * rate) <= rate * 10000000
      /\ (200 * n < rate -> usdt_amount = 0)
      /\ orders db' = orders db
      /\ (forall k, k <> (u, Stars) -> k <> (u, Usdt) ->
            user_balances db' !! k = user_balances db !! k)
      /\ exists sb,
           user_balances db !! (u, Stars) = Some sb
           /\ Stars.stars n <= available sb
           /\ user_balances db' !! (u, Stars)
              = Some (mkUserBalance (available sb - Stars.stars n) (frozen sb)
                        (total_deposited sb) (total_withdrawn sb))
           /\ user_balances db' !! (u, Usdt)
              = Some (match user_balances db !! (u, Usdt) with
                      | Some ub => mkUserBalance (available ub + usdt_amount) (frozen ub)
                                     (total_deposited ub + usdt_amount) (total_withdrawn ub)
                      | None => mkUserBalance usdt_amount 0 usdt_amount 0
                      end)
  end.
Proof.
  intros Hrate. unfold Stars.exchange_stars_to_usdt.
  destruct (1 <=? n) eqn:Hn; [|done]. apply Z.leb_le in Hn. simpl.
  destruct (user_balances db !! (u, Stars)) as [sb|] eqn:Hsb; [|done].
  destruct (available sb <? Stars.stars n) eqn:Hav; [done|]. apply Z.ltb_ge in Hav.
  destruct (div_half_even_nearest (n * 100) rate Hrate) as (Hnear & Hpos & Hzero).
  split; [done|]. split; [done|]. split; [lia|].
  split; [unfold Stars.stars; lia|]. split; [intros Hs; rewrite Hzero; lia|].
  split; [done|]. split.
  - intros k Hs Hu. simpl.
    destruct (user_balances db !! (u, Usdt)); by rewrite !lookup_insert_ne.
  - exists sb. split; [done|]. split; [done|]. simpl. split.
    + destruct (user_balances db !! (u, Usdt));
        rewrite lookup_insert_ne by done; by rewrite lookup_insert_eq.
    + destruct (user_balances db !! (u, Usdt)); by rewrite lookup_insert_eq.
Qed.

Lemma stars_exchange_outcome_witness :
  snd (Stars.exchange_stars_to_usdt 1 100 300 Cases.stars_db) = Orders.Response 0.
Proof.
  pose proof (stars_exchange_outcome 1 100 300 Cases.stars_db ltac:(lia)) as H.
  destruct (Stars.exchange_stars_to_usdt 1 100 300 Cases.stars_db) as [db' [a|code]] eqn:E.
  - destruct H as (_ & _ & _ & _ & Hz & _). simpl. f_equal. apply Hz. lia.
  - apply (f_equal snd) in E. vm_compute in E. discriminate.
Defined.

(** ** Connected wallets *)

Lemma matching_none {A} (p : A -> bool) (rows : list A) :
  (forall a, a ∈ rows -> p a = false) -> scalar_one_or_none p rows = NoRow.
Proof.
  intros Hp. unfold scalar_one_or_none.
  destruct (matching p rows) as [|[i a] m] eqn:Hm; [done|].
  assert (Hin : In (i, a) (matching p rows)) by (rewrite Hm; by left).
  unfold matching in Hin. apply filter_In in Hin as [Hin Hpa]. simpl in Hpa.
  apply list_elem_of_In, elem_of_indexed in Hin as [_ Hl].
  rewrite (Hp a) in Hpa; [done|]. apply list_elem_of_lookup. by eexists.
Qed.

Lemma matching_elem {A} (p : A -> bool) (rows : list A) i a :
  (i, a) ∈ matching p rows <-> rows !! i = Some a /\ p a = true.
Proof.
  unfold matching. rewrite list_elem_of_In, filter_In, <- list_elem_of_In, elem_of_indexed.
  simpl. rewrite Nat.sub_0_r. split; [by intros [[_ H] Hp] | intros [H Hp]].
  split; [split; [lia | done] | done].
Qed.

Lemma matching_nodup {A} (p : A -> bool) (rows : list A) :
  NoDup (List.map fst (matching p rows)).
Proof.
  apply (sublist_NoDup _ (seq 0 (length rows))); [apply NoDup_seq|].
  apply indexed_fst_sublist.
Qed.

(** The row the query finds when exactly one row matches. *)
Lemma matching_one {A} (p : A -> bool) (rows : list A) i a :
  rows !! i = Some a -> p a = true ->
  (forall j b, rows !! j = Some b -> p b = true -> j = i) ->
  scalar_one_or_none p rows = OneRow i a.
Proof.
  intros Hi Hp Huniq. unfold scalar_one_or_none.
  pose proof (matching_nodup p rows) as Hnd.
  assert (Hall : forall j b, (j, b) ∈ matching p rows -> (j, b) = (i, a)).
  { intros j b Hjb. apply matching_elem in Hjb as [Hj Hpb].
    pose proof (Huniq j b Hj Hpb) as ->. congruence. }
  assert (Hin : (i, a) ∈ matching p rows) by (by apply matching_elem).
  destruct (matching p rows) as [|x [|y m]].
  - by apply elem_of_nil in Hin.
  - apply list_elem_of_singleton in Hin as <-. done.
  - destruct x as [xi xa], y as [yi ya].
    pose proof (Hall xi xa ltac:(by left)) as [= -> ->].
    pose proof (Hall yi ya ltac:(right; by left)) as [= -> ->].
    simpl in Hnd. apply NoDup_cons in Hnd as [Hnot _].
    exfalso. apply Hnot. by left.
Qed.

(** Two matching rows make the query raise. *)
Lemma matching_two {A} (p : A -> bool) (rows : list A) i j a b :
  i <> j -> rows !! i = Some a -> p a = true -> rows !! j = Some b -> p b = true ->
  scalar_one_or_none p rows = MultipleRows.
Proof.
  intros Hij Hi Hpa Hj Hpb. unfold scalar_one_or_none.
  assert (H1 : (i, a) ∈ matching p rows) by (by apply matching_elem).
  assert (H2 : (j, b) ∈ matching p rows) by (by apply matching_elem).
  destruct (matching p rows) as [|[k x] [|y m]]; [by apply elem_of_nil in H1| |done].
  apply list_elem_of_singleton in H1, H2. congruence.
Qed.

Lemma scalar_one_inv {A} (p : A -> bool) (rows : list A) i a :
  scalar_one_or_none p rows = OneRow i a -> rows !! i = Some a /\ p a = true.
Proof.
  unfold scalar_one_or_none. intros H. apply (matching_elem p).
  destruct (matching p rows) as [|[k x] [|y m]]; try done.
  injection H as -> ->. by left.
Qed.

Lemma disconnected_rows u now wallets w :
  w ∈ TonWallets.disconnect_wallet u now wallets ->
  bool_decide (w_telegram_id w = u) && w_is_primary w && w_is_active w = false.
Proof.
  unfold TonWallets.disconnect_wallet. rewrite list_elem_of_In, in_map_iff.
  intros (w0 & <- & _).
  destruct (bool_decide (w_telegram_id w0 = u) && w_is_primary w0 && w_is_active w0) eqn:H;
    [|done].
  simpl. by rewrite andb_false_r.
Qed.

(** X18. Connecting a wallet and asking for it.  When the user never
    connected the address, [connect_wallet] appends the wallet as the user's
    primary, active wallet and answers it as new; it changes no row of another
    user; [get_wallet_info] then answers exactly that wallet, however many
    primary wallets the user had before.  After [disconnect_wallet], on any
    table, [get_wallet_info] answers that no wallet is connected. *)
Theorem connect_then_info request u now wallets :
  (forall w, w ∈ wallets -> w_telegram_id w = u ->
             w_address w <> TonWallets.address request) ->
  let new := mkTonWallet u (TonWallets.address request) (TonWallets.friendlyAddress request)
               (TonWallets.walletName request) true true None in
  let ws := fst (TonWallets.connect_wallet request u wallets) in
  snd (TonWallets.connect_wallet request u wallets)
    = Orders.Response (length wallets, true)
  /\ ws !! length wallets = Some new
  /\ length ws = S (length wallets)
  /\ (forall i w, wallets !! i = Some w -> w_telegram_id w <> u -> ws !! i = Some w)
  /\ TonWallets.get_wallet_info u ws = Orders.Response (Some new)
  /\ (forall any, TonWallets.get_wallet_info u (TonWallets.disconnect_wallet u now any)
                  = Orders.Response None).
Proof.
  intros Hfresh new ws. subst ws.
  assert (Hdisc : forall any,
            TonWallets.get_wallet_info u (TonWallets.disconnect_wallet u now any)
            = Orders.Response None).
  { intros any. unfold TonWallets.get_wallet_info.
    rewrite matching_none; [done|]. intros w Hw. by apply disconnected_rows in Hw. }
  unfold TonWallets.connect_wallet.
  rewrite matching_none.
  2:{ intros w Hw. destruct (bool_decide (w_telegram_id w = u)) eqn:Hu; [|done].
      apply bool_decide_eq_true in Hu. simpl. apply bool_decide_eq_false.
      by apply Hfresh. }
  simpl. fold new.
  set (demote := fun w : TonWallet =>
                   if bool_decide (w_telegram_id w = u) && w_is_primary w
                   then mkTonWallet (w_telegram_id w) (w_address w) (w_friendly_address w)
                          (w_wallet_name w) false (w_is_active w) (w_disconnected_at w)
                   else w).
  assert (Hlen : length (List.map demote wallets) = length wallets) by apply length_map.
  split; [done|]. split; [|split; [|split; [|split; [|done]]]].
  - rewrite <- Hlen. by apply list_lookup_middle.
  - rewrite length_app, Hlen. simpl. lia.
  - intros i w Hi Hu. rewrite lookup_app_l by (rewrite Hlen; by apply lookup_lt_Some in Hi).
    change (List.map demote wallets) with (demote <$> wallets).
    rewrite list_lookup_fmap, Hi. simpl. unfold demote.
    by rewrite bool_decide_eq_false_2.
  - unfold TonWallets.get_wallet_info.
    rewrite (matching_one _ _ (length wallets) new); [done| | |].
    + rewrite <- Hlen. by apply list_lookup_middle.
    + simpl. by rewrite bool_decide_eq_true_2.
    + intros j b Hj Hp.
      destruct (decide (j < length wallets)%nat) as [Hlt | Hge].
      * exfalso. rewrite lookup_app_l in Hj by (by rewrite Hlen).
        change (List.map demote wallets) with (demote <$> wallets) in Hj.
        rewrite list_lookup_fmap in Hj.
        destruct (wallets !! j) as [w|]; [|done]. injection Hj as <-.
        unfold demote in Hp.
        destruct (bool_decide (w_telegram_id w = u)) eqn:Hu; simpl in Hp; [|by rewrite Hu in Hp].
        destruct (w_is_primary w) eqn:Hprim; simpl in Hp.
        -- by rewrite andb_false_r in Hp.
        -- by rewrite Hu, Hprim in Hp.
      * apply lookup_lt_Some in Hj. rewrite length_app, Hlen in Hj. simpl in Hj. lia.
Qed.

Lemma connect_then_info_witness :
  TonWallets.get_wallet_info 100
    (fst (TonWallets.connect_wallet Cases.connect_new 100 [Cases.wallet0; Cases.wallet1]))
  = Orders.Response
      (Some (mkTonWallet 100 (lit "0:a1b2c3d4") None (Some (lit "Tonkeeper")) true true None)).
Proof.
  apply (connect_then_info Cases.connect_new 100 0 [Cases.wallet0; Cases.wallet1]).
  intros w Hw _.
  apply elem_of_cons in Hw as [-> | Hw]; [by vm_compute|].
  apply list_elem_of_singleton in Hw as ->. by vm_compute.
Defined.

(** X19. Reconnecting an old wallet leaves two primary wallets.  When the
    address was connected before (the look-up of [connect_wallet] finds its
    row) and the user has another wallet that is primary and active,
    [connect_wallet] reactivates the old row as primary without demoting the
    other one; the user then has two primary active wallets, and
    [get_wallet_info], whose query expects at most one, fails. *)
Theorem reconnect_leaves_two_primaries request u wallets i old j cur :
  scalar_one_or_none
    (fun w => bool_decide (w_telegram_id w = u)
              && bool_decide (w_address w = TonWallets.address request)) wallets
    = OneRow i old ->
  wallets !! j = Some cur -> i <> j ->
  w_telegram_id cur = u -> w_is_primary cur = true -> w_is_active cur = true ->
  let ws := fst (TonWallets.connect_wallet request u wallets) in
  snd (TonWallets.connect_wallet request u wallets) = Orders.Response (i, false)
  /\ ws !! j = Some cur
  /\ (exists w, ws !! i = Some w /\ w_telegram_id w = u
                /\ w_is_primary w = true /\ w_is_active w = true)
  /\ TonWallets.get_wallet_info u ws = Orders.HTTPException 500.
Proof.
  intros Hone Hj Hij Hu Hprim Hact ws. subst ws.
  unfold TonWallets.connect_wallet. rewrite Hone. simpl.
  apply scalar_one_inv in Hone as [Hi Hp].
  apply andb_prop in Hp as [Hold _]. apply bool_decide_eq_true in Hold.
  assert (Hi' : (<[i := mkTonWallet (w_telegram_id old) (w_address old)
                         (TonWallets.or_else (TonWallets.friendlyAddress request)
                            (w_friendly_address old))
                         (TonWallets.or_else (TonWallets.walletName request)
                            (w_wallet_name old))
                         true true None]> wallets) !! i
                = Some (mkTonWallet (w_telegram_id old) (w_address old)
                          (TonWallets.or_else (TonWallets.friendlyAddress request)
                             (w_friendly_address old))
                          (TonWallets.or_else (TonWallets.walletName request)
                             (w_wallet_name old))
                          true true None)).
  { apply list_lookup_insert_eq. by apply lookup_lt_Some in Hi. }
  split; [done|]. split; [by rewrite list_lookup_insert_ne|].
  split; [eexists; split; [exact Hi'|done]|].
  unfold TonWallets.get_wallet_info.
  rewrite (matching_two _ _ i j _ cur Hij Hi'); [done| | |].
  - simpl. by rewrite bool_decide_eq_true_2.
  - by rewrite list_lookup_insert_ne.
  - by rewrite Hu, Hprim, Hact, bool_decide_eq_true_2.
Qed.

Lemma reconnect_leaves_two_primaries_witness :
  TonWallets.get_wallet_info 100
    (fst (TonWallets.connect_wallet Cases.connect_again 100 [Cases.wallet0; Cases.wallet1]))
  = Orders.HTTPException 500.
Proof.
  apply (reconnect_leaves_two_primaries Cases.connect_again 100
           [Cases.wallet0; Cases.wallet1] 0 Cases.wallet0 1 Cases.wallet1);
    first [reflexivity | lia].
Defined.

(** ** The delivery check *)

Lemma lstrip_by_length p s : (length (PyStr.lstrip_by p s) <= length s)%nat.
Proof.
  induction s as [|c s IH]; simpl; [done|]. destruct (p c); simpl; lia.
Qed.

Lemma strip_length s : (length (PyStr.strip s) <= length s)%nat.
Proof.
  unfold PyStr.strip, PyStr.rstrip_by. rewrite length_rev.
  etrans; [apply lstrip_by_length|]. rewrite length_rev. apply lstrip_by_length.
Qed.

(** The text the verifier expects is short enough for the truncation branch
    of [_content_matches] never to apply to it: the comparison is equality. *)
Lemma content_matches_exact order current :
  OrderVerifier._content_matches
    (OrderVerifier._build_expected_text order (PyStr.truthy (post_media_file_id order)))
    current order
  = PyStr.pystr_eqb
      (OrderVerifier._build_expected_text order (PyStr.truthy (post_media_file_id order)))
      current.
Proof.
  pose proof (expected_text_never_empty order (PyStr.truthy (post_media_file_id order)))
    as Hne.
  assert (Hshort : PyStr.truthy (post_media_file_id order) = true ->
            (1024 <? length (OrderVerifier._build_expected_text order true))%nat = false).
  { intros _. apply Nat.ltb_ge. unfold OrderVerifier._build_expected_text.
    set (full := OrderVerifier._normalize_text _).
    destruct (1024 <? length full)%nat eqn:Hlong; cbn [andb].
    - etrans; [apply strip_length|]. rewrite length_app, length_firstn.
      change (length OrderVerifier.DOTS) with 3%nat. lia.
    - by apply Nat.ltb_ge in Hlong. }
  unfold OrderVerifier._content_matches, PyStr.pystr_eqb.
  destruct (OrderVerifier._build_expected_text order _) as [|c e] eqn:He; [done|].
  match goal with |- (if ?b then true else _) = _ => destruct b; [done|] end.
  destruct current as [|x cur]; [done|].
  destruct (PyStr.truthy (post_media_file_id order)) eqn:Hm; [|done].
  rewrite He in Hshort. by rewrite (Hshort eq_refl).
Qed.

Lemma notify_post_edited_spec order db :
  exists log,
    OrderVerifier._notify_post_edited order db = (tt, db, log)
    /\ Forall (fun e => exists chat, chat <> 0 /\ e = SendMessage chat PostEdited) log.
Proof.
  unfold OrderVerifier._notify_post_edited, bind, emit, ret.
  destruct (bool_decide (buyer_telegram_id order = 0)) eqn:Hb;
    destruct (bool_decide (seller_telegram_id order = 0)) eqn:Hs;
    destruct (bool_decide (seller_telegram_id order = buyer_telegram_id order));
    simpl; eexists; (split; [reflexivity|]);
    try apply bool_decide_eq_false in Hb; try apply bool_decide_eq_false in Hs;
    repeat constructor; eauto.
Qed.

(** X20. When the verifier counts an order.  [verify_order] sets
    [verified_at] and counts the order only when the placement time has
    passed (up to the minute of tolerance), the channel exists, the forward to
    the configured verification chat succeeded, and the normalized text or
    caption of the forwarded message is equal to the expected text; it then
    changes nothing else and sends nothing.  In every other case the database
    is unchanged, and the only messages sent are post-edited notices. *)
Theorem verify_order_sound now chat forward oid order db :
  match OrderVerifier.verify_order now chat forward oid order db with
  | (true, db', log) =>
      log = []
      /\ db' = with_orders db (<[oid := set_verified_at order (Some now)]> (orders db))
      /\ exists t m channel c text caption,
           done_at order = Some t
           /\ published_channel_message_id order = Some m
           /\ match channel_ad_formats db !! format_id order with
              | Some fmt => duration_hours fmt
              | None => 24
              end * 3600 - 60 <= now - t
           /\ channels db !! channel_id order = Some channel
           /\ chat = Some c /\ c <> 0
           /\ forward (ch_telegram_id channel) m = OrderVerifier.Forwarded text caption
           /\ OrderVerifier._normalize_text
                (if PyStr.truthy text then PyStr.or_empty text
                 else if PyStr.truthy caption then PyStr.or_empty caption else [])
              = OrderVerifier._build_expected_text order
                  (PyStr.truthy (post_media_file_id order))
  | (false, db', log) =>
      db' = db
      /\ Forall (fun e => exists chat, chat <> 0 /\ e = SendMessage chat PostEdited) log
  end.
Proof.
  unfold OrderVerifier.verify_order.
  destruct (done_at order) as [t|]; [|done].
  destruct (published_channel_message_id order) as [m|]; [|done].
  destruct (_ <? _) eqn:Hdue; [done|]. apply Z.ltb_ge in Hdue.
  destruct (channels db !! channel_id order) as [channel|]; [|done].
  unfold OrderVerifier._fetch_post_content.
  destruct chat as [c|]; [|done].
  destruct (bool_decide (c = 0)) eqn:Hc; [done|]. apply bool_decide_eq_false in Hc.
  destruct (forward (ch_telegram_id channel) m) as [|text caption] eqn:Hf; [done|].
  simpl negb. cbv iota. unfold OrderVerifier.conclude.
  rewrite content_matches_exact. unfold PyStr.pystr_eqb.
  pose proof (expected_text_never_empty order (PyStr.truthy (post_media_file_id order)))
    as Hne.
  destruct (OrderVerifier._build_expected_text order _) as [|x e] eqn:He; [done|].
  match goal with |- context [negb ?b] => destruct b eqn:Heq; simpl end.
  - apply bool_decide_eq_true in Heq. split; [done|]. split; [done|].
    exists t, m, channel, c, text, caption. by rewrite Hf.
  - destruct (notify_post_edited_spec order db) as (log & -> & Hlog). done.
Qed.

Lemma verify_order_cases now chat forward oid order db :
  OrderVerifier.verify_order now chat forward oid order db
  = (true, with_orders db (<[oid := set_verified_at order (Some now)]> (orders db)), [])
  \/ exists log,
       OrderVerifier.verify_order now chat forward oid order db = (false, db, log)
       /\ Forall (fun e => exists chat, chat <> 0 /\ e = SendMessage chat PostEdited) log.
Proof.
  unfold OrderVerifier.verify_order.
  destruct (done_at order); [|right; by exists []].
  destruct (published_channel_message_id order); [|right; by exists []].
  destruct (_ <? _); [right; by exists []|].
  destruct (channels db !! channel_id order); [|right; by exists []].
  destruct (OrderVerifier._fetch_post_content _ _) as [[|] cur]; [|right; by exists []].
  simpl negb. cbv iota. unfold OrderVerifier.conclude.
  destruct (_ && _); [|by left].
  destruct (notify_post_edited_spec order db) as (log & -> & Hlog).
  right. by exists log.
Qed.

Lemma verify_orders_frame now chat forward rows :
  forall db,
    let db' := run_db (OrderVerifier.verify_orders now chat forward rows) db in
    user_balances db' = user_balances db
    /\ usdt_transactions db' = usdt_transactions db
    /\ ton_withdrawals db' = ton_withdrawals db
    /\ (forall j,
          orders db' !! j = orders db !! j
          \/ exists o, (j, o) ∈ rows
                       /\ orders db' !! j = Some (set_verified_at o (Some now)))
    /\ Forall (fun e => exists chat, chat <> 0 /\ e = SendMessage chat PostEdited)
         (run_log (OrderVerifier.verify_orders now chat forward rows) db)
    /\ 0 <= run_val (OrderVerifier.verify_orders now chat forward rows) db
       <= Z.of_nat (length rows).
Proof.
  induction rows as [|[oid order] rest IH]; intros db db'; subst db'.
  { unfold run_db, run_log, run_val. simpl. repeat split; try done. by left. }
  unfold run_db, run_log, run_val in *. simpl. unfold bind.
  destruct (verify_order_cases now chat forward oid order db) as [-> | (log & -> & Hlog)].
  - match goal with |- context [OrderVerifier.verify_orders _ _ _ rest ?d] =>
      set (db1 := d) end.
    destruct (IH db1) as (H1 & H2 & H3 & H4 & H5 & H6).
    destruct (OrderVerifier.verify_orders now chat forward rest db1) as [[n db2] l2].
    simpl in *. rewrite app_nil_r.
    split; [done|]. split; [done|]. split; [done|]. split; [|split; [done|lia]].
    intros j. destruct (H4 j) as [Hj | (o & Ho & Hj)].
    + destruct (decide (j = oid)) as [-> | Hne].
      * right. exists order. split; [by left|]. rewrite Hj. apply lookup_insert_eq.
      * left. rewrite Hj. by apply lookup_insert_ne.
    + right. exists o. split; [by right | done].
  - destruct (IH db) as (H1 & H2 & H3 & H4 & H5 & H6).
    destruct (OrderVerifier.verify_orders now chat forward rest db) as [[n db2] l2].
    simpl in *. rewrite app_nil_r.
    split; [done|]. split; [done|]. split; [done|].
    split; [|split; [by apply Forall_app|lia]].
    intros j. destruct (H4 j) as [Hj | (o & Ho & Hj)]; [by left|].
    right. exists o. split; [by right | done].
Qed.

(** X21. What a verifier run may change.  [verify_pending_orders] changes
    no balance, transaction or withdrawal row; an order after the run is the
    order before it, or that order with [verified_at] set to the time of the
    run, which only happens to orders the query selected (done, published,
    not yet verified); the only messages it sends are post-edited notices,
    never to chat 0; and it counts at most the selected orders. *)
Theorem verifier_run_frame now chat forward db :
  let run := OrderVerifier.verify_pending_orders now chat forward in
  user_balances (run_db run db) = user_balances db
  /\ usdt_transactions (run_db run db) = usdt_transactions db
  /\ ton_withdrawals (run_db run db) = ton_withdrawals db
  /\ (forall j,
        orders (run_db run db) !! j = orders db !! j
        \/ exists o, orders db !! j = Some o
                     /\ OrderVerifier.selected o = true
                     /\ orders (run_db run db) !! j = Some (set_verified_at o (Some now)))
  /\ Forall (fun e => exists c, c <> 0 /\ e = SendMessage c PostEdited) (run_log run db)
  /\ 0 <= run_val run db <= Z.of_nat (size (orders db)).
Proof.
  intros run. subst run.
  set (rows := List.filter (fun it => OrderVerifier.selected (snd it))
                 (map_to_list (orders db))).
  assert (Heq : OrderVerifier.verify_pending_orders now chat forward db
                = OrderVerifier.verify_orders now chat forward rows db).
  { unfold OrderVerifier.verify_pending_orders, bind, get_db. simpl. fold rows.
    destruct (OrderVerifier.verify_orders now chat forward rows db) as [[n d] l].
    done. }
  unfold run_db, run_log, run_val. rewrite Heq.
  destruct (verify_orders_frame now chat forward rows db) as (H1 & H2 & H3 & H4 & H5 & H6).
  unfold run_db, run_log, run_val in *.
  split; [done|]. split; [done|]. split; [done|]. split; [|split; [done|]].
  - intros j. destruct (H4 j) as [Hj | (o & Ho & Hj)]; [by left|].
    right. exists o. unfold rows in Ho.
    apply list_elem_of_In, filter_In in Ho as [Ho Hsel].
    apply list_elem_of_In, elem_of_map_to_list in Ho. done.
  - split; [lia|]. etrans; [apply H6|].
    apply inj_le. unfold rows. etrans; [apply List.filter_length_le|].
    by rewrite length_map_to_list.
Qed.

(** ** The order flow as a whole *)

Lemma order_op_sum f op db :
  total_weight f ->
  balances_sum f (user_balances (order_op op db)) = balances_sum f (user_balances db)
  /\ usdt_transactions (order_op op db) = usdt_transactions db
  /\ ton_withdrawals (order_op op db) = ton_withdrawals db.
Proof.
  intros Hf.
  assert (Hrel : forall o d,
            balances_sum f (user_balances (fst (OrderPayment.release_to_seller o d)))
            = balances_sum f (user_balances d)
            /\ usdt_transactions (fst (OrderPayment.release_to_seller o d))
               = usdt_transactions d
            /\ ton_withdrawals (fst (OrderPayment.release_to_seller o d))
               = ton_withdrawals d).
  { intros o d. split; [by apply release_preserves_sum|].
    destruct (escrow_call_keeps_tables (Release o) d) as (_ & H1 & H2 & _). done. }
  assert (Href : forall o d,
            balances_sum f (user_balances (fst (OrderPayment.refund_to_buyer o d)))
            = balances_sum f (user_balances d)
            /\ usdt_transactions (fst (OrderPayment.refund_to_buyer o d))
               = usdt_transactions d
            /\ ton_withdrawals (fst (OrderPayment.refund_to_buyer o d))
               = ton_withdrawals d).
  { intros o d. split; [by apply refund_preserves_sum|].
    destruct (escrow_call_keeps_tables (Refund o) d) as (_ & H1 & H2 & _). done. }
  destruct op; simpl; unfold run_db.
  - unfold Orders.create_order.
    destruct (Orders.checked_amount body telegram_id db) as [[seller amt]|code]; [|done].
    pose proof (freeze_preserves_sum f telegram_id (Orders.currency body) amt db Hf) as Hs.
    destruct (escrow_call_keeps_tables (Freeze telegram_id (Orders.currency body) amt) db)
      as (_ & H1 & H2 & _). simpl in H1, H2.
    destruct (OrderPayment.freeze_for_order telegram_id (Orders.currency body) amt db)
      as [db1 ok].
    destruct ok; simpl; [|done]. by destruct (Orders.token_in_use token db1).
  - unfold Orders.cancel_order.
    destruct (orders db !! order_id) as [order|]; [|done].
    destruct (negb _); [done|]. destruct (negb _); [done|].
    match goal with |- context [OrderPayment.refund_to_buyer order_id ?d] =>
      specialize (Href order_id d);
      destruct (OrderPayment.refund_to_buyer order_id d) as [db2 ok] end.
    done.
  - unfold Internal.order_post_update.
    destruct (Internal.load_order _ _ _ _ _); [|done]. by destruct (negb _).
  - unfold Internal.order_post_approve.
    by destruct (Internal.load_order _ _ _ _ _).
  - unfold Internal.order_seller_approve.
    destruct (Internal.load_order _ _ _ _ _); [|done]. destruct (negb _); [done|].
    match goal with |- context [OrderPayment.release_to_seller ?o ?d] =>
      specialize (Hrel o d);
      destruct (OrderPayment.release_to_seller o d) as [db2 ok] end.
    done.
  - unfold Internal.order_seller_revision.
    destruct (negb (_ && _)); [done|].
    destruct (Internal.load_order _ _ _ _ _); [|done]. by destruct (negb _).
  - unfold Internal.order_seller_decline.
    destruct (Internal.load_order _ _ _ _ _); [|done]. destruct (negb _); [done|].
    match goal with |- context [OrderPayment.refund_to_buyer ?o ?d] =>
      specialize (Href o d);
      destruct (OrderPayment.refund_to_buyer o d) as [db2 ok] end.
    done.
  - destruct (orders db !! order_id) as [order|] eqn:Ho.
    2:{ unfold Handlers.cb_seller_approve, bind, Handlers._get_order_and_channel.
        by rewrite Ho. }
    destruct (channels db !! channel_id order) as [channel|] eqn:Hc.
    2:{ unfold Handlers.cb_seller_approve, bind, Handlers._get_order_and_channel.
        by rewrite Ho, Hc. }
    destruct (bool_decide (status order = pending_seller)) eqn:Hst.
    2:{ unfold Handlers.cb_seller_approve, bind, Handlers._get_order_and_channel.
        by rewrite Ho, Hc, Hst. }
    destruct sent as [m|].
    2:{ unfold Handlers.cb_seller_approve, bind, Handlers._get_order_and_channel.
        by rewrite Ho, Hc, Hst. }
    apply bool_decide_eq_true in Hst.
    destruct (cb_seller_approve_eq order_id now db order channel m Ho Hc Hst)
      as (o' & _ & _ & _ & _ & _ & _ & _ & Heq).
    rewrite Heq. cbn [fst snd].
    exact (Hrel order_id (with_orders db (<[order_id := o']> (orders db)))).
  - unfold Handlers.cb_seller_decline, bind, Handlers._set_order_cancelled, emit.
    destruct (orders db !! order_id) as [order|]; [|done].
    match goal with |- context [OrderPayment.refund_to_buyer ?o ?d] =>
      specialize (Href o d);
      destruct (OrderPayment.refund_to_buyer o d) as [db2 ok] end.
    done.
  - unfold Handlers.on_seller_comment.
    destruct order_id as [oid|]; [|done].
    destruct (bool_decide (oid = 0)); [done|].
    destruct (PyStr.strip _) as [|c t]; [done|].
    unfold bind, Handlers._set_order_revision, Handlers._notify_buyer_revision_comment,
      Handlers._get_order_and_channel, emit, ret.
    destruct (orders db !! oid) as [order|]; [|done]. unfold bind. simpl.
    rewrite lookup_insert_eq. simpl.
    by destruct (channels db !! channel_id order).
Qed.

(** X22. The order flow conserves the ledger.  Whatever sequence of order
    routes and order handlers is called (creating, cancelling, writing and
    submitting the post, the seller's approval, revision and decline, through
    the HTTP routes or the bot) and whatever they answer, the sum of
    [available + frozen] over all balance rows, in total and per currency, is
    what it was at the start, and no transaction or withdrawal row is written.
    *)
Theorem order_flow_conserves_ledger ops db :
  ledger_total (order_ops ops db) = ledger_total db
  /\ (forall cur, ledger_total_of cur (order_ops ops db) = ledger_total_of cur db)
  /\ usdt_transactions (order_ops ops db) = usdt_transactions db
  /\ ton_withdrawals (order_ops ops db) = ton_withdrawals db.
Proof.
  revert db. induction ops as [|op ops IH]; intros db; [done|]. simpl.
  destruct (IH (order_op op db)) as (I1 & I2 & I3 & I4).
  destruct (order_op_sum _ op db total_weight_all) as (S1 & S2 & S3).
  split; [unfold ledger_total in *; congruence|]. split; [|split; congruence].
  intros cur. rewrite I2.
  apply (order_op_sum _ op db (total_weight_of cur)).
Qed.

(** X23. A paid order can be reopened and paid again.  [order_post_approve]
    does not read the status: called by the buyer on an order in any status,
    done or cancelled included, it puts the order back to pending_seller.  The
    seller's approval is then accepted again and [release_to_seller] moves the
    order's amount from whatever the buyer has frozen to the seller. *)
Theorem post_approve_reopens_order secret db oid order cur amt bal now :
  PyStr.truthy secret = true ->
  1 <= oid -> 1 <= buyer_telegram_id order -> 1 <= seller_telegram_id order ->
  orders db !! oid = Some order ->
  payment_currency order = Some cur -> payment_amount order = Some amt ->
  buyer_telegram_id order <> seller_telegram_id order ->
  user_balances db !! (buyer_telegram_id order, cur) = Some bal ->
  amt <= frozen bal ->
  let reopen := Internal.order_post_approve secret secret
                  (Internal.mkOrderIn oid (buyer_telegram_id order)) in
  let approve := Internal.order_seller_approve secret secret
                   (Internal.mkOrderIn oid (seller_telegram_id order)) now in
  run_val reopen db = Orders.Response (seller_telegram_id order)
  /\ (status <$> (orders (run_db reopen db) !! oid)) = Some pending_seller
  /\ user_balances (run_db reopen db) = user_balances db
  /\ run_val approve (run_db reopen db) = Orders.Response (buyer_telegram_id order)
  /\ run_log approve (run_db reopen db)
     = [OrderStatusCommitted oid done_; ReleaseCalled oid true]
  /\ user_balances (run_db approve (run_db reopen db)) !! (buyer_telegram_id order, cur)
     = Some (mkUserBalance (available bal) (frozen bal - amt)
               (total_deposited bal) (total_withdrawn bal))
  /\ user_balances (run_db approve (run_db reopen db)) !! (seller_telegram_id order, cur)
     = Some (match user_balances db !! (seller_telegram_id order, cur) with
             | Some s => mkUserBalance (available s + amt) (frozen s)
                           (total_deposited s) (total_withdrawn s)
             | None => mkUserBalance amt 0 0 0
             end).
Proof.
  intros Hs Ho Hb Hse Hord Hcur Hamt Hne Hbal Hle reopen approve.
  subst reopen approve. unfold run_val, run_db, run_log.
  unfold Internal.order_post_approve.
  rewrite (load_order_ok buyer_telegram_id secret
             (Internal.mkOrderIn oid (buyer_telegram_id order)) db order) by done.
  simpl. rewrite lookup_insert_eq. simpl.
  split; [done|]. split; [done|]. split; [done|].
  unfold Internal.order_seller_approve.
  erewrite (load_order_ok seller_telegram_id secret
              (Internal.mkOrderIn oid (seller_telegram_id order)));
    [| done | done | done | simpl; apply lookup_insert_eq | done].
  simpl. rewrite insert_insert_eq.
  match goal with
  | |- context [OrderPayment.release_to_seller oid (with_orders ?d0 (<[oid := ?o]> ?m))] =>
      set (o4 := o); set (d4 := with_orders d0 (<[oid := o4]> m))
  end.
  destruct (release_pays oid d4 o4 cur amt bal) as (Hok & Hbuyer & Hsel);
    [first [ done | (unfold d4; simpl; apply lookup_insert_eq) ] .. |].
  destruct (OrderPayment.release_to_seller oid d4) as [db4 ok]. cbn [fst snd] in *.
  subst ok. split; [done|]. split; [done|]. split; [exact Hbuyer | exact Hsel].
Qed.

Lemma post_approve_reopens_order_witness :
  (status <$> (orders Cases.paid_db !! 1)) = Some done_
  /\ user_balances
       (run_db (Internal.order_seller_approve (Some (lit "s3cret")) (Some (lit "s3cret"))
                  (Internal.mkOrderIn 1 200) 2000)
          (run_db (Internal.order_post_approve (Some (lit "s3cret")) (Some (lit "s3cret"))
                     (Internal.mkOrderIn 1 100)) Cases.paid_db)) !! (200, Usdt)
     = Some (mkUserBalance (Samples.usdt 60) 0 0 0).
Proof.
  split; [reflexivity|].
  destruct (post_approve_reopens_order (Some (lit "s3cret")) Cases.paid_db 1
              Samples.published_order Usdt (Samples.usdt 30)
              (mkUserBalance (Samples.usdt 20) (Samples.usdt 50) (Samples.usdt 100) 0) 2000)
    as (_ & _ & _ & _ & _ & _ & Hseller);
    [first [reflexivity | (simpl; lia) | (unfold Samples.usdt; simpl; lia)
           | (vm_compute; discriminate)] .. |].
  exact Hseller.
Defined.

(** ** The withdrawal request *)

Lemma numeric_near unit x : 0 < unit -> 2 * Z.abs (numeric unit x - x) <= unit.
Proof.
  intros Hu. unfold numeric.
  pose proof (Z.div_mod (2 * Z.abs x + unit) (2 * unit) ltac:(lia)) as Hdm.
  pose proof (Z.mod_pos_bound (2 * Z.abs x + unit) (2 * unit) ltac:(lia)) as Hr.
  set (q := (2 * Z.abs x + unit) / (2 * unit)) in *.
  set (r := (2 * Z.abs x + unit) mod (2 * unit)) in *.
  destruct (Z.sgn_spec x) as [[Hx ->] | [[Hx ->] | [Hx ->]]]; nia.
Qed.

Lemma numeric_nonneg unit x : 0 < unit -> 0 <= x -> 0 <= numeric unit x.
Proof.
  intros Hu Hx. unfold numeric.
  assert (0 <= (2 * Z.abs x + unit) / (2 * unit)) by (apply Z.div_pos; lia).
  assert (0 <= Z.sgn x) by lia. nia.
Qed.

(** X24. What [usdt_withdraw] accepts and leaves.  A refused request changes
    nothing.  An accepted one asked for at least the minimum and at most the
    available balance; [available] becomes what it was minus the full amount,
    kept to eight decimals, which is not negative, and [total_withdrawn] what
    it was plus the amount, kept to eight decimals; one pending withdrawal row
    is appended under the fresh identifier, for the amount minus the fee kept
    to six decimals, which is positive and within half a millionth of the
    amount minus the fee (and equal to it when the amount has at most six
    decimals), with the first 256 characters of the address, at least 40 of
    them, as destination. *)
Theorem usdt_withdraw_outcome body u wd_id db :
  match Wallet.usdt_withdraw body u wd_id db with
  | (db', Orders.HTTPException _) => db' = db
  | (db', Orders.Response st) =>
      st = pending
      /\ Wallet.has_event_id wd_id (usdt_transactions db) = false
      /\ orders db' = orders db
      /\ exists bal,
           user_balances db !! (u, Usdt) = Some bal
           /\ Wallet.USDT_WITHDRAW_MIN <= Wallet.req_amount body <= available bal
           /\ user_balances db'
              = <[(u, Usdt) :=
                    mkUserBalance (numeric8 (available bal - Wallet.req_amount body))
                      (frozen bal) (total_deposited bal)
                      (numeric8 (total_withdrawn bal + Wallet.req_amount body))]>
                  (user_balances db)
           /\ 0 <= numeric8 (available bal - Wallet.req_amount body)
           /\ exists m stored,
                usdt_transactions db'
                = usdt_transactions db
                  ++ [mkUsdtTransaction wd_id u stored (Some m)
                        (match Wallet.req_memo body with
                         | Some (c :: d) => Some (firstn 128 (c :: d))
                         | _ => None
                         end)
                        withdrawal pending None]
                /\ m = firstn 256 (Wallet.req_address body)
                /\ (40 <= length m <= 256)%nat
                /\ stored = numeric6 (Wallet.req_amount body - Wallet.USDT_WITHDRAW_FEE)
                /\ 0 < stored
                /\ 2 * Z.abs (stored - (Wallet.req_amount body - Wallet.USDT_WITHDRAW_FEE))
                   <= 1000
                /\ (at_scale 1000 (Wallet.req_amount body) ->
                    stored = Wallet.req_amount body - Wallet.USDT_WITHDRAW_FEE)
  end.
Proof.
  unfold Wallet.usdt_withdraw.
  destruct (Wallet.valid_request body) eqn:Hvalid; [|done]. simpl.
  destruct (user_balances db !! (u, Usdt)) as [bal|] eqn:Hbal; [|done].
  destruct (available bal <? Wallet.req_amount body) eqn:Hav; [done|].
  destruct (Wallet.has_event_id wd_id (usdt_transactions db)) eqn:Hid; [done|].
  apply Z.ltb_ge in Hav.
  unfold Wallet.valid_request in Hvalid.
  apply andb_prop in Hvalid as [Hvalid _].
  apply andb_prop in Hvalid as [Hvalid Hmax].
  apply andb_prop in Hvalid as [Hmin Hlen].
  apply Z.leb_le in Hmin. apply Nat.leb_le in Hlen, Hmax.
  split; [done|]. split; [done|]. split; [done|].
  exists bal. split; [done|]. split; [lia|]. split; [done|].
  split; [apply numeric_nonneg; lia|].
  pose proof (numeric_near 1000 (Wallet.req_amount body - Wallet.USDT_WITHDRAW_FEE)
                ltac:(lia)) as Hnear.
  exists (firstn 256 (Wallet.req_address body)),
         (numeric6 (Wallet.req_amount body - Wallet.USDT_WITHDRAW_FEE)).
  simpl. split.
  - destruct (Wallet.req_address body) as [|c a] eqn:Ha; [simpl in Hlen; lia|]. done.
  - split; [done|]. rewrite length_firstn. split; [lia|]. split; [done|].
    unfold numeric6.
    unfold Wallet.USDT_WITHDRAW_MIN, Wallet.USDT_WITHDRAW_FEE in *.
    split; [lia|]. split; [lia|].
    intros Hs. apply numeric_exact; [lia|].
    by apply (at_scale_add 1000 _ 300000000).
Qed.

(** ** Captions *)

(** X25. The caption of a photo post.  The caption [_publish_post_to_channel]
    sends with a photo never exceeds the 1024 characters Telegram accepts.
    When the text with the appended hashtag, the 17 characters of the literal
    in [handlers.py], fits, the caption is that text; when it does not, that
    is from 1008 characters of text on, the caption is its first 1000
    characters followed by three dots, and so no longer ends with the
    hashtag. *)
Theorem photo_caption_fits text :
  length POST_HASHTAG = 17%nat
  /\ (length (photo_caption text) <= 1024)%nat
  /\ ((length (PyStr.or_empty text) <= 1007)%nat ->
      photo_caption text = PyStr.or_empty text ++ POST_HASHTAG)
  /\ ((1008 <= length (PyStr.or_empty text))%nat ->
      photo_caption text
      = firstn 1000 (PyStr.or_empty text ++ POST_HASHTAG) ++ OrderVerifier.DOTS
      /\ length (photo_caption text) = 1003%nat
      /\ forall p, photo_caption text <> p ++ POST_HASHTAG).
Proof.
  split; [reflexivity|].
  unfold photo_caption.
  set (post_body := PyStr.or_empty text ++ POST_HASHTAG).
  assert (Hbody : length post_body = (length (PyStr.or_empty text) + 17)%nat).
  { subst post_body. by rewrite length_app. }
  destruct (length post_body <=? 1024)%nat eqn:Hfit.
  - apply Nat.leb_le in Hfit. rewrite take_ge by done.
    split; [done|]. split; [done|]. lia.
  - apply Nat.leb_gt in Hfit.
    assert (Hlen : length (firstn 1000 post_body ++ OrderVerifier.DOTS) = 1003%nat).
    { rewrite length_app, length_firstn.
      change (length OrderVerifier.DOTS) with 3%nat. lia. }
    split; [lia|]. split; [lia|]. intros _. split; [done|]. split; [done|].
    intros p Heq. apply (f_equal last) in Heq.
    change OrderVerifier.DOTS with ([46; 46] ++ [46])%N in Heq.
    change POST_HASHTAG
      with ([10; 10; 35; 8211; 8224; 8211; 181; 8211; 8747; 8211; 170; 8211; 8734; 8211;
             186; 8211] ++ [8734])%N in Heq.
    rewrite !app_assoc, !last_snoc in Heq. discriminate.
Qed.

(** ** No balance goes negative *)

Lemma nonneg_orders_insert db o order order' :
  nonneg_orders db -> orders db !! o = Some order ->
  payment_amount order' = payment_amount order ->
  nonneg_orders (with_orders db (<[o := order']> (orders db))).
Proof.
  intros Hn Ho Hamt j x amt. simpl. rewrite lookup_insert.
  destruct (decide (o = j)) as [<- | Hne]; [|apply Hn].
  intros [= <-]. rewrite Hamt. apply (Hn o order amt Ho).
Qed.

Lemma nonneg_after_call c d bals :
  user_balances d = bals ->
  (forall k b, bals !! k = Some b -> 0 <= available b /\ 0 <= frozen b) ->
  nonneg_orders d -> nonneg_call c ->
  nonneg_balances (fst (escrow_call c d)) /\ nonneg_orders (fst (escrow_call c d)).
Proof.
  intros <- Hb Ho Hc. split; [by apply escrow_call_nonneg|].
  unfold nonneg_orders. destruct (escrow_call_keeps_tables c d) as [-> _]. apply Ho.
Qed.

Lemma checked_amount_nonneg body u db seller amt :
  Orders.checked_amount body u db = Orders.Response (seller, amt) -> 0 <= amt.
Proof.
  unfold Orders.checked_amount.
  destruct (channels db !! _) as [channel|]; [|done].
  destruct (negb _); [done|]. destruct (bool_decide _); [done|].
  destruct (channel_ad_formats db !! _) as [fmt|]; [|done].
  destruct (negb _); [done|].
  destruct (Orders.currency body).
  - destruct (bool_decide _); [done|]. simpl.
    destruct (price_stars fmt <=? 0) eqn:Hp; [done|]. apply Z.leb_gt in Hp.
    intros [= _ <-]. lia.
  - destruct (price_usdt fmt) as [p|]; [|done]. destruct (bool_decide _); [done|]. simpl.
    destruct (p <=? 0) eqn:Hp; [done|]. apply Z.leb_gt in Hp.
    intros [= _ <-]. unfold Orders._get_ton_price_for_usdt.
    set (rate := match ton_usd_price db with
                 | Some q => if bool_decide (q ≠ 0) && (0 <? q) then q else 5000000000
                 | None => 5000000000
                 end).
    assert (Hrate : 0 < rate).
    { unfold rate. destruct (ton_usd_price db) as [q|]; [|lia].
      destruct (bool_decide (q ≠ 0)); simpl; [|lia].
      destruct (0 <? q) eqn:Hq; [by apply Z.ltb_lt in Hq | lia]. }
    destruct (div_half_even_nearest (p * 100) rate Hrate) as (_ & Hpos & _).
    specialize (Hpos ltac:(lia)). lia.
  - destruct (price_usdt fmt) as [p|]; [|done]. destruct (bool_decide _); [done|]. simpl.
    destruct (p <=? 0) eqn:Hp; [done|]. apply Z.leb_gt in Hp.
    intros [= _ <-]. lia.
Qed.

Lemma order_op_nonneg op db :
  nonneg_balances db -> nonneg_orders db ->
  nonneg_balances (order_op op db) /\ nonneg_orders (order_op op db).
Proof.
  intros Hb Ho.
  assert (Hset : forall o order st,
            orders db !! o = Some order ->
            nonneg_orders (with_orders db (<[o := set_status order st]> (orders db)))).
  { intros o order st Hord. by apply (nonneg_orders_insert db o order). }
  destruct op; simpl; unfold run_db.
  - unfold Orders.create_order.
    destruct (Orders.checked_amount body telegram_id db) as [[seller amt]|code] eqn:Hchk;
      [|done].
    apply checked_amount_nonneg in Hchk.
    destruct (nonneg_after_call (Freeze telegram_id (Orders.currency body) amt) db
                (user_balances db) eq_refl Hb Ho Hchk) as [Hb1 Ho1].
    simpl in Hb1, Ho1.
    destruct (OrderPayment.freeze_for_order telegram_id (Orders.currency body) amt db)
      as [db1 ok].
    destruct ok; [|done]. simpl in *.
    destruct (Orders.token_in_use token db1); [done|]. split; [done|].
    intros j x a. simpl. rewrite lookup_insert.
    destruct (decide (orders_seq db1 = j)); [|apply Ho1].
    intros [= <-]. simpl. intros [= <-]. done.
  - unfold Orders.cancel_order.
    destruct (orders db !! order_id) as [order|] eqn:Hord; [|done].
    destruct (negb _); [done|]. destruct (negb _); [done|].
    match goal with |- context [OrderPayment.refund_to_buyer order_id ?d] =>
      destruct (nonneg_after_call (Refund order_id) d (user_balances db) eq_refl Hb
                  (Hset order_id order cancelled Hord) I) as [H1 H2];
      simpl in H1, H2;
      destruct (OrderPayment.refund_to_buyer order_id d) as [db2 ok] end.
    done.
  - unfold Internal.order_post_update.
    destruct (Internal.load_order _ _ _ _ _) as [order|] eqn:Hl; [|done].
    destruct (negb _); [done|]. simpl. split; [done|].
    apply load_order_response in Hl as (_ & _ & Hord & _).
    by apply (nonneg_orders_insert db _ order).
  - unfold Internal.order_post_approve.
    destruct (Internal.load_order _ _ _ _ _) as [order|] eqn:Hl; [|done].
    simpl. split; [done|].
    apply load_order_response in Hl as (_ & _ & Hord & _). by apply Hset.
  - unfold Internal.order_seller_approve.
    destruct (Internal.load_order _ _ _ _ _) as [order|] eqn:Hl; [|done].
    destruct (negb _); [done|].
    apply load_order_response in Hl as (_ & _ & Hord & _).
    match goal with |- context [OrderPayment.release_to_seller ?o ?d] =>
      destruct (nonneg_after_call (Release o) d (user_balances db) eq_refl Hb
                  ltac:(by apply (nonneg_orders_insert db _ order)) I) as [H1 H2];
      simpl in H1, H2;
      destruct (OrderPayment.release_to_seller o d) as [db2 ok] end.
    done.
  - unfold Internal.order_seller_revision.
    destruct (negb (_ && _)); [done|].
    destruct (Internal.load_order _ _ _ _ _) as [order|] eqn:Hl; [|done].
    destruct (negb _); [done|]. simpl. split; [done|].
    apply load_order_response in Hl as (_ & _ & Hord & _).
    by apply (nonneg_orders_insert db _ order).
  - unfold Internal.order_seller_decline.
    destruct (Internal.load_order _ _ _ _ _) as [order|] eqn:Hl; [|done].
    destruct (negb _); [done|].
    apply load_order_response in Hl as (_ & _ & Hord & _).
    match goal with |- context [OrderPayment.refund_to_buyer ?o ?d] =>
      destruct (nonneg_after_call (Refund o) d (user_balances db) eq_refl Hb
                  (Hset _ order cancelled Hord) I) as [H1 H2];
      simpl in H1, H2;
      destruct (OrderPayment.refund_to_buyer o d) as [db2 ok] end.
    done.
  - destruct (orders db !! order_id) as [order|] eqn:Hord.
    2:{ unfold Handlers.cb_seller_approve, bind, Handlers._get_order_and_channel.
        by rewrite Hord. }
    destruct (channels db !! channel_id order) as [channel|] eqn:Hc.
    2:{ unfold Handlers.cb_seller_approve, bind, Handlers._get_order_and_channel.
        by rewrite Hord, Hc. }
    destruct (bool_decide (status order = pending_seller)) eqn:Hst.
    2:{ unfold Handlers.cb_seller_approve, bind, Handlers._get_order_and_channel.
        by rewrite Hord, Hc, Hst. }
    destruct sent as [m|].
    2:{ unfold Handlers.cb_seller_approve, bind, Handlers._get_order_and_channel.
        by rewrite Hord, Hc, Hst. }
    apply bool_decide_eq_true in Hst.
    destruct (cb_seller_approve_eq order_id now db order channel m Hord Hc Hst)
      as (o' & _ & _ & _ & _ & _ & _ & Hamt & Heq).
    rewrite Heq. cbn [fst snd].
    exact (nonneg_after_call (Release order_id)
             (with_orders db (<[order_id := o']> (orders db))) (user_balances db)
             eq_refl Hb (nonneg_orders_insert db order_id order o' Ho Hord Hamt) I).
  - unfold Handlers.cb_seller_decline, bind, Handlers._set_order_cancelled, emit.
    destruct (orders db !! order_id) as [order|] eqn:Hord; [|done].
    match goal with |- context [OrderPayment.refund_to_buyer ?o ?d] =>
      destruct (nonneg_after_call (Refund o) d (user_balances db) eq_refl Hb
                  (Hset _ order cancelled Hord) I) as [H1 H2];
      simpl in H1, H2;
      destruct (OrderPayment.refund_to_buyer o d) as [db2 ok] end.
    done.
  - unfold Handlers.on_seller_comment.
    destruct order_id as [oid|]; [|done].
    destruct (bool_decide (oid = 0)); [done|].
    destruct (PyStr.strip _) as [|c t]; [done|].
    unfold bind, Handlers._set_order_revision, Handlers._notify_buyer_revision_comment,
      Handlers._get_order_and_channel, emit, ret.
    destruct (orders db !! oid) as [order|] eqn:Hord; [|done]. unfold bind. simpl.
    rewrite lookup_insert_eq. simpl.
    destruct (channels db !! channel_id order); simpl;
      (split; [done|]); by apply (nonneg_orders_insert db _ order).
Qed.

(** X26. The order flow never drives a balance negative.  From a database
    whose balance rows have non-negative [available] and [frozen] and whose
    orders carry non-negative amounts, every sequence of order routes and
    order handlers, whatever they answer, leads to a database with the same
    two properties: an order is never created with a negative amount, and no
    freeze, release or refund reached through the flow overdraws a row. *)
Theorem order_flow_keeps_balances_nonneg ops db :
  nonneg_balances db -> nonneg_orders db ->
  nonneg_balances (order_ops ops db) /\ nonneg_orders (order_ops ops db).
Proof.
  revert db. induction ops as [|op ops IH]; intros db Hb Ho; [done|]. simpl.
  destruct (order_op_nonneg op db Hb Ho) as [Hb1 Ho1]. by apply IH.
Qed.

Lemma order_flow_keeps_balances_nonneg_witness :
  nonneg_balances
    (order_ops [OpBotDecline 1; OpBotDecline 1;
                OpCreate Samples.order_usdt 100 Samples.token; OpCancel 2 100]
       Samples.pending_db).
Proof.
  apply order_flow_keeps_balances_nonneg; apply pending_db_nonneg.
Defined.

(** ** A revision *)

(** X27. A revision round.  While an order waits for the seller the buyer
    cannot change its post: [order_post_update] answers 400.  When the seller
    asks for a revision the order goes back to writing_post with the comment
    stored and the post and every balance as they were; the buyer's update is
    then accepted and replaces the text, and submitting it again puts the
    order back to pending_seller, still with the same amount frozen. *)
Theorem revision_round secret db oid order comment text :
  PyStr.truthy secret = true ->
  1 <= oid -> 1 <= buyer_telegram_id order -> 1 <= seller_telegram_id order ->
  orders db !! oid = Some order ->
  status order = pending_seller ->
  (1 <= length comment <= 2000)%nat ->
  let buyer := Internal.mkOrderIn oid (buyer_telegram_id order) in
  let seller := Internal.mkOrderIn oid (seller_telegram_id order) in
  let db1 := run_db (Internal.order_seller_revision secret secret seller comment) db in
  let db2 := run_db (Internal.order_post_update secret secret buyer (Some text) None) db1 in
  let db3 := run_db (Internal.order_post_approve secret secret buyer) db2 in
  Internal.order_post_update secret secret buyer (Some text) None db
    = (Orders.HTTPException 400, db, [])
  /\ run_val (Internal.order_seller_revision secret secret seller comment) db
     = Orders.Response tt
  /\ orders db1 !! oid
     = Some (set_seller_revision_comment (set_status order writing_post) (Some comment))
  /\ run_val (Internal.order_post_update secret secret buyer (Some text) None) db1
     = Orders.Response tt
  /\ run_val (Internal.order_post_approve secret secret buyer) db2
     = Orders.Response (seller_telegram_id order)
  /\ (exists o3, orders db3 !! oid = Some o3
                 /\ status o3 = pending_seller
                 /\ post_text_html o3 = Some text
                 /\ post_media_file_id o3 = post_media_file_id order
                 /\ seller_revision_comment o3 = Some comment
                 /\ payment_amount o3 = payment_amount order
                 /\ payment_currency o3 = payment_currency order)
  /\ user_balances db3 = user_balances db
  /\ (forall j, j <> oid -> orders db3 !! j = orders db !! j).
Proof.
  intros Hs Ho Hb Hse Hord Hst [Hc1 Hc2] buyer seller db1 db2 db3.
  subst db3 db2 db1 buyer seller. unfold run_db, run_val.
  split.
  { unfold Internal.order_post_update.
    rewrite (load_order_ok buyer_telegram_id secret _ db order) by done.
    by rewrite Hst. }
  unfold Internal.order_seller_revision.
  rewrite (proj2 (Nat.leb_le _ _) Hc1), (proj2 (Nat.leb_le _ _) Hc2).
  cbn [andb negb].
  rewrite (load_order_ok seller_telegram_id secret _ db order) by done.
  rewrite Hst. rewrite bool_decide_eq_true_2 by done. cbn [negb fst snd].
  split; [done|]. split; [simpl; apply lookup_insert_eq|].
  unfold Internal.order_post_update.
  erewrite (load_order_ok buyer_telegram_id secret (Internal.mkOrderIn oid _));
    [| done | done | done | simpl; apply lookup_insert_eq | done].
  simpl. split; [done|].
  unfold Internal.order_post_approve.
  erewrite (load_order_ok buyer_telegram_id secret (Internal.mkOrderIn oid _));
    [| done | done | done | simpl; apply lookup_insert_eq | done].
  simpl. split; [done|]. split; [|split; [done|]].
  - eexists. split; [apply lookup_insert_eq|]. done.
  - intros j Hj. by rewrite !lookup_insert_ne.
Qed.

Lemma revision_round_witness :
  (post_text_html <$>
     (orders
        (run_db (Internal.order_post_approve (Some (lit "s3cret")) (Some (lit "s3cret"))
                   (Internal.mkOrderIn 1 100))
           (run_db (Internal.order_post_update (Some (lit "s3cret")) (Some (lit "s3cret"))
                      (Internal.mkOrderIn 1 100) (Some (lit "Buy today")) None)
              (run_db (Internal.order_seller_revision (Some (lit "s3cret"))
                         (Some (lit "s3cret")) (Internal.mkOrderIn 1 200) (lit "shorter"))
                 Samples.pending_db))) !! 1))
  = Some (Some (lit "Buy today")).
Proof.
  destruct (revision_round (Some (lit "s3cret")) Samples.pending_db 1
              (Samples.order30 pending_seller) (lit "shorter") (lit "Buy today"))
    as (_ & _ & _ & _ & _ & (o3 & Ho3 & _ & Htext & _) & _);
    [first [reflexivity | (simpl; lia)] .. |].
  change (buyer_telegram_id (Samples.order30 pending_seller)) with 100 in Ho3.
  change (seller_telegram_id (Samples.order30 pending_seller)) with 200 in Ho3.
  rewrite Ho3. simpl. by rewrite Htext.
Defined.
